(** * Hotel.py: the management layer [GestorHotel] over a store of objects

    The Python program keeps three registries (lists of object references)
    inside one [GestorHotel] and mutates the referenced [Habitacion],
    [Cliente] and [Reserva] objects in place.  Objects are shared: the same
    room object is reachable from the room registry and from every
    reservation bound to it, the same reservation object from the global
    registry and from its client's own list.  The embedding therefore keeps
    an explicit store of objects addressed by references and threads it
    through every method with a small state-and-error monad. *)

From Stdlib Require Import ZArith String Floats.PrimFloat.
From stdpp Require Import base tactics option list.

Open Scope Z_scope.
Open Scope string_scope.
Open Scope list_scope.

(** ** Entity model *)

(** A reference to an object: its index in the store of its class. *)
Abbreviation loc := nat.

(** [datetime] values as the shell builds them from [YYYY-MM-DD]. *)
Record datetime := mkfecha { anio : Z; mes : Z; dia : Z }.

(** The concrete subclass of [Habitacion] an object was built with. *)
Inductive Clase := Estandar | Suite | Deluxe.

Record Habitacion := mkHabitacion {
  clase : Clase;
  numero : Z;
  tipo : string;
  precio_por_noche : float;
  disponible : bool
}.

Record Cliente := mkCliente {
  nombres : string;
  apellidos : string;
  dpi : string;
  cli_reservas : list loc
}.

Record Reserva := mkReserva {
  cliente : loc;
  habitacion : loc;
  fecha_entrada : datetime;
  fecha_salida : datetime;
  estado : string
}.

(** Attribute assignments [obj.campo = v]. *)
Definition con_precio (p : float) (H : Habitacion) : Habitacion :=
  mkHabitacion (clase H) (numero H) (tipo H) p (disponible H).
Definition con_disponible (b : bool) (H : Habitacion) : Habitacion :=
  mkHabitacion (clase H) (numero H) (tipo H) (precio_por_noche H) b.
Definition con_nombres (n a : string) (C : Cliente) : Cliente :=
  mkCliente n a (dpi C) (cli_reservas C).
Definition con_reservas (l : list loc) (C : Cliente) : Cliente :=
  mkCliente (nombres C) (apellidos C) (dpi C) l.
Definition con_fechas (fe fs : datetime) (R : Reserva) : Reserva :=
  mkReserva (cliente R) (habitacion R) fe fs (estado R).
Definition con_estado (e : string) (R : Reserva) : Reserva :=
  mkReserva (cliente R) (habitacion R) (fecha_entrada R) (fecha_salida R) e.

(** ** The store and the manager

    [mem_hab], [mem_cli] and [mem_res] hold every object ever built, in
    allocation order; [habitaciones], [clientes] and [reservas] are the
    three lists of [GestorHotel]. *)
Record Mundo := mkMundo {
  mem_hab : list Habitacion;
  mem_cli : list Cliente;
  mem_res : list Reserva;
  habitaciones : list loc;
  clientes : list loc;
  reservas : list loc
}.

(** [GestorHotel.__init__] in a store without objects. *)
Definition inicial : Mundo := mkMundo [] [] [] [] [] [].

(** ** State-and-error monad

    [None] stands for a reference that does not denote an object, which no
    Python execution can produce; [bien_formado] below excludes it. *)
Definition M (A : Type) : Type := Mundo -> option (A * Mundo).

Definition ret {A} (a : A) : M A := fun s => Some (a, s).
Definition bind {A B} (m : M A) (k : A -> M B) : M B :=
  fun s => match m s with
           | Some (a, s') => k a s'
           | None => None
           end.

Notation "x <- m ;; k" := (bind m (fun x => k))
  (at level 100, m at next level, right associativity).
Notation "m ;;; k" := (bind m (fun _ => k))
  (at level 100, right associativity).

Definition leer_habitacion (h : loc) : M Habitacion :=
  fun s => match mem_hab s !! h with Some H => Some (H, s) | None => None end.
Definition leer_cliente (c : loc) : M Cliente :=
  fun s => match mem_cli s !! c with Some C => Some (C, s) | None => None end.
Definition leer_reserva (r : loc) : M Reserva :=
  fun s => match mem_res s !! r with Some R => Some (R, s) | None => None end.

(** The store after [obj.campo = v] on the object behind a reference. *)
Definition poner_habitacion (h : loc) (H : Habitacion) (s : Mundo) : Mundo :=
  mkMundo (<[h := H]> (mem_hab s)) (mem_cli s) (mem_res s)
          (habitaciones s) (clientes s) (reservas s).
Definition poner_cliente (c : loc) (C : Cliente) (s : Mundo) : Mundo :=
  mkMundo (mem_hab s) (<[c := C]> (mem_cli s)) (mem_res s)
          (habitaciones s) (clientes s) (reservas s).
Definition poner_reserva (r : loc) (R : Reserva) (s : Mundo) : Mundo :=
  mkMundo (mem_hab s) (mem_cli s) (<[r := R]> (mem_res s))
          (habitaciones s) (clientes s) (reservas s).

Definition escribir_habitacion (h : loc) (H : Habitacion) : M unit :=
  fun s => Some (tt, poner_habitacion h H s).
Definition escribir_cliente (c : loc) (C : Cliente) : M unit :=
  fun s => Some (tt, poner_cliente c C s).
Definition escribir_reserva (r : loc) (R : Reserva) : M unit :=
  fun s => Some (tt, poner_reserva r R s).

Definition leer_habitaciones : M (list loc) := fun s => Some (habitaciones s, s).
Definition leer_clientes : M (list loc) := fun s => Some (clientes s, s).
Definition leer_reservas : M (list loc) := fun s => Some (reservas s, s).

Definition con_habitaciones (l : list loc) (s : Mundo) : Mundo :=
  mkMundo (mem_hab s) (mem_cli s) (mem_res s) l (clientes s) (reservas s).

Definition asignar_habitaciones (l : list loc) : M unit :=
  fun s => Some (tt, con_habitaciones l s).
Definition asignar_clientes (l : list loc) : M unit :=
  fun s => Some (tt, mkMundo (mem_hab s) (mem_cli s) (mem_res s)
                             (habitaciones s) l (reservas s)).
Definition asignar_reservas (l : list loc) : M unit :=
  fun s => Some (tt, mkMundo (mem_hab s) (mem_cli s) (mem_res s)
                             (habitaciones s) (clientes s) l).

(** ** Constructors *)

Definition nueva_habitacion (k : Clase) (n : Z) (t : string) (p : float) : M loc :=
  fun s => Some (length (mem_hab s),
                 mkMundo (mem_hab s ++ [mkHabitacion k n t p true]) (mem_cli s)
                         (mem_res s) (habitaciones s) (clientes s) (reservas s)).

Definition HabitacionEstandar (n : Z) (p : float) : M loc :=
  nueva_habitacion Estandar n "Estándar" p.
Definition HabitacionSuite (n : Z) (p : float) : M loc :=
  nueva_habitacion Suite n "Suite" p.
Definition HabitacionDeluxe (n : Z) (p : float) : M loc :=
  nueva_habitacion Deluxe n "Deluxe" p.

Definition factor_descuento (k : Clase) : float :=
  match k with
  | Estandar => 0x1.e666666666666p-1%float
  | Suite => 0x1.ccccccccccccdp-1%float
  | Deluxe => 0x1.b333333333333p-1%float
  end.

Definition aplicar_descuento (h : loc) : M unit :=
  H <- leer_habitacion h ;;
  escribir_habitacion h
    (con_precio (PrimFloat.mul (precio_por_noche H) (factor_descuento (clase H))) H).

Definition nuevo_Cliente (n a d : string) : M loc :=
  fun s => Some (length (mem_cli s),
                 mkMundo (mem_hab s) (mem_cli s ++ [mkCliente n a d []])
                         (mem_res s) (habitaciones s) (clientes s) (reservas s)).

Definition nueva_Reserva (c h : loc) (fe fs : datetime) : M loc :=
  fun s => Some (length (mem_res s),
                 mkMundo (mem_hab s) (mem_cli s)
                         (mem_res s ++ [mkReserva c h fe fs "Activa"])
                         (habitaciones s) (clientes s) (reservas s)).

(** ** GestorHotel *)

Definition agregar_habitacion (h : loc) : M unit :=
  l <- leer_habitaciones ;; asignar_habitaciones (l ++ [h]).

Fixpoint modificar_habitacion_desde (l : list loc) (n : Z) (nuevo_precio : float)
  : M bool :=
  match l with
  | [] => ret false
  | h :: l' =>
      H <- leer_habitacion h ;;
      if Z.eqb (numero H) n
      then escribir_habitacion h (con_precio nuevo_precio H) ;;; ret true
      else modificar_habitacion_desde l' n nuevo_precio
  end.

Definition modificar_habitacion (n : Z) (nuevo_precio : float) : M bool :=
  l <- leer_habitaciones ;; modificar_habitacion_desde l n nuevo_precio.

(** The comprehension [[h for h in self.habitaciones if h.numero != numero]]. *)
Fixpoint sin_numero (l : list loc) (n : Z) : M (list loc) :=
  match l with
  | [] => ret []
  | h :: l' =>
      H <- leer_habitacion h ;;
      resto <- sin_numero l' n ;;
      ret (if Z.eqb (numero H) n then resto else h :: resto)
  end.

Definition eliminar_habitacion (n : Z) : M unit :=
  l <- leer_habitaciones ;;
  l' <- sin_numero l n ;;
  asignar_habitaciones l'.

Definition registrar_cliente (c : loc) : M unit :=
  l <- leer_clientes ;; asignar_clientes (l ++ [c]).

Fixpoint actualizar_cliente_desde (l : list loc) (d nn na : string) : M bool :=
  match l with
  | [] => ret false
  | c :: l' =>
      C <- leer_cliente c ;;
      if String.eqb (dpi C) d
      then escribir_cliente c (con_nombres nn na C) ;;; ret true
      else actualizar_cliente_desde l' d nn na
  end.

Definition actualizar_cliente (d nn na : string) : M bool :=
  l <- leer_clientes ;; actualizar_cliente_desde l d nn na.

Definition crear_reserva (r : loc) : M bool :=
  R <- leer_reserva r ;;
  H <- leer_habitacion (habitacion R) ;;
  if disponible H then
    escribir_habitacion (habitacion R) (con_disponible false H) ;;;
    l <- leer_reservas ;;
    asignar_reservas (l ++ [r]) ;;;
    C <- leer_cliente (cliente R) ;;
    escribir_cliente (cliente R) (con_reservas (cli_reservas C ++ [r]) C) ;;;
    ret true
  else ret false.

(** The test [reserva.cliente.dpi == d and reserva.habitacion.numero == n];
    [and] does not evaluate its right operand when the left one is false. *)
Definition coincide (r : loc) (d : string) (n : Z) : M bool :=
  R <- leer_reserva r ;;
  C <- leer_cliente (cliente R) ;;
  if String.eqb (dpi C) d
  then H <- leer_habitacion (habitacion R) ;; ret (Z.eqb (numero H) n)
  else ret false.

Fixpoint modificar_reserva_desde (l : list loc) (d : string) (n : Z)
    (fe fs : datetime) : M bool :=
  match l with
  | [] => ret false
  | r :: l' =>
      b <- coincide r d n ;;
      if b then
        R <- leer_reserva r ;;
        escribir_reserva r (con_fechas fe fs R) ;;;
        ret true
      else modificar_reserva_desde l' d n fe fs
  end.

Definition modificar_reserva (d : string) (n : Z) (fe fs : datetime) : M bool :=
  l <- leer_reservas ;; modificar_reserva_desde l d n fe fs.

Fixpoint cancelar_reserva_desde (l : list loc) (d : string) (n : Z) : M bool :=
  match l with
  | [] => ret false
  | r :: l' =>
      b <- coincide r d n ;;
      if b then
        R <- leer_reserva r ;;
        escribir_reserva r (con_estado "Cancelada" R) ;;;
        H <- leer_habitacion (habitacion R) ;;
        escribir_habitacion (habitacion R) (con_disponible true H) ;;;
        ret true
      else cancelar_reserva_desde l' d n
  end.

Definition cancelar_reserva (d : string) (n : Z) : M bool :=
  l <- leer_reservas ;; cancelar_reserva_desde l d n.

(** The comprehension [[h for h in self.habitaciones if h.disponible]]. *)
Fixpoint solo_disponibles (l : list loc) : M (list loc) :=
  match l with
  | [] => ret []
  | h :: l' =>
      H <- leer_habitacion h ;;
      resto <- solo_disponibles l' ;;
      ret (if disponible H then h :: resto else resto)
  end.

Definition consultar_disponibilidad (fecha_inicio fecha_fin : datetime)
  : M (list loc) :=
  l <- leer_habitaciones ;; solo_disponibles l.

Fixpoint obtener_cliente_desde (l : list loc) (d : string) : M (option loc) :=
  match l with
  | [] => ret None
  | c :: l' =>
      C <- leer_cliente c ;;
      if String.eqb (dpi C) d then ret (Some c) else obtener_cliente_desde l' d
  end.

Definition obtener_cliente (d : string) : M (option loc) :=
  l <- leer_clientes ;; obtener_cliente_desde l d.

Fixpoint obtener_habitacion_desde (l : list loc) (n : Z) : M (option loc) :=
  match l with
  | [] => ret None
  | h :: l' =>
      H <- leer_habitacion h ;;
      if Z.eqb (numero H) n then ret (Some h) else obtener_habitacion_desde l' n
  end.

Definition obtener_habitacion (n : Z) : M (option loc) :=
  l <- leer_habitaciones ;; obtener_habitacion_desde l n.

(** ** Runs of the management layer

    A client of the layer builds objects with the constructors and calls
    the methods with references to objects that exist. *)
Inductive Op :=
| ONuevaHabitacion (k : Clase) (n : Z) (p : float)
| ONuevoCliente (nn na d : string)
| ONuevaReserva (c h : loc) (fe fs : datetime)
| OAplicarDescuento (h : loc)
| OAgregarHabitacion (h : loc)
| OModificarHabitacion (n : Z) (p : float)
| OEliminarHabitacion (n : Z)
| ORegistrarCliente (c : loc)
| OActualizarCliente (d nn na : string)
| OCrearReserva (r : loc)
| OModificarReserva (d : string) (n : Z) (fe fs : datetime)
| OCancelarReserva (d : string) (n : Z)
| OConsultarDisponibilidad (fi ff : datetime)
| OObtenerCliente (d : string)
| OObtenerHabitacion (n : Z).

Definition hay_habitacion (h : loc) (s : Mundo) : bool :=
  bool_decide (h < length (mem_hab s))%nat.
Definition hay_cliente (c : loc) (s : Mundo) : bool :=
  bool_decide (c < length (mem_cli s))%nat.

Definition efecto {A} (m : M A) (s : Mundo) : option Mundo :=
  match m s with Some (_, s') => Some s' | None => None end.

Definition ejecutar (o : Op) (s : Mundo) : option Mundo :=
  match o with
  | ONuevaHabitacion Estandar n p => efecto (HabitacionEstandar n p) s
  | ONuevaHabitacion Suite n p => efecto (HabitacionSuite n p) s
  | ONuevaHabitacion Deluxe n p => efecto (HabitacionDeluxe n p) s
  | ONuevoCliente nn na d => efecto (nuevo_Cliente nn na d) s
  | ONuevaReserva c h fe fs =>
      if hay_cliente c s && hay_habitacion h s
      then efecto (nueva_Reserva c h fe fs) s else None
  | OAplicarDescuento h => efecto (aplicar_descuento h) s
  | OAgregarHabitacion h =>
      if hay_habitacion h s then efecto (agregar_habitacion h) s else None
  | OModificarHabitacion n p => efecto (modificar_habitacion n p) s
  | OEliminarHabitacion n => efecto (eliminar_habitacion n) s
  | ORegistrarCliente c =>
      if hay_cliente c s then efecto (registrar_cliente c) s else None
  | OActualizarCliente d nn na => efecto (actualizar_cliente d nn na) s
  | OCrearReserva r => efecto (crear_reserva r) s
  | OModificarReserva d n fe fs => efecto (modificar_reserva d n fe fs) s
  | OCancelarReserva d n => efecto (cancelar_reserva d n) s
  | OConsultarDisponibilidad fi ff => efecto (consultar_disponibilidad fi ff) s
  | OObtenerCliente d => efecto (obtener_cliente d) s
  | OObtenerHabitacion n => efecto (obtener_habitacion n) s
  end.

Fixpoint correr (ops : list Op) (s : Mundo) : option Mundo :=
  match ops with
  | [] => Some s
  | o :: ops' =>
      match ejecutar o s with
      | Some s' => correr ops' s'
      | None => None
      end
  end.

(** A state the layer can be in. *)
Definition alcanzable (s : Mundo) : Prop :=
  exists ops, correr ops inicial = Some s.

(** Every reference held anywhere denotes an object. *)
Record bien_formado (s : Mundo) : Prop := mk_bien_formado {
  bf_habitaciones : Forall (fun h => h < length (mem_hab s))%nat (habitaciones s);
  bf_clientes : Forall (fun c => c < length (mem_cli s))%nat (clientes s);
  bf_reservas : Forall (fun r => r < length (mem_res s))%nat (reservas s);
  bf_mem_res : Forall (fun R => (cliente R < length (mem_cli s))%nat
                                /\ (habitacion R < length (mem_hab s))%nat)
                      (mem_res s);
  bf_mem_cli : Forall (fun C => Forall (fun r => r < length (mem_res s))%nat
                                       (cli_reservas C))
                      (mem_cli s)
}.

(** ** What a scan looks for *)

Definition hab_con_numero (s : Mundo) (n : Z) (h : loc) : bool :=
  match mem_hab s !! h with
  | Some H => Z.eqb (numero H) n
  | None => false
  end.

Definition cli_con_dpi (s : Mundo) (d : string) (c : loc) : bool :=
  match mem_cli s !! c with
  | Some C => String.eqb (dpi C) d
  | None => false
  end.

Definition res_coincide (s : Mundo) (d : string) (n : Z) (r : loc) : bool :=
  match mem_res s !! r with
  | Some R => cli_con_dpi s d (cliente R) && hab_con_numero s n (habitacion R)
  | None => false
  end.

Definition esta_disponible (s : Mundo) (h : loc) : bool :=
  match mem_hab s !! h with
  | Some H => disponible H
  | None => false
  end.

(** [x] is the first entry of [l], in list order, that satisfies [P]. *)
Definition primera (P : loc -> bool) (l : list loc) (x : loc) : Prop :=
  exists pre post,
    l = pre ++ x :: post /\ Forall (fun y => P y = false) pre /\ P x = true.

(** ** Reservation status per room *)

Definition activa_en (s : Mundo) (h r : loc) : Prop :=
  exists R, mem_res s !! r = Some R /\ habitacion R = h /\ estado R = "Activa".

(** At most one registered reservation with status Activa per room object. *)
Definition a_lo_sumo_una_activa (s : Mundo) : Prop :=
  forall h r1 r2,
    r1 ∈ reservas s -> r2 ∈ reservas s ->
    activa_en s h r1 -> activa_en s h r2 -> r1 = r2.

(** Every registered reservation is in the list of its own client. *)
Definition reservas_en_cliente (s : Mundo) : Prop :=
  forall r, r ∈ reservas s ->
    exists R C, mem_res s !! r = Some R /\ mem_cli s !! cliente R = Some C
                /\ r ∈ cli_reservas C.

(** [r] denotes a reservation with status Activa bound to the room [h]. *)
Definition activa_enb (s : Mundo) (h r : loc) : bool :=
  match mem_res s !! r with
  | Some R => Nat.eqb (habitacion R) h && String.eqb (estado R) "Activa"
  | None => false
  end.

(** A call of [cancelar_reserva] that finds no match, or whose first match
    is bound to a room with no other registered Activa reservation. *)
Definition cancela_sin_otra_activa (s : Mundo) (d : string) (n : Z) : bool :=
  match find (res_coincide s d n) (reservas s) with
  | Some r0 =>
      match mem_res s !! r0 with
      | Some R0 =>
          forallb (fun r => negb (activa_enb s (habitacion R0) r) || Nat.eqb r r0)
                  (reservas s)
      | None => false
      end
  | None => true
  end.

Definition permitida (o : Op) (s : Mundo) : bool :=
  match o with
  | OCancelarReserva d n => cancela_sin_otra_activa s d n
  | _ => true
  end.

Fixpoint disciplinada (ops : list Op) (s : Mundo) : bool :=
  match ops with
  | [] => true
  | o :: ops' =>
      permitida o s &&
      match ejecutar o s with
      | Some s' => disciplinada ops' s'
      | None => true
      end
  end.

(** ** The shape shared by the six scanning loops

    [for x in l: if prueba(x): return acierto(x)] followed by [fallo]. *)
Fixpoint recorrer {A} (l : list loc) (prueba : loc -> M bool)
    (acierto : loc -> M A) (fallo : M A) : M A :=
  match l with
  | [] => fallo
  | x :: l' =>
      b <- prueba x ;;
      if b then acierto x else recorrer l' prueba acierto fallo
  end.

Definition prueba_numero (n : Z) (h : loc) : M bool :=
  H <- leer_habitacion h ;; ret (Z.eqb (numero H) n).

Definition prueba_dpi (d : string) (c : loc) : M bool :=
  C <- leer_cliente c ;; ret (String.eqb (dpi C) d).

(** A computation that leaves the state as it found it. *)
Definition solo_lee {A} (m : M A) : Prop :=
  forall s a s', m s = Some (a, s') -> s' = s.

(** ** Concrete runs used as test inputs *)

Definition ene10 : datetime := mkfecha 2024 1 10.
Definition ene12 : datetime := mkfecha 2024 1 12.
Definition feb01 : datetime := mkfecha 2024 2 1.
Definition feb03 : datetime := mkfecha 2024 2 3.

Definition estado_tras (ops : list Op) : Mundo :=
  match correr ops inicial with
  | Some s => s
  | None => inicial
  end.

(** Room 101 and client CF1, registered; one reservation built, not booked. *)
Definition traza_alta : list Op :=
  [ ONuevaHabitacion Estandar 101 100%float; OAgregarHabitacion 0%nat;
    ONuevoCliente "Ana" "Lopez" "CF1"; ORegistrarCliente 0%nat;
    ONuevaReserva 0%nat 0%nat ene10 ene12 ].
Definition mundo_alta : Mundo := Eval vm_compute in estado_tras traza_alta.

(** ... then booked. *)
Definition traza_ana : list Op := traza_alta ++ [ OCrearReserva 0%nat ].
Definition mundo_ana : Mundo := Eval vm_compute in estado_tras traza_ana.

(** ... then cancelled. *)
Definition traza_cancelada : list Op := traza_ana ++ [ OCancelarReserva "CF1" 101 ].
Definition mundo_cancelada : Mundo := Eval vm_compute in estado_tras traza_cancelada.

(** Book, cancel, then build a second reservation of the same client for
    the same room (not booked yet), and the state once it is booked. *)
Definition traza_segunda : list Op :=
  traza_cancelada ++ [ ONuevaReserva 0%nat 0%nat feb01 feb03 ].
Definition mundo_segunda : Mundo := Eval vm_compute in estado_tras traza_segunda.
Definition mundo_segunda_hecha : Mundo :=
  Eval vm_compute in estado_tras (traza_segunda ++ [ OCrearReserva 1%nat ]).

(** Book, cancel, cancel once more, then book again and change the dates. *)
Definition traza_doble_cancelacion : list Op :=
  traza_cancelada ++
  [ OCancelarReserva "CF1" 101;
    ONuevaReserva 0%nat 0%nat feb01 feb03; OCrearReserva 1%nat;
    OModificarReserva "CF1" 101 feb01 ene12 ].
Definition mundo_doble_cancelacion : Mundo :=
  Eval vm_compute in estado_tras traza_doble_cancelacion.

(** Book, cancel, book again, cancel again, book a third time: the second
    cancellation finds the first, already cancelled, reservation. *)
Definition traza_doble : list Op :=
  traza_cancelada ++
  [ ONuevaReserva 0%nat 0%nat feb01 feb03; OCrearReserva 1%nat;
    OCancelarReserva "CF1" 101;
    ONuevaReserva 0%nat 0%nat ene10 ene12; OCrearReserva 2%nat ].
Definition mundo_doble : Mundo := Eval vm_compute in estado_tras traza_doble.

(** Book, cancel, then a second client books the freed room and cancels. *)
Definition traza_relevo : list Op :=
  traza_cancelada ++
  [ ONuevoCliente "Luis" "Paz" "CF2"; ORegistrarCliente 1%nat;
    ONuevaReserva 1%nat 0%nat feb01 feb03; OCrearReserva 1%nat;
    OModificarReserva "CF2" 101 feb01 ene12;
    ONuevaReserva 0%nat 0%nat ene10 ene12; OCrearReserva 2%nat;
    OCancelarReserva "CF2" 101;
    OCrearReserva 2%nat ].
Definition mundo_relevo : Mundo := Eval vm_compute in estado_tras traza_relevo.

(** Two room objects with the same number, each booked by the same client. *)
Definition traza_gemelas : list Op :=
  [ ONuevaHabitacion Estandar 101 100%float; OAgregarHabitacion 0%nat;
    ONuevaHabitacion Suite 101 250%float; OAgregarHabitacion 1%nat;
    ONuevoCliente "Ana" "Lopez" "CF1"; ORegistrarCliente 0%nat;
    ONuevaReserva 0%nat 0%nat ene10 ene12; OCrearReserva 0%nat;
    ONuevaReserva 0%nat 1%nat feb01 feb03 ].
Definition mundo_gemelas : Mundo := Eval vm_compute in estado_tras traza_gemelas.

(** ** What a step leaves alone *)

(** Objects that exist keep their links to client and room. *)
Definition mismos_vinculos (s s' : Mundo) : Prop :=
  forall r R, mem_res s !! r = Some R ->
    exists R', mem_res s' !! r = Some R' /\
               cliente R' = cliente R /\ habitacion R' = habitacion R.

Definition mismos_estados (s s' : Mundo) : Prop :=
  forall r R, mem_res s !! r = Some R ->
    exists R', mem_res s' !! r = Some R' /\ estado R' = estado R.

Definition misma_disponibilidad (s s' : Mundo) : Prop :=
  forall h H, mem_hab s !! h = Some H ->
    exists H', mem_hab s' !! h = Some H' /\ disponible H' = disponible H.

Definition mismas_listas_cli (s s' : Mundo) : Prop :=
  forall c C, mem_cli s !! c = Some C ->
    exists C', mem_cli s' !! c = Some C' /\ cli_reservas C' = cli_reservas C.

(** Neither the reservation registry nor any client's list has changed. *)
Definition listas_intactas (s s' : Mundo) : Prop :=
  reservas s' = reservas s /\ mismos_vinculos s s' /\ mismas_listas_cli s s'.

(** Nothing a booking or a cancellation depends on has changed. *)
Definition neutral (s s' : Mundo) : Prop :=
  listas_intactas s s' /\ mismos_estados s s' /\ misma_disponibilidad s s'.

(** The reservation a booking would add: one registered reservation with
    status Activa forces its room to be flagged unavailable. *)
Definition activa_ocupa (s : Mundo) : Prop :=
  forall h r, r ∈ reservas s -> activa_en s h r -> esta_disponible s h = false.


(** ** The elementary state changes

    [paso s s'] lists every way a constructor or a method of the layer can
    change the state [s]. *)

(** The label each subclass passes to [Habitacion.__init__]. *)
Definition etiqueta (k : Clase) : string :=
  match k with
  | Estandar => "Estándar"
  | Suite => "Suite"
  | Deluxe => "Deluxe"
  end.

Inductive paso (s : Mundo) : Mundo -> Prop :=
| paso_nada : paso s s
| paso_nueva_habitacion k n p :
    paso s (mkMundo (mem_hab s ++ [mkHabitacion k n (etiqueta k) p true])
                    (mem_cli s) (mem_res s)
                    (habitaciones s) (clientes s) (reservas s))
| paso_nuevo_cliente nn na d :
    paso s (mkMundo (mem_hab s) (mem_cli s ++ [mkCliente nn na d []]) (mem_res s)
                    (habitaciones s) (clientes s) (reservas s))
| paso_nueva_reserva c h fe fs :
    (c < length (mem_cli s))%nat -> (h < length (mem_hab s))%nat ->
    paso s (mkMundo (mem_hab s) (mem_cli s)
                    (mem_res s ++ [mkReserva c h fe fs "Activa"])
                    (habitaciones s) (clientes s) (reservas s))
| paso_precio h H p :
    mem_hab s !! h = Some H ->
    paso s (poner_habitacion h (con_precio p H) s)
| paso_habitaciones l :
    Forall (fun h => h < length (mem_hab s))%nat l ->
    paso s (con_habitaciones l s)
| paso_clientes c :
    (c < length (mem_cli s))%nat ->
    paso s (mkMundo (mem_hab s) (mem_cli s) (mem_res s)
                    (habitaciones s) (clientes s ++ [c]) (reservas s))
| paso_nombres c C nn na :
    mem_cli s !! c = Some C ->
    paso s (poner_cliente c (con_nombres nn na C) s)
| paso_reservar r R H C :
    mem_res s !! r = Some R -> mem_hab s !! habitacion R = Some H ->
    mem_cli s !! cliente R = Some C -> disponible H = true ->
    paso s (mkMundo (<[habitacion R := con_disponible false H]> (mem_hab s))
                    (<[cliente R := con_reservas (cli_reservas C ++ [r]) C]> (mem_cli s))
                    (mem_res s) (habitaciones s) (clientes s) (reservas s ++ [r]))
| paso_fechas r R fe fs :
    r ∈ reservas s -> mem_res s !! r = Some R ->
    paso s (poner_reserva r (con_fechas fe fs R) s)
| paso_cancelar r R H :
    r ∈ reservas s -> mem_res s !! r = Some R ->
    mem_hab s !! habitacion R = Some H ->
    paso s (poner_habitacion (habitacion R) (con_disponible true H)
              (poner_reserva r (con_estado "Cancelada" R) s)).

(** ** Properties of states and of pairs of states *)

(** Objects are never destroyed and keep the fields that identify them. *)
Definition conserva_identidad (s s' : Mundo) : Prop :=
  (forall h H, mem_hab s !! h = Some H ->
     exists H', mem_hab s' !! h = Some H' /\ clase H' = clase H /\
                numero H' = numero H /\ tipo H' = tipo H) /\
  (forall c C, mem_cli s !! c = Some C ->
     exists C', mem_cli s' !! c = Some C' /\ dpi C' = dpi C) /\
  (forall r R, mem_res s !! r = Some R ->
     exists R', mem_res s' !! r = Some R' /\ cliente R' = cliente R /\
                habitacion R' = habitacion R).

Definition tipo_de_clase (s : Mundo) : Prop :=
  forall h H, mem_hab s !! h = Some H -> tipo H = etiqueta (clase H).

(** [r] denotes a reservation whose client is the object [c]. *)
Definition es_del_cliente (s : Mundo) (c r : loc) : bool :=
  match mem_res s !! r with
  | Some R => Nat.eqb (cliente R) c
  | None => false
  end.

(** A client's own list is the registry restricted to that client. *)
Definition lista_es_filtro (s : Mundo) : Prop :=
  forall c C, mem_cli s !! c = Some C ->
    cli_reservas C = List.filter (es_del_cliente s c) (reservas s).

(** A room flagged unavailable has a registered reservation bound to it. *)
Definition ocupada_tiene_reserva (s : Mundo) : Prop :=
  forall h H, mem_hab s !! h = Some H -> disponible H = false ->
    exists r R, r ∈ reservas s /\ mem_res s !! r = Some R /\ habitacion R = h.

(** * DatabaseManager: the persistence adapter

    The adapter writes to three SQLite tables and never reads them back.
    A table is the list of its rows in insertion order; each method is the
    effect of its one SQL statement on the tables, or the exception the
    statement raises.  [crear_tablas] fixes the shape of the rows and the
    primary keys. *)

From Stdlib Require Import Ascii.

Module DatabaseManager.

(** Rows of [habitaciones], [clientes] and [reservas]. *)
Record FilaHabitacion := mkFilaHabitacion {
  fh_numero : Z;                      (* INTEGER PRIMARY KEY *)
  fh_tipo : string;
  fh_precio_por_noche : option float; (* REAL; NULL is None *)
  fh_disponible : Z
}.

Record FilaCliente := mkFilaCliente {
  fc_dpi : string;                    (* TEXT PRIMARY KEY *)
  fc_nombres : string;
  fc_apellidos : string
}.

Record FilaReserva := mkFilaReserva {
  fr_id : Z;                          (* INTEGER PRIMARY KEY AUTOINCREMENT *)
  fr_cliente_dpi : string;
  fr_habitacion_numero : Z;
  fr_fecha_entrada : string;
  fr_fecha_salida : string;
  fr_estado : string
}.

(** [secuencia] is the largest id ever given to a row of [reservas]. *)
Record Base := mkBase {
  t_habitaciones : list FilaHabitacion;
  t_clientes : list FilaCliente;
  t_reservas : list FilaReserva;
  secuencia : Z
}.

Inductive Excepcion :=
| IntegrityError      (* sqlite3.IntegrityError: a primary key is taken *)
| OverflowError       (* a Python int does not fit an SQLite INTEGER *)
| DatabaseFull.       (* no id is left for AUTOINCREMENT *)

Inductive Salida :=
| Hecho (b : Base)
| Lanzada (e : Excepcion).

(** An integer parameter is bound as a signed 64-bit value. *)
Definition en_rango (n : Z) : bool :=
  Z.leb (- 2 ^ 63) n && Z.ltb n (2 ^ 63).

(** A float parameter as the REAL column [precio_por_noche] keeps it:
    SQLite stores NaN as NULL, and a value of a REAL column that is an
    integer is stored as that integer, so negative zero reads back as 0.0;
    every other value is kept bit for bit. *)
Definition real_de_float (p : float) : option float :=
  if PrimFloat.is_nan p then None
  else if PrimFloat.eqb p 0%float then Some 0%float
  else Some p.

(** [int(habitacion.disponible)]. *)
Definition int_de_bool (b : bool) : Z := if b then 1 else 0.

(** [datetime.isoformat()] of a date at midnight, year 1 to 9999. *)
Definition digito (n : Z) : ascii :=
  ascii_of_nat (48 + Z.to_nat (n mod 10)).
Definition dos_digitos (n : Z) : string :=
  String (digito (n / 10)) (String (digito n) EmptyString).
Definition cuatro_digitos (n : Z) : string :=
  String (digito (n / 1000)) (String (digito (n / 100)) (dos_digitos n)).
Definition isoformat (f : datetime) : string :=
  String.append (cuatro_digitos (anio f))
    (String "-" (String.append (dos_digitos (mes f))
       (String "-" (String.append (dos_digitos (dia f)) "T00:00:00")))).

Definition insertar_habitacion (h : loc) (s : Mundo) (b : Base) : option Salida :=
  match mem_hab s !! h with
  | None => None
  | Some H =>
      Some (if negb (en_rango (numero H)) then Lanzada OverflowError
            else if existsb (fun f => Z.eqb (fh_numero f) (numero H)) (t_habitaciones b)
            then Lanzada IntegrityError
            else Hecho (mkBase
                   (t_habitaciones b ++
                      [mkFilaHabitacion (numero H) (tipo H)
                         (real_de_float (precio_por_noche H))
                         (int_de_bool (disponible H))])
                   (t_clientes b) (t_reservas b) (secuencia b)))
  end.

Definition actualizar_habitacion (h : loc) (s : Mundo) (b : Base) : option Salida :=
  match mem_hab s !! h with
  | None => None
  | Some H =>
      Some (if negb (en_rango (numero H)) then Lanzada OverflowError
            else Hecho (mkBase
                   (map (fun f =>
                           if Z.eqb (fh_numero f) (numero H)
                           then mkFilaHabitacion (fh_numero f) (tipo H)
                                  (real_de_float (precio_por_noche H))
                                  (int_de_bool (disponible H))
                           else f)
                        (t_habitaciones b))
                   (t_clientes b) (t_reservas b) (secuencia b)))
  end.

Definition eliminar_habitacion (n : Z) (b : Base) : Salida :=
  if negb (en_rango n) then Lanzada OverflowError
  else Hecho (mkBase
         (List.filter (fun f => negb (Z.eqb (fh_numero f) n)) (t_habitaciones b))
         (t_clientes b) (t_reservas b) (secuencia b)).

Definition insertar_cliente (c : loc) (s : Mundo) (b : Base) : option Salida :=
  match mem_cli s !! c with
  | None => None
  | Some C =>
      Some (if existsb (fun f => String.eqb (fc_dpi f) (dpi C)) (t_clientes b)
            then Lanzada IntegrityError
            else Hecho (mkBase (t_habitaciones b)
                   (t_clientes b ++ [mkFilaCliente (dpi C) (nombres C) (apellidos C)])
                   (t_reservas b) (secuencia b)))
  end.

Definition actualizar_cliente (c : loc) (s : Mundo) (b : Base) : option Salida :=
  match mem_cli s !! c with
  | None => None
  | Some C =>
      Some (Hecho (mkBase (t_habitaciones b)
              (map (fun f =>
                      if String.eqb (fc_dpi f) (dpi C)
                      then mkFilaCliente (fc_dpi f) (nombres C) (apellidos C)
                      else f)
                   (t_clientes b))
              (t_reservas b) (secuencia b)))
  end.

(** The id AUTOINCREMENT gives to the next row. *)
Definition siguiente_id (b : Base) : Z :=
  Z.max (secuencia b) (fold_right (fun f m => Z.max (fr_id f) m) 0 (t_reservas b)) + 1.

Definition insertar_reserva (r : loc) (s : Mundo) (b : Base) : option Salida :=
  match mem_res s !! r with
  | None => None
  | Some R =>
      match mem_cli s !! cliente R, mem_hab s !! habitacion R with
      | Some C, Some H =>
          Some (if negb (en_rango (numero H)) then Lanzada OverflowError
                else if negb (en_rango (siguiente_id b)) then Lanzada DatabaseFull
                else Hecho (mkBase (t_habitaciones b) (t_clientes b)
                       (t_reservas b ++
                          [mkFilaReserva (siguiente_id b) (dpi C) (numero H)
                             (isoformat (fecha_entrada R))
                             (isoformat (fecha_salida R)) (estado R)])
                       (siguiente_id b)))
      | _, _ => None
      end
  end.

Definition actualizar_reserva (r : loc) (s : Mundo) (b : Base) : option Salida :=
  match mem_res s !! r with
  | None => None
  | Some R =>
      match mem_cli s !! cliente R, mem_hab s !! habitacion R with
      | Some C, Some H =>
          Some (if negb (en_rango (numero H)) then Lanzada OverflowError
                else Hecho (mkBase (t_habitaciones b) (t_clientes b)
                       (map (fun f =>
                               if String.eqb (fr_cliente_dpi f) (dpi C)
                                  && Z.eqb (fr_habitacion_numero f) (numero H)
                               then mkFilaReserva (fr_id f) (fr_cliente_dpi f)
                                      (fr_habitacion_numero f)
                                      (isoformat (fecha_entrada R))
                                      (isoformat (fecha_salida R)) (estado R)
                               else f)
                            (t_reservas b))
                       (secuencia b)))
      | _, _ => None
      end
  end.

End DatabaseManager.

(** * The interactive shell

    [main] reads a menu choice and its arguments, calls the manager, mirrors
    the change through the adapter and prints one message.  [atender] is the
    body of one menu entry for arguments already parsed by [int], [float]
    and [strptime]; an exception of the adapter ends the loop. *)

Inductive Orden :=
| RegistrarHabitacion (n : Z) (t : string) (p : float)
| ModificarHabitacion (n : Z) (nuevo_precio : float)
| EliminarHabitacion (n : Z)
| RegistrarCliente (nn na d : string)
| ActualizarCliente (d nn na : string)
| RealizarReserva (d : string) (n : Z) (fe fs : datetime)
| ModificarReserva (d : string) (n : Z) (fe fs : datetime)
| CancelarReserva (d : string) (n : Z).

Inductive Paso :=
| Continua (mensaje : string) (s : Mundo) (b : DatabaseManager.Base)
| Abortada (e : DatabaseManager.Excepcion) (s : Mundo) (b : DatabaseManager.Base).

(** The adapter call followed by the [print] of the entry. *)
Definition tras_sql (mensaje : string) (s : Mundo) (b : DatabaseManager.Base)
    (r : option DatabaseManager.Salida) : option Paso :=
  match r with
  | Some (DatabaseManager.Hecho b') => Some (Continua mensaje s b')
  | Some (DatabaseManager.Lanzada e) => Some (Abortada e s b)
  | None => None
  end.

(** [for reserva in gestor.reservas: if ...: db_manager.actualizar_reserva(reserva); break]. *)
Fixpoint reflejar_reserva (l : list loc) (d : string) (n : Z) (s : Mundo)
    (b : DatabaseManager.Base) : option DatabaseManager.Salida :=
  match l with
  | [] => Some (DatabaseManager.Hecho b)
  | r :: l' =>
      match coincide r d n s with
      | Some (true, _) => DatabaseManager.actualizar_reserva r s b
      | Some (false, _) => reflejar_reserva l' d n s b
      | None => None
      end
  end.

Definition atender (o : Orden) (s : Mundo) (b : DatabaseManager.Base) : option Paso :=
  match o with
  | RegistrarHabitacion n t p =>
      let construir :=
        if String.eqb t "1" then Some (HabitacionEstandar n p)
        else if String.eqb t "2" then Some (HabitacionSuite n p)
        else if String.eqb t "3" then Some (HabitacionDeluxe n p)
        else None in
      match construir with
      | None => Some (Continua "Tipo de habitación no válido." s b)
      | Some nueva =>
          match (h <- nueva ;; agregar_habitacion h ;;; ret h) s with
          | Some (h, s1) =>
              tras_sql "Habitación registrada con éxito." s1 b
                (DatabaseManager.insertar_habitacion h s1 b)
          | None => None
          end
      end
  | ModificarHabitacion n nuevo_precio =>
      match modificar_habitacion n nuevo_precio s with
      | Some (true, s1) =>
          match obtener_habitacion n s1 with
          | Some (Some h, s2) =>
              tras_sql "Habitación modificada con éxito." s2 b
                (DatabaseManager.actualizar_habitacion h s2 b)
          | Some (None, s2) =>
              Some (Continua "Error al actualizar la habitación en la base de datos." s2 b)
          | None => None
          end
      | Some (false, s1) => Some (Continua "No se encontró la habitación." s1 b)
      | None => None
      end
  | EliminarHabitacion n =>
      match eliminar_habitacion n s with
      | Some (_, s1) =>
          tras_sql "Habitación eliminada con éxito." s1 b
            (Some (DatabaseManager.eliminar_habitacion n b))
      | None => None
      end
  | RegistrarCliente nn na d =>
      match (c <- nuevo_Cliente nn na d ;; registrar_cliente c ;;; ret c) s with
      | Some (c, s1) =>
          tras_sql "Cliente registrado con éxito." s1 b
            (DatabaseManager.insertar_cliente c s1 b)
      | None => None
      end
  | ActualizarCliente d nn na =>
      match actualizar_cliente d nn na s with
      | Some (true, s1) =>
          match obtener_cliente d s1 with
          | Some (Some c, s2) =>
              tras_sql "Información del cliente actualizada con éxito." s2 b
                (DatabaseManager.actualizar_cliente c s2 b)
          | Some (None, s2) =>
              Some (Continua "Error al actualizar el cliente en la base de datos." s2 b)
          | None => None
          end
      | Some (false, s1) => Some (Continua "No se encontró el cliente." s1 b)
      | None => None
      end
  | RealizarReserva d n fe fs =>
      match (c <- obtener_cliente d ;; h <- obtener_habitacion n ;; ret (c, h)) s with
      | Some ((Some c, Some h), s1) =>
          match (r <- nueva_Reserva c h fe fs ;;
                 ok <- crear_reserva r ;; ret (r, ok)) s1 with
          | Some ((r, true), s2) =>
              tras_sql "Reserva creada con éxito." s2 b
                (DatabaseManager.insertar_reserva r s2 b)
          | Some ((_, false), s2) =>
              Some (Continua
                "No se pudo crear la reserva. La habitación no está disponible." s2 b)
          | None => None
          end
      | Some (_, s1) => Some (Continua "Cliente o habitación no encontrados." s1 b)
      | None => None
      end
  | ModificarReserva d n fe fs =>
      match modificar_reserva d n fe fs s with
      | Some (true, s1) =>
          tras_sql "Reserva modificada con éxito." s1 b
            (reflejar_reserva (reservas s1) d n s1 b)
      | Some (false, s1) => Some (Continua "No se encontró la reserva." s1 b)
      | None => None
      end
  | CancelarReserva d n =>
      match cancelar_reserva d n s with
      | Some (true, s1) =>
          tras_sql "Reserva cancelada con éxito." s1 b
            (reflejar_reserva (reservas s1) d n s1 b)
      | Some (false, s1) => Some (Continua "No se encontró la reserva." s1 b)
      | None => None
      end
  end.

(** The menu loop until the orders run out or the adapter raises. *)
Inductive Sesion :=
| Viva (s : Mundo) (b : DatabaseManager.Base)
| Caida (e : DatabaseManager.Excepcion) (s : Mundo) (b : DatabaseManager.Base).

Fixpoint sesion (ordenes : list Orden) (s : Mundo) (b : DatabaseManager.Base)
  : option Sesion :=
  match ordenes with
  | [] => Some (Viva s b)
  | o :: resto =>
      match atender o s b with
      | Some (Continua _ s' b') => sesion resto s' b'
      | Some (Abortada e s' b') => Some (Caida e s' b')
      | None => None
      end
  end.

(** ** What holds while a session is alive *)

Definition numero_de (s : Mundo) (h : loc) : option Z :=
  numero <$> mem_hab s !! h.
Definition dpi_de (s : Mundo) (c : loc) : option string :=
  dpi <$> mem_cli s !! c.

(** Every registered room has a row with its number, its label and its
    price as the REAL column keeps it. *)
Definition habitaciones_reflejadas (s : Mundo) (b : DatabaseManager.Base) : Prop :=
  forall h, h ∈ habitaciones s ->
    exists H f, mem_hab s !! h = Some H /\ f ∈ DatabaseManager.t_habitaciones b /\
      DatabaseManager.fh_numero f = numero H /\
      DatabaseManager.fh_tipo f = tipo H /\
      DatabaseManager.fh_precio_por_noche f =
        DatabaseManager.real_de_float (precio_por_noche H).

(** Every registered client has a row with its DPI and names. *)
Definition clientes_reflejados (s : Mundo) (b : DatabaseManager.Base) : Prop :=
  forall c, c ∈ clientes s ->
    exists C f, mem_cli s !! c = Some C /\ f ∈ DatabaseManager.t_clientes b /\
      DatabaseManager.fc_dpi f = dpi C /\
      DatabaseManager.fc_nombres f = nombres C /\
      DatabaseManager.fc_apellidos f = apellidos C.

Record sesion_coherente (k : nat) (s : Mundo) (b : DatabaseManager.Base) : Prop := {
  sc_bien_formado : bien_formado s;
  sc_habitaciones : habitaciones_reflejadas s b;
  sc_clientes : clientes_reflejados s b;
  sc_numeros : NoDup (numero_de s <$> habitaciones s);
  sc_dpis : NoDup (dpi_de s <$> clientes s);
  sc_reservas : NoDup (reservas s);
  sc_filas : length (DatabaseManager.t_reservas b) = (k + length (reservas s))%nat
}.

(** A database left by an earlier session, and the orders of the example. *)
Definition base_vacia : DatabaseManager.Base := DatabaseManager.mkBase [] [] [] 0.

Definition ordenes_ana_antes : list Orden :=
  [ RegistrarHabitacion 101 "1" 100%float;
    RegistrarCliente "Ana" "Lopez" "CF1";
    RealizarReserva "CF1" 101 ene10 ene12;
    CancelarReserva "CF1" 101;
    RealizarReserva "CF1" 101 feb01 feb03 ].

Definition ordenes_ana : list Orden :=
  ordenes_ana_antes ++ [ CancelarReserva "CF1" 101 ].

(** Prices typed as [-0.0], [nan] and [100], the last one changed to [250]. *)
Definition ordenes_precios : list Orden :=
  [ RegistrarHabitacion 101 "1" PrimFloat.neg_zero;
    RegistrarHabitacion 102 "2" PrimFloat.nan;
    RegistrarHabitacion 103 "3" 100%float;
    ModificarHabitacion 103 250%float ].

(** ** The changes a menu entry can make

    [cambio s b s' b'] lists the ways one menu entry that returns to the
    menu can change the manager's state and the tables. *)
Inductive cambio (s : Mundo) (b : DatabaseManager.Base)
  : Mundo -> DatabaseManager.Base -> Prop :=
| cambio_nada : cambio s b s b
| cambio_alta_habitacion k n p :
    DatabaseManager.en_rango n = true ->
    existsb (fun f => Z.eqb (DatabaseManager.fh_numero f) n)
            (DatabaseManager.t_habitaciones b) = false ->
    cambio s b
      (mkMundo (mem_hab s ++ [mkHabitacion k n (etiqueta k) p true])
               (mem_cli s) (mem_res s)
               (habitaciones s ++ [length (mem_hab s)]) (clientes s) (reservas s))
      (DatabaseManager.mkBase
         (DatabaseManager.t_habitaciones b ++
            [DatabaseManager.mkFilaHabitacion n (etiqueta k)
               (DatabaseManager.real_de_float p) 1])
         (DatabaseManager.t_clientes b) (DatabaseManager.t_reservas b)
         (DatabaseManager.secuencia b))
| cambio_precio h H p :
    h ∈ habitaciones s -> mem_hab s !! h = Some H ->
    cambio s b
      (poner_habitacion h (con_precio p H) s)
      (DatabaseManager.mkBase
         (map (fun f =>
                 if Z.eqb (DatabaseManager.fh_numero f) (numero H)
                 then DatabaseManager.mkFilaHabitacion (DatabaseManager.fh_numero f)
                        (tipo H) (DatabaseManager.real_de_float p)
                        (DatabaseManager.int_de_bool (disponible H))
                 else f)
              (DatabaseManager.t_habitaciones b))
         (DatabaseManager.t_clientes b) (DatabaseManager.t_reservas b)
         (DatabaseManager.secuencia b))
| cambio_baja_habitacion n :
    cambio s b
      (con_habitaciones
         (List.filter (fun h => negb (hab_con_numero s n h)) (habitaciones s)) s)
      (DatabaseManager.mkBase
         (List.filter (fun f => negb (Z.eqb (DatabaseManager.fh_numero f) n))
                      (DatabaseManager.t_habitaciones b))
         (DatabaseManager.t_clientes b) (DatabaseManager.t_reservas b)
         (DatabaseManager.secuencia b))
| cambio_alta_cliente nn na d :
    existsb (fun f => String.eqb (DatabaseManager.fc_dpi f) d)
            (DatabaseManager.t_clientes b) = false ->
    cambio s b
      (mkMundo (mem_hab s) (mem_cli s ++ [mkCliente nn na d []]) (mem_res s)
               (habitaciones s) (clientes s ++ [length (mem_cli s)]) (reservas s))
      (DatabaseManager.mkBase (DatabaseManager.t_habitaciones b)
         (DatabaseManager.t_clientes b ++ [DatabaseManager.mkFilaCliente d nn na])
         (DatabaseManager.t_reservas b) (DatabaseManager.secuencia b))
| cambio_nombres c C nn na :
    c ∈ clientes s -> mem_cli s !! c = Some C ->
    cambio s b
      (poner_cliente c (con_nombres nn na C) s)
      (DatabaseManager.mkBase (DatabaseManager.t_habitaciones b)
         (map (fun f =>
                 if String.eqb (DatabaseManager.fc_dpi f) (dpi C)
                 then DatabaseManager.mkFilaCliente (DatabaseManager.fc_dpi f) nn na
                 else f)
              (DatabaseManager.t_clientes b))
         (DatabaseManager.t_reservas b) (DatabaseManager.secuencia b))
| cambio_reserva_fallida c h fe fs :
    (c < length (mem_cli s))%nat -> (h < length (mem_hab s))%nat ->
    cambio s b
      (mkMundo (mem_hab s) (mem_cli s)
               (mem_res s ++ [mkReserva c h fe fs "Activa"])
               (habitaciones s) (clientes s) (reservas s))
      b
| cambio_reserva c h fe fs C H fila :
    mem_cli s !! c = Some C -> mem_hab s !! h = Some H -> disponible H = true ->
    cambio s b
      (mkMundo (<[h := con_disponible false H]> (mem_hab s))
               (<[c := con_reservas (cli_reservas C ++ [length (mem_res s)]) C]>
                  (mem_cli s))
               (mem_res s ++ [mkReserva c h fe fs "Activa"])
               (habitaciones s) (clientes s) (reservas s ++ [length (mem_res s)]))
      (DatabaseManager.mkBase (DatabaseManager.t_habitaciones b)
         (DatabaseManager.t_clientes b)
         (DatabaseManager.t_reservas b ++ [fila])
         (DatabaseManager.fr_id fila))
| cambio_fechas r R fe fs g :
    r ∈ reservas s -> mem_res s !! r = Some R ->
    cambio s b
      (poner_reserva r (con_fechas fe fs R) s)
      (DatabaseManager.mkBase (DatabaseManager.t_habitaciones b)
         (DatabaseManager.t_clientes b) (map g (DatabaseManager.t_reservas b))
         (DatabaseManager.secuencia b))
| cambio_cancelacion r R H g :
    r ∈ reservas s -> mem_res s !! r = Some R ->
    mem_hab s !! habitacion R = Some H ->
    cambio s b
      (poner_habitacion (habitacion R) (con_disponible true H)
         (poner_reserva r (con_estado "Cancelada" R) s))
      (DatabaseManager.mkBase (DatabaseManager.t_habitaciones b)
         (DatabaseManager.t_clientes b) (map g (DatabaseManager.t_reservas b))
         (DatabaseManager.secuencia b)).

(** The state and the tables after the orders of the example. *)
Definition fin_de (ordenes : list Orden) : Mundo * DatabaseManager.Base :=
  match sesion ordenes inicial base_vacia with
  | Some (Viva s b) => (s, b)
  | _ => (inicial, base_vacia)
  end.
Definition mundo_sesion_ana : Mundo := Eval vm_compute in fst (fin_de ordenes_ana).
Definition base_sesion_ana : DatabaseManager.Base :=
  Eval vm_compute in snd (fin_de ordenes_ana).
Definition mundo_sesion_antes : Mundo :=
  Eval vm_compute in fst (fin_de ordenes_ana_antes).
Definition base_sesion_antes : DatabaseManager.Base :=
  Eval vm_compute in snd (fin_de ordenes_ana_antes).

Definition mundo_precios : Mundo := Eval vm_compute in fst (fin_de ordenes_precios).
Definition base_precios : DatabaseManager.Base :=
  Eval vm_compute in snd (fin_de ordenes_precios).

(** A database whose AUTOINCREMENT sequence is used up. *)
Definition base_agotada : DatabaseManager.Base :=
  DatabaseManager.mkBase [] [] [] (2 ^ 63 - 1).

(** Room 101 and client CF1 registered, nothing booked. *)
Definition mundo_registrado : Mundo :=
  Eval vm_compute in estado_tras (firstn 4 traza_alta).
(** * Proofs *)

(** ** Scans *)

Ltac desplegar :=
  unfold bind, ret, leer_habitacion, leer_cliente, leer_reserva,
    escribir_habitacion, escribir_cliente, escribir_reserva,
    leer_habitaciones, leer_clientes, leer_reservas,
    asignar_habitaciones, asignar_clientes, asignar_reservas;
  cbn beta iota delta [mem_hab mem_cli mem_res habitaciones clientes reservas
                       poner_habitacion poner_cliente poner_reserva
                       con_habitaciones].

Lemma find_primera (P : loc -> bool) (l : list loc) (x : loc) :
  find P l = Some x <-> primera P l x.
Proof.
  split.
  - induction l as [|y l IH]; simpl; [discriminate|].
    destruct (P y) eqn:Py.
    + intros [= ->]. exists [], l. auto.
    + intros Hf. destruct (IH Hf) as (pre & post & -> & Hpre & Hx).
      exists (y :: pre), post. auto.
  - intros (pre & post & -> & Hpre & Hx).
    induction Hpre as [|y pre Hy _ IH]; simpl.
    + now rewrite Hx.
    + now rewrite Hy.
Qed.

Lemma find_ninguna (P : loc -> bool) (l : list loc) :
  find P l = None <-> Forall (fun y => P y = false) l.
Proof.
  induction l as [|y l IH]; simpl.
  - split; auto.
  - destruct (P y) eqn:Py; split.
    + discriminate.
    + intros HF. inversion HF; congruence.
    + intros Hf. constructor; [assumption | now apply IH].
    + intros HF. inversion HF; now apply IH.
Qed.

Lemma primera_unica (P : loc -> bool) (l : list loc) (x y : loc) :
  primera P l x -> primera P l y -> x = y.
Proof.
  intros Hx Hy. apply find_primera in Hx, Hy. congruence.
Qed.

Lemma recorrer_find {A} (P : loc -> bool) (l : list loc) (prueba : loc -> M bool)
    (acierto : loc -> M A) (fallo : M A) (s : Mundo) :
  Forall (fun x => prueba x s = Some (P x, s)) l ->
  recorrer l prueba acierto fallo s =
    match find P l with
    | Some x => acierto x s
    | None => fallo s
    end.
Proof.
  induction 1 as [|x l Hx _ IH]; simpl; [reflexivity|].
  unfold bind. rewrite Hx. destruct (P x); [reflexivity | exact IH].
Qed.

Lemma recorrer_resto {A} (l l' pre : list loc) (x : loc) (prueba : loc -> M bool)
    (acierto : loc -> M A) (fallo : M A) (s : Mundo) :
  (forall y, solo_lee (prueba y)) ->
  prueba x s = Some (true, s) ->
  recorrer (pre ++ x :: l) prueba acierto fallo s =
  recorrer (pre ++ x :: l') prueba acierto fallo s.
Proof.
  intros Hlee Hx. induction pre as [|y pre IH]; simpl; unfold bind.
  - now rewrite Hx.
  - destruct (prueba y s) as [[b s1]|] eqn:Hy; [|reflexivity].
    apply Hlee in Hy as ->. destruct b; [reflexivity | exact IH].
Qed.

Lemma prueba_numero_lee n h : solo_lee (prueba_numero n h).
Proof.
  intros s a s'. unfold prueba_numero. desplegar.
  destruct (mem_hab s !! h); congruence.
Qed.

Lemma prueba_dpi_lee d c : solo_lee (prueba_dpi d c).
Proof.
  intros s a s'. unfold prueba_dpi. desplegar.
  destruct (mem_cli s !! c); congruence.
Qed.

Lemma coincide_lee d n r : solo_lee (coincide r d n).
Proof.
  intros s a s'. unfold coincide. desplegar.
  destruct (mem_res s !! r) as [R|]; [|discriminate].
  destruct (mem_cli s !! cliente R) as [C|]; [|discriminate].
  destruct (String.eqb (dpi C) d); [|congruence].
  destruct (mem_hab s !! habitacion R); congruence.
Qed.

(** Each test computes the corresponding pure predicate on valid references. *)
Lemma prueba_numero_vale s n h :
  (h < length (mem_hab s))%nat ->
  prueba_numero n h s = Some (hab_con_numero s n h, s).
Proof.
  intros Hh. apply lookup_lt_is_Some_2 in Hh as [H HH].
  unfold prueba_numero, hab_con_numero. desplegar. now rewrite HH.
Qed.

Lemma prueba_dpi_vale s d c :
  (c < length (mem_cli s))%nat ->
  prueba_dpi d c s = Some (cli_con_dpi s d c, s).
Proof.
  intros Hc. apply lookup_lt_is_Some_2 in Hc as [C HC].
  unfold prueba_dpi, cli_con_dpi. desplegar. now rewrite HC.
Qed.

Lemma coincide_vale s d n r :
  bien_formado s -> (r < length (mem_res s))%nat ->
  coincide r d n s = Some (res_coincide s d n r, s).
Proof.
  intros Hbf Hr. apply lookup_lt_is_Some_2 in Hr as [R HR].
  pose proof (bf_mem_res s Hbf) as Hm.
  rewrite Forall_lookup in Hm. destruct (Hm r R HR) as [Hc Hh].
  apply lookup_lt_is_Some_2 in Hc as [C HC].
  apply lookup_lt_is_Some_2 in Hh as [H HH].
  unfold coincide, res_coincide, cli_con_dpi, hab_con_numero. desplegar.
  rewrite HR. cbn beta iota. rewrite HC. cbn beta iota. destruct (String.eqb (dpi C) d); [|reflexivity]. rewrite HH. reflexivity.
Qed.

(** The six loops are instances of [recorrer]. *)
Lemma modificar_habitacion_desde_recorrer l n p s :
  modificar_habitacion_desde l n p s =
  recorrer l (prueba_numero n)
    (fun h => H <- leer_habitacion h ;;
              escribir_habitacion h (con_precio p H) ;;; ret true)
    (ret false) s.
Proof.
  induction l as [|h l IH]; simpl; [reflexivity|].
  unfold prueba_numero. desplegar.
  destruct (mem_hab s !! h) as [H|] eqn:HH; [|reflexivity].
  destruct (Z.eqb (numero H) n); [now rewrite HH | exact IH].
Qed.

Lemma obtener_habitacion_desde_recorrer l n s :
  obtener_habitacion_desde l n s =
  recorrer l (prueba_numero n) (fun h => ret (Some h)) (ret None) s.
Proof.
  induction l as [|h l IH]; simpl; [reflexivity|].
  unfold prueba_numero. desplegar.
  destruct (mem_hab s !! h) as [H|] eqn:HH; [|reflexivity].
  destruct (Z.eqb (numero H) n); [reflexivity | exact IH].
Qed.

Lemma actualizar_cliente_desde_recorrer l d nn na s :
  actualizar_cliente_desde l d nn na s =
  recorrer l (prueba_dpi d)
    (fun c => C <- leer_cliente c ;;
              escribir_cliente c (con_nombres nn na C) ;;; ret true)
    (ret false) s.
Proof.
  induction l as [|c l IH]; simpl; [reflexivity|].
  unfold prueba_dpi. desplegar.
  destruct (mem_cli s !! c) as [C|] eqn:HC; [|reflexivity].
  destruct (String.eqb (dpi C) d); [now rewrite HC | exact IH].
Qed.

Lemma obtener_cliente_desde_recorrer l d s :
  obtener_cliente_desde l d s =
  recorrer l (prueba_dpi d) (fun c => ret (Some c)) (ret None) s.
Proof.
  induction l as [|c l IH]; simpl; [reflexivity|].
  unfold prueba_dpi. desplegar.
  destruct (mem_cli s !! c) as [C|] eqn:HC; [|reflexivity].
  destruct (String.eqb (dpi C) d); [reflexivity | exact IH].
Qed.

Lemma modificar_reserva_desde_recorrer l d n fe fs s :
  modificar_reserva_desde l d n fe fs s =
  recorrer l (fun r => coincide r d n)
    (fun r => R <- leer_reserva r ;;
              escribir_reserva r (con_fechas fe fs R) ;;; ret true)
    (ret false) s.
Proof.
  induction l as [|r l IH]; simpl; [reflexivity|].
  unfold bind.
  destruct (coincide r d n s) as [[b s1]|] eqn:Hc; [|reflexivity].
  apply coincide_lee in Hc as ->. destruct b; [reflexivity | exact IH].
Qed.

Lemma cancelar_reserva_desde_recorrer l d n s :
  cancelar_reserva_desde l d n s =
  recorrer l (fun r => coincide r d n)
    (fun r => R <- leer_reserva r ;;
              escribir_reserva r (con_estado "Cancelada" R) ;;;
              H <- leer_habitacion (habitacion R) ;;
              escribir_habitacion (habitacion R) (con_disponible true H) ;;;
              ret true)
    (ret false) s.
Proof.
  induction l as [|r l IH]; simpl; [reflexivity|].
  unfold bind.
  destruct (coincide r d n s) as [[b s1]|] eqn:Hc; [|reflexivity].
  apply coincide_lee in Hc as ->. destruct b; [reflexivity | exact IH].
Qed.

Lemma find_igual (P Q : loc -> bool) (l : list loc) :
  Forall (fun x => P x = Q x) l -> find P l = find Q l.
Proof.
  induction 1 as [|x l Hx _ IH]; simpl; [reflexivity|].
  rewrite Hx. now rewrite IH.
Qed.

Lemma filter_todos (P : loc -> bool) (l : list loc) :
  Forall (fun x => P x = true) l -> List.filter P l = l.
Proof.
  induction 1 as [|x l Hx _ IH]; simpl; [reflexivity|].
  rewrite Hx. now rewrite IH.
Qed.

Lemma hab_con_numero_true s n h :
  hab_con_numero s n h = true <->
  exists H, mem_hab s !! h = Some H /\ numero H = n.
Proof.
  unfold hab_con_numero. split.
  - destruct (mem_hab s !! h) as [H|]; [|discriminate].
    intros He. exists H. split; [reflexivity | now apply Z.eqb_eq].
  - intros (H & -> & <-). apply Z.eqb_refl.
Qed.

Lemma cli_con_dpi_true s d c :
  cli_con_dpi s d c = true <->
  exists C, mem_cli s !! c = Some C /\ dpi C = d.
Proof.
  unfold cli_con_dpi. split.
  - destruct (mem_cli s !! c) as [C|]; [|discriminate].
    intros He. exists C. split; [reflexivity | now apply String.eqb_eq].
  - intros (C & -> & <-). apply String.eqb_refl.
Qed.

Lemma res_coincide_true s d n r :
  res_coincide s d n r = true <->
  exists R C H, mem_res s !! r = Some R /\ mem_cli s !! cliente R = Some C /\
                mem_hab s !! habitacion R = Some H /\ dpi C = d /\ numero H = n.
Proof.
  unfold res_coincide. split.
  - destruct (mem_res s !! r) as [R|]; [|discriminate].
    intros [Hc Hh]%andb_true_iff.
    apply cli_con_dpi_true in Hc as (C & HC & Hd).
    apply hab_con_numero_true in Hh as (H & HH & Hn).
    exists R, C, H. auto.
  - intros (R & C & H & -> & HC & HH & Hd & Hn).
    apply andb_true_iff. split.
    + apply cli_con_dpi_true. eauto.
    + apply hab_con_numero_true. eauto.
Qed.

(** *** Equations of the methods on well-formed states *)

Lemma modificar_habitacion_find s n p :
  bien_formado s ->
  modificar_habitacion n p s =
    match find (hab_con_numero s n) (habitaciones s) with
    | Some h =>
        (H <- leer_habitacion h ;;
         escribir_habitacion h (con_precio p H) ;;; ret true) s
    | None => Some (false, s)
    end.
Proof.
  intros Hbf. unfold modificar_habitacion, leer_habitaciones, bind at 1.
  rewrite modificar_habitacion_desde_recorrer.
  rewrite (recorrer_find (hab_con_numero s n)); [reflexivity|].
  eapply Forall_impl; [apply (bf_habitaciones _ Hbf)|].
  intros h Hh. now apply prueba_numero_vale.
Qed.

Lemma obtener_habitacion_find s n :
  bien_formado s ->
  obtener_habitacion n s =
    Some (find (hab_con_numero s n) (habitaciones s), s).
Proof.
  intros Hbf. unfold obtener_habitacion, leer_habitaciones, bind at 1.
  rewrite obtener_habitacion_desde_recorrer.
  rewrite (recorrer_find (hab_con_numero s n)).
  - now destruct (find _ _).
  - eapply Forall_impl; [apply (bf_habitaciones _ Hbf)|].
    intros h Hh. now apply prueba_numero_vale.
Qed.

Lemma actualizar_cliente_find s d nn na :
  bien_formado s ->
  actualizar_cliente d nn na s =
    match find (cli_con_dpi s d) (clientes s) with
    | Some c =>
        (C <- leer_cliente c ;;
         escribir_cliente c (con_nombres nn na C) ;;; ret true) s
    | None => Some (false, s)
    end.
Proof.
  intros Hbf. unfold actualizar_cliente, leer_clientes, bind at 1.
  rewrite actualizar_cliente_desde_recorrer.
  rewrite (recorrer_find (cli_con_dpi s d)); [reflexivity|].
  eapply Forall_impl; [apply (bf_clientes _ Hbf)|].
  intros c Hc. now apply prueba_dpi_vale.
Qed.

Lemma obtener_cliente_find s d :
  bien_formado s ->
  obtener_cliente d s = Some (find (cli_con_dpi s d) (clientes s), s).
Proof.
  intros Hbf. unfold obtener_cliente, leer_clientes, bind at 1.
  rewrite obtener_cliente_desde_recorrer.
  rewrite (recorrer_find (cli_con_dpi s d)).
  - now destruct (find _ _).
  - eapply Forall_impl; [apply (bf_clientes _ Hbf)|].
    intros c Hc. now apply prueba_dpi_vale.
Qed.

Lemma modificar_reserva_find s d n fe fs :
  bien_formado s ->
  modificar_reserva d n fe fs s =
    match find (res_coincide s d n) (reservas s) with
    | Some r =>
        (R <- leer_reserva r ;;
         escribir_reserva r (con_fechas fe fs R) ;;; ret true) s
    | None => Some (false, s)
    end.
Proof.
  intros Hbf. unfold modificar_reserva, leer_reservas, bind at 1.
  rewrite modificar_reserva_desde_recorrer.
  rewrite (recorrer_find (res_coincide s d n)); [reflexivity|].
  eapply Forall_impl; [apply (bf_reservas _ Hbf)|].
  intros r Hr. now apply coincide_vale.
Qed.

Lemma cancelar_reserva_find s d n :
  bien_formado s ->
  cancelar_reserva d n s =
    match find (res_coincide s d n) (reservas s) with
    | Some r =>
        (R <- leer_reserva r ;;
         escribir_reserva r (con_estado "Cancelada" R) ;;;
         H <- leer_habitacion (habitacion R) ;;
         escribir_habitacion (habitacion R) (con_disponible true H) ;;;
         ret true) s
    | None => Some (false, s)
    end.
Proof.
  intros Hbf. unfold cancelar_reserva, leer_reservas, bind at 1.
  rewrite cancelar_reserva_desde_recorrer.
  rewrite (recorrer_find (res_coincide s d n)); [reflexivity|].
  eapply Forall_impl; [apply (bf_reservas _ Hbf)|].
  intros r Hr. now apply coincide_vale.
Qed.

Lemma solo_disponibles_filter s l :
  Forall (fun h => h < length (mem_hab s))%nat l ->
  solo_disponibles l s = Some (List.filter (esta_disponible s) l, s).
Proof.
  induction 1 as [|h l Hh _ IH]; simpl; [reflexivity|].
  apply lookup_lt_is_Some_2 in Hh as [H HH].
  unfold esta_disponible at 1. desplegar. rewrite HH, IH.
  now destruct (disponible H).
Qed.

Lemma sin_numero_filter s n l :
  Forall (fun h => h < length (mem_hab s))%nat l ->
  sin_numero l n s =
    Some (List.filter (fun h => negb (hab_con_numero s n h)) l, s).
Proof.
  induction 1 as [|h l Hh _ IH]; simpl; [reflexivity|].
  apply lookup_lt_is_Some_2 in Hh as [H HH].
  unfold hab_con_numero at 1. desplegar. rewrite HH, IH.
  now destruct (Z.eqb (numero H) n).
Qed.

Lemma con_habitaciones_id s : con_habitaciones (habitaciones s) s = s.
Proof. now destruct s. Qed.

Ltac resolver_bf :=
  split; cbn;
  repeat first [ exact I | apply Forall_nil_2 | apply Forall_cons_2
               | split | cbn; lia ].


Lemma hab_con_numero_poner s n h H H' y :
  mem_hab s !! h = Some H -> numero H' = numero H ->
  hab_con_numero (poner_habitacion h H' s) n y = hab_con_numero s n y.
Proof.
  intros HH Hn. unfold hab_con_numero, poner_habitacion. cbn.
  destruct (decide (h = y)) as [<-|Hne].
  - rewrite list_lookup_insert_eq by (eapply lookup_lt_Some; eauto).
    now rewrite HH, Hn.
  - now rewrite list_lookup_insert_ne.
Qed.

Lemma bien_formado_poner_habitacion s h H :
  bien_formado s -> bien_formado (poner_habitacion h H s).
Proof.
  intros [B1 B2 B3 B4 B5]. split; cbn; rewrite ?length_insert; assumption.
Qed.

(** ** C4: price update and lookup by number *)

(** C4.  [modificar_habitacion n p] fails exactly when no registered room
    has number [n]; the price [p] is stored as given, with no sign check,
    and after a success [obtener_habitacion n] returns a room whose
    [precio_por_noche] is [p]. *)
Theorem modificar_habitacion_correcta (s : Mundo) (n : Z) (p : float) :
  bien_formado s ->
  exists ok s',
    modificar_habitacion n p s = Some (ok, s') /\
    (ok = false <->
       ~ exists h H, h ∈ habitaciones s /\ mem_hab s !! h = Some H /\ numero H = n) /\
    (ok = true ->
       exists h H', obtener_habitacion n s' = Some (Some h, s') /\
                    mem_hab s' !! h = Some H' /\ precio_por_noche H' = p).
Proof.
  intros Hbf. rewrite (modificar_habitacion_find s n p Hbf).
  destruct (find (hab_con_numero s n) (habitaciones s)) as [h|] eqn:Hf.
  - pose proof Hf as Hp. apply find_primera in Hp as (pre & post & Hl & _ & Hh).
    apply hab_con_numero_true in Hh as (H & HH & Hn).
    desplegar. rewrite HH. cbn beta iota.
    exists true, (poner_habitacion h (con_precio p H) s). split; [reflexivity|]. split.
    + split; [discriminate|]. intros Hno. exfalso. apply Hno.
      exists h, H. repeat split; try assumption.
      rewrite Hl. apply elem_of_app. right. apply elem_of_cons. now left.
    + intros _. exists h, (con_precio p H). split; [|split].
      * rewrite obtener_habitacion_find by now apply bien_formado_poner_habitacion.
        cbn [habitaciones poner_habitacion].
        rewrite (find_igual _ (hab_con_numero s n)), Hf; [reflexivity|].
        apply Forall_forall. intros y _.
        now apply hab_con_numero_poner with (H := H).
      * cbn. apply list_lookup_insert_eq. eapply lookup_lt_Some; eauto.
      * reflexivity.
  - exists false, s. split; [reflexivity|]. split.
    + split; [|reflexivity]. intros _ (h & H & Hin & HH & Hn).
      apply find_ninguna in Hf. rewrite Forall_forall in Hf.
      specialize (Hf h Hin).
      assert (hab_con_numero s n h = true) by (apply hab_con_numero_true; eauto).
      congruence.
    + discriminate.
Qed.

Lemma modificar_habitacion_correcta_testigo :
  bien_formado mundo_ana /\
  exists ok s',
    modificar_habitacion 101 (-5)%float mundo_ana = Some (ok, s') /\
    (ok = false <->
       ~ exists h H, h ∈ habitaciones mundo_ana /\
                     mem_hab mundo_ana !! h = Some H /\ numero H = 101) /\
    (ok = true ->
       exists h H', obtener_habitacion 101 s' = Some (Some h, s') /\
                    mem_hab s' !! h = Some H' /\
                    precio_por_noche H' = (-5)%float).
Proof.
  split.
  - resolver_bf.
  - apply (modificar_habitacion_correcta mundo_ana 101 (-5)%float). resolver_bf.
Defined.

Lemma primera_elem (P : loc -> bool) (l : list loc) (x : loc) :
  primera P l x -> x ∈ l.
Proof.
  intros (pre & post & -> & _ & _).
  apply elem_of_app. right. apply elem_of_cons. now left.
Qed.

Lemma consultar_disponibilidad_filter s fi ff :
  bien_formado s ->
  consultar_disponibilidad fi ff s =
    Some (List.filter (esta_disponible s) (habitaciones s), s).
Proof.
  intros Hbf. unfold consultar_disponibilidad, leer_habitaciones, bind.
  apply solo_disponibles_filter, (bf_habitaciones _ Hbf).
Qed.

(** ** C6: availability query *)

(** C6.  [consultar_disponibilidad] returns the registered rooms whose
    [disponible] flag is set, in registry order, leaves the state alone,
    and gives the same answer whatever the two dates are. *)
Theorem consultar_disponibilidad_correcta (s : Mundo) (fi ff : datetime) :
  bien_formado s ->
  consultar_disponibilidad fi ff s =
    Some (List.filter (esta_disponible s) (habitaciones s), s) /\
  (forall h, h ∈ List.filter (esta_disponible s) (habitaciones s) <->
             h ∈ habitaciones s /\
             exists H, mem_hab s !! h = Some H /\ disponible H = true) /\
  (forall fi' ff',
     consultar_disponibilidad fi' ff' s = consultar_disponibilidad fi ff s).
Proof.
  intros Hbf. split; [|split].
  - now apply consultar_disponibilidad_filter.
  - intros h. rewrite list_elem_of_In, filter_In, <- list_elem_of_In.
    unfold esta_disponible. split; intros [Hin Hd]; (split; [assumption|]).
    + destruct (mem_hab s !! h) as [H|]; [eauto | discriminate].
    + now destruct Hd as (H & -> & ->).
  - reflexivity.
Qed.

Lemma consultar_disponibilidad_correcta_testigo :
  bien_formado mundo_gemelas /\
  consultar_disponibilidad ene10 ene12 mundo_gemelas = Some ([1%nat], mundo_gemelas) /\
  consultar_disponibilidad feb01 feb03 mundo_gemelas =
    consultar_disponibilidad ene10 ene12 mundo_gemelas.
Proof.
  assert (Hbf : bien_formado mundo_gemelas) by resolver_bf.
  split; [exact Hbf|].
  destruct (consultar_disponibilidad_correcta mundo_gemelas ene10 ene12 Hbf)
    as (Heq & _ & Hfechas).
  split; [exact Heq | apply Hfechas].
Defined.

(** ** C8: removing rooms by number *)

(** C8.  [eliminar_habitacion n] keeps, in order, exactly the registered
    rooms whose number is not [n], so every duplicate of [n] goes; when no
    registered room has number [n] the state is unchanged; the method
    returns nothing. *)
Theorem eliminar_habitacion_correcta (s : Mundo) (n : Z) :
  bien_formado s ->
  exists s',
    eliminar_habitacion n s = Some (tt, s') /\
    s' = con_habitaciones
           (List.filter (fun h => negb (hab_con_numero s n h)) (habitaciones s)) s /\
    (forall h, h ∈ habitaciones s' <->
               h ∈ habitaciones s /\ hab_con_numero s n h = false) /\
    ((forall h, h ∈ habitaciones s -> hab_con_numero s n h = false) -> s' = s).
Proof.
  intros Hbf. eexists. split; [|split; [reflexivity|split]].
  - unfold eliminar_habitacion, leer_habitaciones, asignar_habitaciones, bind.
    now rewrite (sin_numero_filter s n _ (bf_habitaciones _ Hbf)).
  - intros h. cbn [habitaciones con_habitaciones].
    rewrite list_elem_of_In, filter_In, <- list_elem_of_In, negb_true_iff.
    reflexivity.
  - intros Hno. rewrite filter_todos; [apply con_habitaciones_id|].
    apply Forall_forall. intros h Hin. now rewrite (Hno h Hin).
Qed.

Lemma eliminar_habitacion_correcta_testigo :
  bien_formado mundo_gemelas /\
  exists s',
    eliminar_habitacion 101 mundo_gemelas = Some (tt, s') /\
    s' = con_habitaciones
           (List.filter (fun h => negb (hab_con_numero mundo_gemelas 101 h))
                        (habitaciones mundo_gemelas)) mundo_gemelas /\
    (forall h, h ∈ habitaciones s' <->
               h ∈ habitaciones mundo_gemelas /\
               hab_con_numero mundo_gemelas 101 h = false) /\
    ((forall h, h ∈ habitaciones mundo_gemelas ->
                hab_con_numero mundo_gemelas 101 h = false) -> s' = mundo_gemelas).
Proof.
  split.
  - resolver_bf.
  - apply (eliminar_habitacion_correcta mundo_gemelas 101). resolver_bf.
Defined.

(** ** C2: booking *)

Lemma crear_reserva_eq s r R H C :
  mem_res s !! r = Some R ->
  mem_hab s !! habitacion R = Some H ->
  mem_cli s !! cliente R = Some C ->
  crear_reserva r s =
    Some (if disponible H
          then (true,
                mkMundo (<[habitacion R := con_disponible false H]> (mem_hab s))
                        (<[cliente R := con_reservas (cli_reservas C ++ [r]) C]>
                           (mem_cli s))
                        (mem_res s) (habitaciones s) (clientes s)
                        (reservas s ++ [r]))
          else (false, s)).
Proof.
  intros HR HH HC. unfold crear_reserva. desplegar.
  rewrite HR. cbn beta iota. rewrite HH. cbn beta iota.
  destruct (disponible H); [|reflexivity].
  now rewrite HC.
Qed.

Lemma crear_reserva_ocupada s r R H :
  mem_res s !! r = Some R ->
  mem_hab s !! habitacion R = Some H ->
  disponible H = false ->
  crear_reserva r s = Some (false, s).
Proof.
  intros HR HH Hd. unfold crear_reserva. desplegar.
  rewrite HR. cbn beta iota. rewrite HH. cbn beta iota. now rewrite Hd.
Qed.

(** C2.  [crear_reserva] succeeds exactly when the room bound to the
    reservation is available.  On success the room is flagged unavailable
    (its other fields are kept), the reservation is appended to the global
    registry and to the end of its client's list (the client's other fields
    are kept), nothing else changes, and a further booking of any
    reservation bound to the same room fails and changes nothing.  On
    failure the state is unchanged. *)
Theorem crear_reserva_correcta (s : Mundo) (r : loc)
    (R : Reserva) (H : Habitacion) (C : Cliente) :
  mem_res s !! r = Some R ->
  mem_hab s !! habitacion R = Some H ->
  mem_cli s !! cliente R = Some C ->
  exists ok s',
    crear_reserva r s = Some (ok, s') /\
    (ok = true <-> disponible H = true) /\
    (ok = true ->
       mem_hab s' = <[habitacion R := con_disponible false H]> (mem_hab s) /\
       mem_hab s' !! habitacion R =
         Some (mkHabitacion (clase H) (numero H) (tipo H)
                            (precio_por_noche H) false) /\
       (forall h, h <> habitacion R -> mem_hab s' !! h = mem_hab s !! h) /\
       esta_disponible s' (habitacion R) = false /\
       reservas s' = reservas s ++ [r] /\
       mem_cli s' = <[cliente R := con_reservas (cli_reservas C ++ [r]) C]> (mem_cli s) /\
       mem_cli s' !! cliente R = Some (con_reservas (cli_reservas C ++ [r]) C) /\
       mem_cli s' !! cliente R =
         Some (mkCliente (nombres C) (apellidos C) (dpi C)
                         (cli_reservas C ++ [r])) /\
       (forall c, c <> cliente R -> mem_cli s' !! c = mem_cli s !! c) /\
       mem_res s' = mem_res s /\
       habitaciones s' = habitaciones s /\
       clientes s' = clientes s /\
       (forall r2 R2,
          mem_res s' !! r2 = Some R2 -> habitacion R2 = habitacion R ->
          crear_reserva r2 s' = Some (false, s'))) /\
    (ok = false -> s' = s).
Proof.
  intros HR HH HC. rewrite (crear_reserva_eq s r R H C HR HH HC).
  assert (Hlh : (habitacion R < length (mem_hab s))%nat)
    by (eapply lookup_lt_Some; eauto).
  assert (Hlc : (cliente R < length (mem_cli s))%nat)
    by (eapply lookup_lt_Some; eauto).
  destruct (disponible H) eqn:Hd.
  - eexists true, _. split; [reflexivity|]. split; [tauto|]. split; [|discriminate].
    intros _. cbn [mem_hab mem_cli mem_res habitaciones clientes reservas].
    repeat split.
    + now apply list_lookup_insert_eq.
    + intros h Hne. now apply list_lookup_insert_ne.
    + unfold esta_disponible. cbn. now rewrite list_lookup_insert_eq.
    + now apply list_lookup_insert_eq.
    + now apply list_lookup_insert_eq.
    + intros c Hne. now apply list_lookup_insert_ne.
    + intros r2 R2 HR2 Hh2.
      apply (crear_reserva_ocupada _ r2 R2 (con_disponible false H));
        [exact HR2 | | reflexivity].
      cbn. rewrite Hh2. now apply list_lookup_insert_eq.
  - exists false, s. split; [reflexivity|]. split; [|split; [discriminate|reflexivity]].
    split; discriminate.
Qed.

Lemma crear_reserva_correcta_testigo :
  exists ok s',
    crear_reserva 0%nat mundo_alta = Some (ok, s') /\
    ok = true /\ s' = mundo_ana /\
    mem_hab s' !! 0%nat =
      Some (mkHabitacion Estandar 101 "Estándar" 100%float false) /\
    mem_cli s' !! 0%nat = Some (mkCliente "Ana" "Lopez" "CF1" [0%nat]) /\
    reservas s' = [0%nat] /\
    crear_reserva 0%nat mundo_ana = Some (false, mundo_ana).
Proof.
  destruct (crear_reserva_correcta mundo_alta 0%nat
              (mkReserva 0%nat 0%nat ene10 ene12 "Activa")
              (mkHabitacion Estandar 101 "Estándar" 100%float true)
              (mkCliente "Ana" "Lopez" "CF1" [])
              eq_refl eq_refl eq_refl)
    as (ok & s' & Heq & Hok & Hexito & _).
  exists ok, s'. split; [exact Heq|].
  vm_compute in Heq. injection Heq as <- <-.
  destruct (Hexito eq_refl)
    as (_ & Hhab & _ & _ & Hres & _ & _ & Hcli & _).
  split; [reflexivity|]. split; [reflexivity|].
  split; [exact Hhab|]. split; [exact Hcli|]. split; [exact Hres|].
  reflexivity.
Defined.

(** ** Well-formedness is preserved *)

Lemma bien_formado_poner_cliente s c C :
  bien_formado s ->
  Forall (fun r => r < length (mem_res s))%nat (cli_reservas C) ->
  bien_formado (poner_cliente c C s).
Proof.
  intros [B1 B2 B3 B4 B5] HC. split; cbn; rewrite ?length_insert; try assumption.
  now apply Forall_insert.
Qed.

Lemma bien_formado_poner_reserva s r R :
  bien_formado s ->
  (cliente R < length (mem_cli s))%nat ->
  (habitacion R < length (mem_hab s))%nat ->
  bien_formado (poner_reserva r R s).
Proof.
  intros [B1 B2 B3 B4 B5] Hc Hh. split; cbn; rewrite ?length_insert; try assumption.
  now apply Forall_insert.
Qed.

Lemma bien_formado_con_habitaciones s l :
  bien_formado s ->
  Forall (fun h => h < length (mem_hab s))%nat l ->
  bien_formado (con_habitaciones l s).
Proof. intros [B1 B2 B3 B4 B5] Hl. split; cbn; assumption. Qed.

Lemma bien_formado_reserva s r R :
  bien_formado s -> mem_res s !! r = Some R ->
  (cliente R < length (mem_cli s))%nat /\ (habitacion R < length (mem_hab s))%nat.
Proof.
  intros Hbf HR. pose proof (bf_mem_res _ Hbf) as Hm.
  rewrite Forall_lookup in Hm. exact (Hm r R HR).
Qed.

Lemma bien_formado_cliente s c C :
  bien_formado s -> mem_cli s !! c = Some C ->
  Forall (fun r => r < length (mem_res s))%nat (cli_reservas C).
Proof.
  intros Hbf HC. pose proof (bf_mem_cli _ Hbf) as Hm.
  rewrite Forall_lookup in Hm. exact (Hm c C HC).
Qed.

Lemma Forall_menor_mas (l : list nat) (n : nat) :
  Forall (fun x => x < n)%nat l -> Forall (fun x => x < n + 1)%nat l.
Proof. intros Hl. eapply Forall_impl; [exact Hl|]. intros x Hx. cbn in *. lia. Qed.

Lemma nueva_habitacion_bien_formado k n t p s h s' :
  bien_formado s -> nueva_habitacion k n t p s = Some (h, s') -> bien_formado s'.
Proof.
  intros [B1 B2 B3 B4 B5] [= <- <-].
  split; cbn; rewrite ?length_app; cbn [length]; try assumption.
  - now apply Forall_menor_mas.
  - eapply Forall_impl; [exact B4|]. intros R [Hc Hh]. cbn in *. lia.
Qed.

Lemma nuevo_Cliente_bien_formado nn na d s c s' :
  bien_formado s -> nuevo_Cliente nn na d s = Some (c, s') -> bien_formado s'.
Proof.
  intros [B1 B2 B3 B4 B5] [= <- <-].
  split; cbn; rewrite ?length_app; cbn [length]; try assumption.
  - now apply Forall_menor_mas.
  - eapply Forall_impl; [exact B4|]. intros R [Hc Hh]. cbn in *. lia.
  - apply Forall_app. split; [assumption|].
    apply Forall_cons_2; [apply Forall_nil_2 | apply Forall_nil_2].
Qed.

Lemma nueva_Reserva_bien_formado c h fe fs s r s' :
  bien_formado s ->
  (c < length (mem_cli s))%nat -> (h < length (mem_hab s))%nat ->
  nueva_Reserva c h fe fs s = Some (r, s') -> bien_formado s'.
Proof.
  intros [B1 B2 B3 B4 B5] Hc Hh [= <- <-].
  split; cbn; rewrite ?length_app; cbn [length]; try assumption.
  - now apply Forall_menor_mas.
  - apply Forall_app. split; [assumption|].
    apply Forall_cons_2; [cbn; auto | apply Forall_nil_2].
  - eapply Forall_impl; [exact B5|]. intros C HC. cbn in HC.
    now apply Forall_menor_mas.
Qed.

Lemma aplicar_descuento_bien_formado h s u s' :
  bien_formado s -> aplicar_descuento h s = Some (u, s') -> bien_formado s'.
Proof.
  intros Hbf. unfold aplicar_descuento. desplegar.
  destruct (mem_hab s !! h) as [H|]; [|discriminate].
  intros [= _ <-]. now apply bien_formado_poner_habitacion.
Qed.

Lemma agregar_habitacion_bien_formado h s u s' :
  bien_formado s -> (h < length (mem_hab s))%nat ->
  agregar_habitacion h s = Some (u, s') -> bien_formado s'.
Proof.
  intros Hbf Hh [= _ <-]. apply bien_formado_con_habitaciones; [assumption|].
  apply Forall_app. split; [apply (bf_habitaciones _ Hbf)|].
  apply Forall_cons_2; [assumption | apply Forall_nil_2].
Qed.

Lemma registrar_cliente_bien_formado c s u s' :
  bien_formado s -> (c < length (mem_cli s))%nat ->
  registrar_cliente c s = Some (u, s') -> bien_formado s'.
Proof.
  intros [B1 B2 B3 B4 B5] Hc [= _ <-]. split; cbn; try assumption.
  apply Forall_app. split; [assumption|].
  apply Forall_cons_2; [assumption | apply Forall_nil_2].
Qed.

Lemma modificar_habitacion_bien_formado n p s ok s' :
  bien_formado s -> modificar_habitacion n p s = Some (ok, s') -> bien_formado s'.
Proof.
  intros Hbf. rewrite (modificar_habitacion_find s n p Hbf).
  destruct (find _ _) as [h|]; [|now intros [= _ <-]].
  desplegar. destruct (mem_hab s !! h) as [H|]; [|discriminate].
  intros [= _ <-]. now apply bien_formado_poner_habitacion.
Qed.

Lemma eliminar_habitacion_bien_formado n s u s' :
  bien_formado s -> eliminar_habitacion n s = Some (u, s') -> bien_formado s'.
Proof.
  intros Hbf. unfold eliminar_habitacion, leer_habitaciones, asignar_habitaciones, bind.
  rewrite (sin_numero_filter s n _ (bf_habitaciones _ Hbf)).
  intros [= _ <-]. apply bien_formado_con_habitaciones; [assumption|].
  apply Forall_forall. intros h [Hin _]%list_elem_of_In%filter_In.
  pose proof (bf_habitaciones _ Hbf) as Hf. rewrite Forall_forall in Hf.
  apply Hf. now apply list_elem_of_In.
Qed.

Lemma actualizar_cliente_bien_formado d nn na s ok s' :
  bien_formado s -> actualizar_cliente d nn na s = Some (ok, s') -> bien_formado s'.
Proof.
  intros Hbf. rewrite (actualizar_cliente_find s d nn na Hbf).
  destruct (find _ _) as [c|]; [|now intros [= _ <-]].
  desplegar. destruct (mem_cli s !! c) as [C|] eqn:HC; [|discriminate].
  intros [= _ <-]. apply bien_formado_poner_cliente; [assumption|].
  exact (bien_formado_cliente s c C Hbf HC).
Qed.

Lemma crear_reserva_bien_formado r s ok s' :
  bien_formado s -> crear_reserva r s = Some (ok, s') -> bien_formado s'.
Proof.
  intros Hbf Hcr.
  destruct (mem_res s !! r) as [R|] eqn:HR;
    [|unfold crear_reserva in Hcr; revert Hcr; desplegar; now rewrite HR].
  destruct (bien_formado_reserva s r R Hbf HR) as [Hc Hh].
  destruct (lookup_lt_is_Some_2 _ _ Hc) as [C HC].
  destruct (lookup_lt_is_Some_2 _ _ Hh) as [H HH].
  rewrite (crear_reserva_eq s r R H C HR HH HC) in Hcr.
  destruct (disponible H); injection Hcr as <- <-; [|assumption].
  pose proof (bien_formado_cliente s _ C Hbf HC) as HCr.
  destruct Hbf as [B1 B2 B3 B4 B5].
  split; cbn; rewrite ?length_insert; try assumption.
  - apply Forall_app. split; [assumption|].
    apply Forall_cons_2; [eapply lookup_lt_Some; eauto | apply Forall_nil_2].
  - apply Forall_insert; [assumption|]. cbn.
    apply Forall_app. split; [assumption|].
    apply Forall_cons_2; [eapply lookup_lt_Some; eauto | apply Forall_nil_2].
Qed.

Lemma modificar_reserva_bien_formado d n fe fs s ok s' :
  bien_formado s -> modificar_reserva d n fe fs s = Some (ok, s') -> bien_formado s'.
Proof.
  intros Hbf. rewrite (modificar_reserva_find s d n fe fs Hbf).
  destruct (find _ _) as [r|]; [|now intros [= _ <-]].
  desplegar. destruct (mem_res s !! r) as [R|] eqn:HR; [|discriminate].
  intros [= _ <-]. destruct (bien_formado_reserva s r R Hbf HR).
  now apply bien_formado_poner_reserva.
Qed.

Lemma cancelar_reserva_bien_formado d n s ok s' :
  bien_formado s -> cancelar_reserva d n s = Some (ok, s') -> bien_formado s'.
Proof.
  intros Hbf. rewrite (cancelar_reserva_find s d n Hbf).
  destruct (find _ _) as [r|]; [|now intros [= _ <-]].
  desplegar. destruct (mem_res s !! r) as [R|] eqn:HR; [|discriminate].
  cbn beta iota.
  destruct (mem_hab s !! habitacion R) as [H|]; [|discriminate].
  intros [= _ <-]. destruct (bien_formado_reserva s r R Hbf HR).
  apply (bien_formado_poner_habitacion (poner_reserva _ _ s)).
  now apply bien_formado_poner_reserva.
Qed.

Lemma ejecutar_bien_formado o s s' :
  bien_formado s -> ejecutar o s = Some s' -> bien_formado s'.
Proof.
  intros Hbf. destruct o as [k n p| | | | | | | | | | | | | |]; cbn [ejecutar].
  - unfold HabitacionEstandar, HabitacionSuite, HabitacionDeluxe, efecto.
    destruct k; intros [= <-];
      now apply (nueva_habitacion_bien_formado _ n _ p s (length (mem_hab s)) _ Hbf eq_refl).
  - intros [= <-].
    now apply (nuevo_Cliente_bien_formado nn na d s _ _ Hbf eq_refl).
  - unfold hay_cliente, hay_habitacion.
    destruct (bool_decide _) eqn:Hc; [|discriminate].
    destruct (bool_decide (h < _)%nat) eqn:Hh; [|discriminate].
    apply bool_decide_eq_true in Hc, Hh. cbn [andb]. intros [= <-].
    now apply (nueva_Reserva_bien_formado c h fe fs s _ _ Hbf Hc Hh eq_refl).
  - unfold efecto. destruct (aplicar_descuento h s) as [[u s1]|] eqn:He; [|discriminate].
    intros [= <-]. eapply aplicar_descuento_bien_formado; eauto.
  - unfold hay_habitacion. destruct (bool_decide _) eqn:Hh; [|discriminate].
    apply bool_decide_eq_true in Hh. intros [= <-].
    now apply (agregar_habitacion_bien_formado h s tt _ Hbf Hh eq_refl).
  - unfold efecto. destruct (modificar_habitacion n p s) as [[u s1]|] eqn:He; [|discriminate].
    intros [= <-]. eapply modificar_habitacion_bien_formado; eauto.
  - unfold efecto. destruct (eliminar_habitacion n s) as [[u s1]|] eqn:He; [|discriminate].
    intros [= <-]. eapply eliminar_habitacion_bien_formado; eauto.
  - unfold hay_cliente. destruct (bool_decide _) eqn:Hc; [|discriminate].
    apply bool_decide_eq_true in Hc. intros [= <-].
    now apply (registrar_cliente_bien_formado c s tt _ Hbf Hc eq_refl).
  - unfold efecto. destruct (actualizar_cliente d nn na s) as [[u s1]|] eqn:He; [|discriminate].
    intros [= <-]. eapply actualizar_cliente_bien_formado; eauto.
  - unfold efecto. destruct (crear_reserva r s) as [[u s1]|] eqn:He; [|discriminate].
    intros [= <-]. eapply crear_reserva_bien_formado; eauto.
  - unfold efecto. destruct (modificar_reserva d n fe fs s) as [[u s1]|] eqn:He; [|discriminate].
    intros [= <-]. eapply modificar_reserva_bien_formado; eauto.
  - unfold efecto. destruct (cancelar_reserva d n s) as [[u s1]|] eqn:He; [|discriminate].
    intros [= <-]. eapply cancelar_reserva_bien_formado; eauto.
  - unfold efecto. rewrite (consultar_disponibilidad_filter s fi ff Hbf).
    now intros [= <-].
  - unfold efecto. rewrite (obtener_cliente_find s d Hbf). now intros [= <-].
  - unfold efecto. rewrite (obtener_habitacion_find s n Hbf). now intros [= <-].
Qed.

Lemma inicial_bien_formado : bien_formado inicial.
Proof. split; cbn; apply Forall_nil_2. Qed.

Lemma correr_bien_formado ops s s' :
  bien_formado s -> correr ops s = Some s' -> bien_formado s'.
Proof.
  revert s. induction ops as [|o ops IH]; intros s Hbf; cbn.
  - now intros [= <-].
  - destruct (ejecutar o s) as [s1|] eqn:He; [|discriminate].
    apply IH. eapply ejecutar_bien_formado; eauto.
Qed.

Lemma alcanzable_bien_formado s : alcanzable s -> bien_formado s.
Proof. intros [ops Hr]. eapply correr_bien_formado; [apply inicial_bien_formado | eauto]. Qed.

Lemma prueba_numero_cierta s n h :
  hab_con_numero s n h = true -> prueba_numero n h s = Some (true, s).
Proof.
  intros Hh. pose proof Hh as (H & HH & _)%hab_con_numero_true.
  rewrite prueba_numero_vale by (eapply lookup_lt_Some; eauto). now rewrite Hh.
Qed.

Lemma prueba_dpi_cierta s d c :
  cli_con_dpi s d c = true -> prueba_dpi d c s = Some (true, s).
Proof.
  intros Hc. pose proof Hc as (C & HC & _)%cli_con_dpi_true.
  rewrite prueba_dpi_vale by (eapply lookup_lt_Some; eauto). now rewrite Hc.
Qed.

Lemma coincide_cierta s d n r :
  res_coincide s d n r = true -> coincide r d n s = Some (true, s).
Proof.
  intros (R & C & H & HR & HC & HH & Hd & Hn)%res_coincide_true.
  unfold coincide. desplegar. rewrite HR. cbn beta iota. rewrite HC. cbn beta iota.
  rewrite Hd, String.eqb_refl, HH. cbn beta iota. now rewrite Hn, Z.eqb_refl.
Qed.

Lemma find_ninguna_elem (P : loc -> bool) (l : list loc) :
  find P l = None <-> forall x, x ∈ l -> P x = false.
Proof. rewrite find_ninguna. apply Forall_forall. Qed.

(** ** C5: changing the dates of a reservation *)

(** C5.  [modificar_reserva] fails, leaving the state as it was, exactly
    when no registered reservation matches the pair.  Otherwise it
    overwrites the two dates of the first match in registry order and of
    nothing else; the status of that reservation is neither consulted nor
    changed. *)
Theorem modificar_reserva_correcta (s : Mundo) (d : string) (n : Z)
    (fe fs : datetime) :
  bien_formado s ->
  exists ok s',
    modificar_reserva d n fe fs s = Some (ok, s') /\
    (ok = false <-> forall r, r ∈ reservas s -> res_coincide s d n r = false) /\
    (ok = false -> s' = s) /\
    (ok = true ->
       exists r R,
         primera (res_coincide s d n) (reservas s) r /\
         mem_res s !! r = Some R /\
         s' = poner_reserva r (con_fechas fe fs R) s /\
         mem_res s' !! r =
           Some (mkReserva (cliente R) (habitacion R) fe fs (estado R))).
Proof.
  intros Hbf. rewrite (modificar_reserva_find s d n fe fs Hbf).
  destruct (find (res_coincide s d n) (reservas s)) as [r|] eqn:Hf.
  - pose proof Hf as Hp. apply find_primera in Hp.
    pose proof Hp as (pre & post & Hl & _ & Hr).
    apply res_coincide_true in Hr as (R & C & H & HR & _).
    desplegar. rewrite HR. cbn beta iota.
    exists true, (poner_reserva r (con_fechas fe fs R) s).
    split; [reflexivity|]. split; [|split; [discriminate|]].
    + split; [discriminate|]. intros Hno. apply find_ninguna_elem in Hno. congruence.
    + intros _. exists r, R. repeat split; try assumption.
      cbn. apply list_lookup_insert_eq. eapply lookup_lt_Some; eauto.
  - exists false, s. split; [reflexivity|]. split; [|split; [reflexivity|discriminate]].
    split; [|reflexivity]. intros _. now apply find_ninguna_elem.
Qed.

Lemma modificar_reserva_correcta_testigo :
  bien_formado mundo_cancelada /\
  estado <$> mem_res mundo_cancelada !! 0%nat = Some "Cancelada" /\
  exists s',
    modificar_reserva "CF1" 101 feb01 feb03 mundo_cancelada = Some (true, s') /\
    mem_res s' !! 0%nat = Some (mkReserva 0%nat 0%nat feb01 feb03 "Cancelada").
Proof.
  assert (Hbf : bien_formado mundo_cancelada) by resolver_bf.
  split; [exact Hbf|]. split; [reflexivity|].
  destruct (modificar_reserva_correcta mundo_cancelada "CF1" 101 feb01 feb03 Hbf)
    as (ok & s' & Heq & _).
  exists s'. vm_compute in Heq. injection Heq as <- <-.
  split; reflexivity.
Defined.

(** ** C3: cancelling *)

Lemma cancelar_reserva_efecto s d n :
  bien_formado s ->
  match find (res_coincide s d n) (reservas s) with
  | None => cancelar_reserva d n s = Some (false, s)
  | Some r =>
      exists R H,
        mem_res s !! r = Some R /\ mem_hab s !! habitacion R = Some H /\
        cancelar_reserva d n s =
          Some (true, poner_habitacion (habitacion R) (con_disponible true H)
                        (poner_reserva r (con_estado "Cancelada" R) s))
  end.
Proof.
  intros Hbf. rewrite (cancelar_reserva_find s d n Hbf).
  destruct (find (res_coincide s d n) (reservas s)) as [r|] eqn:Hf; [|reflexivity].
  apply find_primera in Hf as (pre & post & _ & _ & Hr).
  apply res_coincide_true in Hr as (R & C & H & HR & _ & HH & _).
  exists R, H. split; [assumption|]. split; [assumption|].
  desplegar. rewrite HR. cbn beta iota. now rewrite HH.
Qed.

Lemma cancelar_reserva_resultado s d n :
  bien_formado s ->
  exists ok s',
    cancelar_reserva d n s = Some (ok, s') /\
    (ok = false <-> forall r, r ∈ reservas s -> res_coincide s d n r = false) /\
    (ok = false -> s' = s) /\
    (ok = true ->
       exists r R H,
         primera (res_coincide s d n) (reservas s) r /\
         mem_res s !! r = Some R /\
         mem_hab s !! habitacion R = Some H /\
         s' = poner_habitacion (habitacion R) (con_disponible true H)
                (poner_reserva r (con_estado "Cancelada" R) s) /\
         mem_res s' !! r = Some (con_estado "Cancelada" R) /\
         esta_disponible s' (habitacion R) = true).
Proof.
  intros Hbf. pose proof (cancelar_reserva_efecto s d n Hbf) as He.
  destruct (find (res_coincide s d n) (reservas s)) as [r|] eqn:Hf.
  - destruct He as (R & H & HR & HH & ->).
    eexists true, _. split; [reflexivity|]. split; [|split; [discriminate|]].
    + split; [discriminate|]. intros Hno. apply find_ninguna_elem in Hno. congruence.
    + intros _. exists r, R, H. split; [now apply find_primera|].
      repeat split; try assumption.
      * cbn. apply list_lookup_insert_eq. eapply lookup_lt_Some; eauto.
      * unfold esta_disponible. cbn.
        rewrite list_lookup_insert_eq by (eapply lookup_lt_Some; eauto). reflexivity.
  - rewrite He. exists false, s. split; [reflexivity|].
    split; [|split; [reflexivity|discriminate]].
    split; [|reflexivity]. intros _. now apply find_ninguna_elem.
Qed.

(** The claim as written fails when an earlier registered reservation has the
    same pair but is bound to another room object: after booking the second
    of two rooms numbered 101 for CF1, cancelling ("CF1", 101) succeeds, yet
    the room just booked is still unavailable and its reservation Activa. *)
Lemma cancelar_reserva_libera_otra_habitacion :
  exists s1 s2,
    crear_reserva 1%nat mundo_gemelas = Some (true, s1) /\
    esta_disponible s1 1%nat = false /\
    cancelar_reserva "CF1" 101 s1 = Some (true, s2) /\
    esta_disponible s2 1%nat = false /\
    estado <$> mem_res s2 !! 1%nat = Some "Activa" /\
    esta_disponible s2 0%nat = true.
Proof.
  eexists _, _. split; [vm_compute; reflexivity|]. split; [reflexivity|].
  split; [vm_compute; reflexivity|]. repeat split.
Qed.

Lemma cancelar_reserva_detalle s d n :
  bien_formado s ->
  exists ok s',
    cancelar_reserva d n s = Some (ok, s') /\
    (ok = false <-> forall r, r ∈ reservas s -> res_coincide s d n r = false) /\
    (ok = false -> s' = s) /\
    (ok = true ->
       exists r R H,
         primera (res_coincide s d n) (reservas s) r /\
         mem_res s !! r = Some R /\
         mem_hab s !! habitacion R = Some H /\
         s' = poner_habitacion (habitacion R) (con_disponible true H)
                (poner_reserva r (con_estado "Cancelada" R) s) /\
         mem_res s' !! r = Some (con_estado "Cancelada" R) /\
         esta_disponible s' (habitacion R) = true /\
         mem_res s' !! r =
           Some (mkReserva (cliente R) (habitacion R) (fecha_entrada R)
                           (fecha_salida R) "Cancelada") /\
         mem_hab s' !! habitacion R =
           Some (mkHabitacion (clase H) (numero H) (tipo H)
                              (precio_por_noche H) true) /\
         (forall y, y <> r -> mem_res s' !! y = mem_res s !! y) /\
         (forall y, y <> habitacion R -> mem_hab s' !! y = mem_hab s !! y) /\
         mem_cli s' = mem_cli s /\
         habitaciones s' = habitaciones s /\
         clientes s' = clientes s /\
         reservas s' = reservas s).
Proof.
  intros Hbf.
  destruct (cancelar_reserva_resultado s d n Hbf)
    as (ok & s' & Hcan & Hfalla & Hnada & Hexito).
  exists ok, s'. split; [assumption|]. split; [assumption|].
  split; [assumption|]. intros Hok.
  destruct (Hexito Hok) as (r & R & H & Hp & HR & HH & Hs & Hest & Hdis).
  exists r, R, H. do 6 (split; [assumption|]).
  assert (Hlr : (r < length (mem_res s))%nat) by (eapply lookup_lt_Some; eauto).
  assert (Hlh : (habitacion R < length (mem_hab s))%nat)
    by (eapply lookup_lt_Some; eauto).
  rewrite Hs. cbn. repeat split.
  - now apply list_lookup_insert_eq.
  - now apply list_lookup_insert_eq.
  - intros y Hy. now apply list_lookup_insert_ne.
  - intros y Hy. now apply list_lookup_insert_ne.
Qed.

(** C3 (amended).  [cancelar_reserva] fails exactly when no registered
    reservation matches the pair.  Otherwise it takes the first match in
    registry order, sets its status to Cancelada and the availability of
    the room bound to it to true, whatever the status was before, and
    changes nothing else.  After a successful [crear_reserva] the booked
    room is unavailable; a following cancellation with the pair of that
    booking succeeds, and afterwards the booked room is available exactly
    when the first registered match of the pair is bound to that same room
    object, as it is when the booking itself is the first match (its status
    is then Cancelada; otherwise the booking keeps its fields). *)
Theorem cancelar_reserva_correcta :
  (forall (s : Mundo) (d : string) (n : Z),
     bien_formado s ->
     exists ok s',
       cancelar_reserva d n s = Some (ok, s') /\
       (ok = false <-> forall r, r ∈ reservas s -> res_coincide s d n r = false) /\
       (ok = false -> s' = s) /\
       (ok = true ->
          exists r R H,
            primera (res_coincide s d n) (reservas s) r /\
            mem_res s !! r = Some R /\
            mem_hab s !! habitacion R = Some H /\
            s' = poner_habitacion (habitacion R) (con_disponible true H)
                   (poner_reserva r (con_estado "Cancelada" R) s) /\
            mem_res s' !! r = Some (con_estado "Cancelada" R) /\
            esta_disponible s' (habitacion R) = true /\
            mem_res s' !! r =
              Some (mkReserva (cliente R) (habitacion R) (fecha_entrada R)
                              (fecha_salida R) "Cancelada") /\
            mem_hab s' !! habitacion R =
              Some (mkHabitacion (clase H) (numero H) (tipo H)
                                 (precio_por_noche H) true) /\
            (forall y, y <> r -> mem_res s' !! y = mem_res s !! y) /\
            (forall y, y <> habitacion R -> mem_hab s' !! y = mem_hab s !! y) /\
            mem_cli s' = mem_cli s /\
            habitaciones s' = habitaciones s /\
            clientes s' = clientes s /\
            reservas s' = reservas s)) /\
  (forall (s s1 : Mundo) (r : loc) (R : Reserva) (C : Cliente) (H : Habitacion),
     bien_formado s ->
     mem_res s !! r = Some R ->
     mem_cli s !! cliente R = Some C ->
     mem_hab s !! habitacion R = Some H ->
     crear_reserva r s = Some (true, s1) ->
     esta_disponible s1 (habitacion R) = false /\
     exists s2 r0 R0,
       cancelar_reserva (dpi C) (numero H) s1 = Some (true, s2) /\
       primera (res_coincide s1 (dpi C) (numero H)) (reservas s1) r0 /\
       mem_res s1 !! r0 = Some R0 /\
       esta_disponible s2 (habitacion R0) = true /\
       (esta_disponible s2 (habitacion R) = true <->
        habitacion R0 = habitacion R) /\
       (r0 = r -> habitacion R0 = habitacion R /\
                  estado <$> mem_res s2 !! r = Some "Cancelada") /\
       (r0 <> r -> mem_res s2 !! r = Some R)).
Proof.
  split; [exact cancelar_reserva_detalle|].
  intros s s1 r R C H Hbf HR HC HH Hcr.
  pose proof (crear_reserva_bien_formado r s true s1 Hbf Hcr) as Hbf1.
  rewrite (crear_reserva_eq s r R H C HR HH HC) in Hcr.
  destruct (disponible H) eqn:Hd; [|discriminate].
  injection Hcr as Hs1. symmetry in Hs1.
  assert (Hlh : (habitacion R < length (mem_hab s))%nat)
    by (eapply lookup_lt_Some; eauto).
  assert (Hlc : (cliente R < length (mem_cli s))%nat)
    by (eapply lookup_lt_Some; eauto).
  assert (HR1 : mem_res s1 !! r = Some R) by (rewrite Hs1; exact HR).
  assert (Hm : res_coincide s1 (dpi C) (numero H) r = true).
  { apply res_coincide_true.
    exists R, (con_reservas (cli_reservas C ++ [r]) C), (con_disponible false H).
    rewrite Hs1. cbn. repeat split; try assumption.
    - now apply list_lookup_insert_eq.
    - now apply list_lookup_insert_eq. }
  assert (Hocupada : esta_disponible s1 (habitacion R) = false).
  { rewrite Hs1. unfold esta_disponible. cbn. now rewrite list_lookup_insert_eq. }
  split; [exact Hocupada|].
  destruct (cancelar_reserva_detalle s1 (dpi C) (numero H) Hbf1)
    as (ok & s2 & Hcan & Hfalla & _ & Hexito).
  destruct ok.
  - destruct (Hexito eq_refl)
      as (r0 & R0 & H0 & Hprim & HR0 & HH0 & _ & Hest & Hdis & _ & _
          & Hres & Hhab & _).
    exists s2, r0, R0. do 4 (split; [assumption|]). split; [|split].
    + split.
      * intros Hlibre. destruct (decide (habitacion R0 = habitacion R)) as [|Hne];
          [assumption|].
        exfalso. unfold esta_disponible in Hlibre, Hocupada.
        rewrite (Hhab (habitacion R)) in Hlibre by congruence.
        rewrite Hlibre in Hocupada. discriminate.
      * intros <-. exact Hdis.
    + intros ->. assert (R0 = R) as -> by congruence.
      split; [reflexivity|]. now rewrite Hest.
    + intros Hne. rewrite (Hres r) by congruence. exact HR1.
  - exfalso. destruct Hfalla as [Hfalla _].
    specialize (Hfalla eq_refl r). rewrite Hm in Hfalla.
    enough (true = false) by discriminate. apply Hfalla.
    rewrite Hs1. cbn. apply elem_of_app. right. apply elem_of_cons. now left.
Qed.

Lemma cancelar_reserva_correcta_testigo :
  bien_formado mundo_segunda /\
  crear_reserva 1%nat mundo_segunda = Some (true, mundo_segunda_hecha) /\
  esta_disponible mundo_segunda_hecha 0%nat = false /\
  exists s2,
    cancelar_reserva "CF1" 101 mundo_segunda_hecha = Some (true, s2) /\
    primera (res_coincide mundo_segunda_hecha "CF1" 101)
            (reservas mundo_segunda_hecha) 0%nat /\
    esta_disponible s2 0%nat = true /\
    mem_res s2 !! 1%nat = Some (mkReserva 0%nat 0%nat feb01 feb03 "Activa").
Proof.
  assert (Hbf : bien_formado mundo_segunda) by resolver_bf.
  split; [exact Hbf|]. split; [reflexivity|].
  destruct cancelar_reserva_correcta as [_ Hciclo].
  destruct (Hciclo mundo_segunda mundo_segunda_hecha 1%nat
              (mkReserva 0%nat 0%nat feb01 feb03 "Activa")
              (mkCliente "Ana" "Lopez" "CF1" [0%nat])
              (mkHabitacion Estandar 101 "Estándar" 100%float true)
              Hbf eq_refl eq_refl eq_refl eq_refl)
    as (Hocupada & s2 & r0 & R0 & Hcan & Hprim & HR0 & _ & Hlibre & _ & Hotra).
  split; [exact Hocupada|].
  assert (Hp0 : primera (res_coincide mundo_segunda_hecha "CF1" 101)
                        (reservas mundo_segunda_hecha) 0%nat).
  { exists [], [1%nat]. repeat split. apply Forall_nil_2. }
  assert (r0 = 0%nat) as -> by (eapply primera_unica; eauto).
  injection HR0 as <-.
  exists s2. split; [exact Hcan|]. split; [exact Hp0|].
  split; [now apply Hlibre | now apply Hotra].
Defined.

(** ** C7: the first match wins *)

Lemma primera_find (P : loc -> bool) (l : list loc) (x : loc) :
  primera P l x -> find P l = Some x.
Proof. apply find_primera. Qed.

(** C7.  Each of the six scanning methods acts on the first registry entry
    that matches the key: the two lookups return it and leave the state as
    it was; the four updates overwrite the field they are for in that
    object (the price; the two names; the two dates; the status, and for a
    cancellation also the availability of the room bound to it), keep its
    other fields, and leave every other object and the three registries as
    they were.  Once an entry matches, the
    entries after it are not consulted: replacing them by any others, even
    by references that denote no object, does not change the outcome. *)
Theorem primera_coincidencia_gana (s : Mundo) :
  bien_formado s ->
  (forall n h,
     primera (hab_con_numero s n) (habitaciones s) h ->
     obtener_habitacion n s = Some (Some h, s)) /\
  (forall d c,
     primera (cli_con_dpi s d) (clientes s) c ->
     obtener_cliente d s = Some (Some c, s)) /\
  (forall n p h,
     primera (hab_con_numero s n) (habitaciones s) h ->
     exists H s',
       mem_hab s !! h = Some H /\
       modificar_habitacion n p s = Some (true, s') /\
       s' = poner_habitacion h (con_precio p H) s /\
       mem_hab s' !! h =
         Some (mkHabitacion (clase H) (numero H) (tipo H) p (disponible H)) /\
       (forall y, y <> h -> mem_hab s' !! y = mem_hab s !! y) /\
       mem_cli s' = mem_cli s /\ mem_res s' = mem_res s /\
       habitaciones s' = habitaciones s /\ clientes s' = clientes s /\
       reservas s' = reservas s) /\
  (forall d nn na c,
     primera (cli_con_dpi s d) (clientes s) c ->
     exists C s',
       mem_cli s !! c = Some C /\
       actualizar_cliente d nn na s = Some (true, s') /\
       s' = poner_cliente c (con_nombres nn na C) s /\
       mem_cli s' !! c = Some (mkCliente nn na (dpi C) (cli_reservas C)) /\
       (forall y, y <> c -> mem_cli s' !! y = mem_cli s !! y) /\
       mem_hab s' = mem_hab s /\ mem_res s' = mem_res s /\
       habitaciones s' = habitaciones s /\ clientes s' = clientes s /\
       reservas s' = reservas s) /\
  (forall d n fe fs r,
     primera (res_coincide s d n) (reservas s) r ->
     exists R s',
       mem_res s !! r = Some R /\
       modificar_reserva d n fe fs s = Some (true, s') /\
       s' = poner_reserva r (con_fechas fe fs R) s /\
       mem_res s' !! r =
         Some (mkReserva (cliente R) (habitacion R) fe fs (estado R)) /\
       (forall y, y <> r -> mem_res s' !! y = mem_res s !! y) /\
       mem_hab s' = mem_hab s /\ mem_cli s' = mem_cli s /\
       habitaciones s' = habitaciones s /\ clientes s' = clientes s /\
       reservas s' = reservas s) /\
  (forall d n r,
     primera (res_coincide s d n) (reservas s) r ->
     exists R H s',
       mem_res s !! r = Some R /\ mem_hab s !! habitacion R = Some H /\
       cancelar_reserva d n s = Some (true, s') /\
       s' = poner_habitacion (habitacion R) (con_disponible true H)
              (poner_reserva r (con_estado "Cancelada" R) s) /\
       mem_res s' !! r =
         Some (mkReserva (cliente R) (habitacion R) (fecha_entrada R)
                         (fecha_salida R) "Cancelada") /\
       mem_hab s' !! habitacion R =
         Some (mkHabitacion (clase H) (numero H) (tipo H)
                            (precio_por_noche H) true) /\
       (forall y, y <> r -> mem_res s' !! y = mem_res s !! y) /\
       (forall y, y <> habitacion R -> mem_hab s' !! y = mem_hab s !! y) /\
       mem_cli s' = mem_cli s /\
       habitaciones s' = habitaciones s /\ clientes s' = clientes s /\
       reservas s' = reservas s) /\
  (forall pre x post post' n p,
     hab_con_numero s n x = true ->
     obtener_habitacion_desde (pre ++ x :: post) n s =
       obtener_habitacion_desde (pre ++ x :: post') n s /\
     modificar_habitacion_desde (pre ++ x :: post) n p s =
       modificar_habitacion_desde (pre ++ x :: post') n p s) /\
  (forall pre x post post' d nn na,
     cli_con_dpi s d x = true ->
     obtener_cliente_desde (pre ++ x :: post) d s =
       obtener_cliente_desde (pre ++ x :: post') d s /\
     actualizar_cliente_desde (pre ++ x :: post) d nn na s =
       actualizar_cliente_desde (pre ++ x :: post') d nn na s) /\
  (forall pre x post post' d n fe fs,
     res_coincide s d n x = true ->
     modificar_reserva_desde (pre ++ x :: post) d n fe fs s =
       modificar_reserva_desde (pre ++ x :: post') d n fe fs s /\
     cancelar_reserva_desde (pre ++ x :: post) d n s =
       cancelar_reserva_desde (pre ++ x :: post') d n s).
Proof.
  intros Hbf. repeat apply conj.
  - intros n h Hp. rewrite (obtener_habitacion_find s n Hbf).
    now rewrite (primera_find _ _ _ Hp).
  - intros d c Hp. rewrite (obtener_cliente_find s d Hbf).
    now rewrite (primera_find _ _ _ Hp).
  - intros n p h Hp. rewrite (modificar_habitacion_find s n p Hbf).
    rewrite (primera_find _ _ _ Hp).
    destruct Hp as (_ & _ & _ & _ & (H & HH & _)%hab_con_numero_true).
    exists H, (poner_habitacion h (con_precio p H) s).
    split; [assumption|]. split; [desplegar; now rewrite HH|].
    split; [reflexivity|]. cbn. repeat split.
    + apply list_lookup_insert_eq. eapply lookup_lt_Some; eauto.
    + intros y Hy. now apply list_lookup_insert_ne.
  - intros d nn na c Hp. rewrite (actualizar_cliente_find s d nn na Hbf).
    rewrite (primera_find _ _ _ Hp).
    destruct Hp as (_ & _ & _ & _ & (C & HC & _)%cli_con_dpi_true).
    exists C, (poner_cliente c (con_nombres nn na C) s).
    split; [assumption|]. split; [desplegar; now rewrite HC|].
    split; [reflexivity|]. cbn. repeat split.
    + apply list_lookup_insert_eq. eapply lookup_lt_Some; eauto.
    + intros y Hy. now apply list_lookup_insert_ne.
  - intros d n fe fs r Hp. rewrite (modificar_reserva_find s d n fe fs Hbf).
    rewrite (primera_find _ _ _ Hp).
    destruct Hp as (_ & _ & _ & _ & (R & _ & _ & HR & _)%res_coincide_true).
    exists R, (poner_reserva r (con_fechas fe fs R) s).
    split; [assumption|]. split; [desplegar; now rewrite HR|].
    split; [reflexivity|]. cbn. repeat split.
    + apply list_lookup_insert_eq. eapply lookup_lt_Some; eauto.
    + intros y Hy. now apply list_lookup_insert_ne.
  - intros d n r Hp. pose proof (cancelar_reserva_efecto s d n Hbf) as He.
    rewrite (primera_find _ _ _ Hp) in He. destruct He as (R & H & HR & HH & He).
    exists R, H, (poner_habitacion (habitacion R) (con_disponible true H)
                    (poner_reserva r (con_estado "Cancelada" R) s)).
    do 4 (split; [first [assumption | reflexivity]|]). cbn. repeat split.
    + apply list_lookup_insert_eq. eapply lookup_lt_Some; eauto.
    + apply list_lookup_insert_eq. eapply lookup_lt_Some; eauto.
    + intros y Hy. now apply list_lookup_insert_ne.
    + intros y Hy. now apply list_lookup_insert_ne.
  - intros pre x post post' n p Hx. split.
    + rewrite !obtener_habitacion_desde_recorrer.
      apply recorrer_resto; [apply prueba_numero_lee | now apply prueba_numero_cierta].
    + rewrite !modificar_habitacion_desde_recorrer.
      apply recorrer_resto; [apply prueba_numero_lee | now apply prueba_numero_cierta].
  - intros pre x post post' d nn na Hx. split.
    + rewrite !obtener_cliente_desde_recorrer.
      apply recorrer_resto; [apply prueba_dpi_lee | now apply prueba_dpi_cierta].
    + rewrite !actualizar_cliente_desde_recorrer.
      apply recorrer_resto; [apply prueba_dpi_lee | now apply prueba_dpi_cierta].
  - intros pre x post post' d n fe fs Hx. split.
    + rewrite !modificar_reserva_desde_recorrer.
      apply recorrer_resto; [intros y; apply coincide_lee | now apply coincide_cierta].
    + rewrite !cancelar_reserva_desde_recorrer.
      apply recorrer_resto; [intros y; apply coincide_lee | now apply coincide_cierta].
Qed.

Lemma primera_coincidencia_gana_testigo :
  bien_formado mundo_gemelas /\
  obtener_habitacion 101 mundo_gemelas = Some (Some 0%nat, mundo_gemelas) /\
  (exists s',
     modificar_habitacion 101 80%float mundo_gemelas = Some (true, s') /\
     mem_hab s' !! 0%nat =
       Some (mkHabitacion Estandar 101 "Estándar" 80%float false) /\
     mem_hab s' !! 1%nat = mem_hab mundo_gemelas !! 1%nat) /\
  (exists s',
     cancelar_reserva "CF1" 101 mundo_gemelas = Some (true, s') /\
     mem_res s' !! 0%nat = Some (mkReserva 0%nat 0%nat ene10 ene12 "Cancelada") /\
     mem_hab s' !! 0%nat =
       Some (mkHabitacion Estandar 101 "Estándar" 100%float true) /\
     mem_res s' !! 1%nat = mem_res mundo_gemelas !! 1%nat /\
     mem_hab s' !! 1%nat = mem_hab mundo_gemelas !! 1%nat).
Proof.
  assert (Hbf : bien_formado mundo_gemelas) by resolver_bf.
  assert (Hp : primera (hab_con_numero mundo_gemelas 101)
                       (habitaciones mundo_gemelas) 0%nat).
  { exists [], [1%nat]. repeat split. apply Forall_nil_2. }
  assert (Hq : primera (res_coincide mundo_gemelas "CF1" 101)
                       (reservas mundo_gemelas) 0%nat).
  { exists [], []. repeat split. apply Forall_nil_2. }
  destruct (primera_coincidencia_gana mundo_gemelas Hbf)
    as (Hobtener & _ & Hmodificar & _ & _ & Hcancelar & _).
  split; [exact Hbf|]. split; [exact (Hobtener 101 0%nat Hp)|]. split.
  - destruct (Hmodificar 101 80%float 0%nat Hp)
      as (H & s' & HH & Hmod & _ & Hnuevo & Hotros & _).
    injection HH as <-. exists s'. split; [exact Hmod|].
    split; [exact Hnuevo | now apply Hotros].
  - destruct (Hcancelar "CF1" 101 0%nat Hq)
      as (R & H & s' & HR & HH & Hcan & _ & Hres & Hhab & Hor & Hoh & _).
    injection HR as <-. injection HH as <-. exists s'. split; [exact Hcan|].
    split; [exact Hres|]. split; [exact Hhab|].
    split; [now apply Hor | now apply Hoh].
Defined.

(** ** C10: what removing a room leaves alone *)






(** ** Steps that are neither bookings nor cancellations *)

Lemma mismos_vinculos_eq s s' : mem_res s' = mem_res s -> mismos_vinculos s s'.
Proof. intros He r R HR. exists R. now rewrite He. Qed.

Lemma mismos_estados_eq s s' : mem_res s' = mem_res s -> mismos_estados s s'.
Proof. intros He r R HR. exists R. now rewrite He. Qed.

Lemma misma_disponibilidad_eq s s' : mem_hab s' = mem_hab s -> misma_disponibilidad s s'.
Proof. intros He h H HH. exists H. now rewrite He. Qed.

Lemma mismas_listas_cli_eq s s' : mem_cli s' = mem_cli s -> mismas_listas_cli s s'.
Proof. intros He c C HC. exists C. now rewrite He. Qed.

Create HintDb marco.
#[local] Hint Resolve mismos_vinculos_eq mismos_estados_eq
  misma_disponibilidad_eq mismas_listas_cli_eq : marco.

Lemma misma_disponibilidad_poner s h H H' :
  mem_hab s !! h = Some H -> disponible H' = disponible H ->
  misma_disponibilidad s (poner_habitacion h H' s).
Proof.
  intros HH Hd y Y HY. cbn. destruct (decide (h = y)) as [<-|Hne].
  - exists H'. rewrite list_lookup_insert_eq by (eapply lookup_lt_Some; eauto).
    split; [reflexivity | congruence].
  - exists Y. now rewrite list_lookup_insert_ne.
Qed.

Lemma mismas_listas_cli_poner s c C C' :
  mem_cli s !! c = Some C -> cli_reservas C' = cli_reservas C ->
  mismas_listas_cli s (poner_cliente c C' s).
Proof.
  intros HC Hl y Y HY. cbn. destruct (decide (c = y)) as [<-|Hne].
  - exists C'. rewrite list_lookup_insert_eq by (eapply lookup_lt_Some; eauto).
    split; [reflexivity | congruence].
  - exists Y. now rewrite list_lookup_insert_ne.
Qed.

Lemma mismos_vinculos_poner s r R R' :
  mem_res s !! r = Some R ->
  cliente R' = cliente R -> habitacion R' = habitacion R ->
  mismos_vinculos s (poner_reserva r R' s).
Proof.
  intros HR Hc Hh y Y HY. cbn. destruct (decide (r = y)) as [<-|Hne].
  - exists R'. rewrite list_lookup_insert_eq by (eapply lookup_lt_Some; eauto).
    split; [reflexivity | split; congruence].
  - exists Y. now rewrite list_lookup_insert_ne.
Qed.

Lemma mismos_estados_poner s r R R' :
  mem_res s !! r = Some R -> estado R' = estado R ->
  mismos_estados s (poner_reserva r R' s).
Proof.
  intros HR He y Y HY. cbn. destruct (decide (r = y)) as [<-|Hne].
  - exists R'. rewrite list_lookup_insert_eq by (eapply lookup_lt_Some; eauto).
    split; [reflexivity | congruence].
  - exists Y. now rewrite list_lookup_insert_ne.
Qed.

Lemma neutral_refl s : neutral s s.
Proof.
  repeat split; auto with marco.
Qed.

Lemma neutral_habitacion s h H H' :
  mem_hab s !! h = Some H -> disponible H' = disponible H ->
  neutral s (poner_habitacion h H' s).
Proof.
  intros HH Hd. repeat split;
    auto with marco.
  now apply misma_disponibilidad_poner with (H := H).
Qed.

Lemma ejecutar_neutral o s s' :
  bien_formado s -> ejecutar o s = Some s' ->
  match o with
  | OCrearReserva _ | OCancelarReserva _ _ => True
  | _ => neutral s s'
  end.
Proof.
  intros Hbf. destruct o as [k n p| | | | | | | | | | | | | |]; cbn [ejecutar];
    try (intros _; exact I).
  - unfold HabitacionEstandar, HabitacionSuite, HabitacionDeluxe, efecto.
    destruct k; intros [= <-]; cbn;
      (repeat split;
         auto with marco);
      intros h H HH; exists H; cbn; (split; [now apply lookup_app_l_Some | reflexivity]).
  - intros [= <-]. cbn.
    repeat split;
      auto with marco.
    intros c C HC. exists C. cbn. split; [now apply lookup_app_l_Some | reflexivity].
  - destruct (hay_cliente c s && hay_habitacion h s); [|discriminate].
    intros [= <-]. cbn.
    repeat split; auto with marco.
    + intros r R HR. exists R. cbn. split; [now apply lookup_app_l_Some | auto].
    + intros r R HR. exists R. cbn. split; [now apply lookup_app_l_Some | auto].
  - unfold efecto, aplicar_descuento. desplegar.
    destruct (mem_hab s !! h) as [H|] eqn:HH; [|discriminate].
    intros [= <-]. now apply neutral_habitacion with (H := H).
  - destruct (hay_habitacion h s); [|discriminate]. intros [= <-].
    repeat split; auto with marco.
  - unfold efecto. rewrite (modificar_habitacion_find s n p Hbf).
    destruct (find _ _) as [h|]; [|intros [= <-]; apply neutral_refl].
    desplegar. destruct (mem_hab s !! h) as [H|] eqn:HH; [|discriminate].
    intros [= <-]. now apply neutral_habitacion with (H := H).
  - unfold efecto, eliminar_habitacion, leer_habitaciones, asignar_habitaciones, bind.
    rewrite (sin_numero_filter s n _ (bf_habitaciones _ Hbf)). intros [= <-].
    repeat split; auto with marco.
  - destruct (hay_cliente c s); [|discriminate]. intros [= <-].
    repeat split; auto with marco.
  - unfold efecto. rewrite (actualizar_cliente_find s d nn na Hbf).
    destruct (find _ _) as [c|]; [|intros [= <-]; apply neutral_refl].
    desplegar. destruct (mem_cli s !! c) as [C|] eqn:HC; [|discriminate].
    intros [= <-].
    repeat split; auto with marco.
    now apply mismas_listas_cli_poner with (C := C).
  - unfold efecto. rewrite (modificar_reserva_find s d n fe fs Hbf).
    destruct (find _ _) as [r|]; [|intros [= <-]; apply neutral_refl].
    desplegar. destruct (mem_res s !! r) as [R|] eqn:HR; [|discriminate].
    intros [= <-].
    repeat split; auto with marco.
    + now apply mismos_vinculos_poner with (R := R).
    + now apply mismos_estados_poner with (R := R).
  - unfold efecto. rewrite (consultar_disponibilidad_filter s fi ff Hbf).
    intros [= <-]. apply neutral_refl.
  - unfold efecto. rewrite (obtener_cliente_find s d Hbf).
    intros [= <-]. apply neutral_refl.
  - unfold efecto. rewrite (obtener_habitacion_find s n Hbf).
    intros [= <-]. apply neutral_refl.
Qed.

(** ** C9: registered reservations are in their client's list *)

Lemma listas_intactas_conserva s s' :
  listas_intactas s s' -> reservas_en_cliente s -> reservas_en_cliente s'.
Proof.
  intros (Hres & Hvin & Hcli) Hinv r Hr. rewrite Hres in Hr.
  destruct (Hinv r Hr) as (R & C & HR & HC & Hin).
  destruct (Hvin r R HR) as (R' & HR' & Hc & _).
  destruct (Hcli _ C HC) as (C' & HC' & Hl).
  exists R', C'. rewrite Hc, Hl. auto.
Qed.

Lemma cancelar_reserva_listas_intactas s d n ok s' :
  bien_formado s -> cancelar_reserva d n s = Some (ok, s') -> listas_intactas s s'.
Proof.
  intros Hbf Hcan. pose proof (cancelar_reserva_efecto s d n Hbf) as He.
  destruct (find _ _) as [r|].
  - destruct He as (R & H & HR & HH & He). rewrite He in Hcan.
    injection Hcan as _ <-. split; [reflexivity|]. split.
    + intros y Y HY. cbn.
      destruct (mismos_vinculos_poner s r R (con_estado "Cancelada" R) HR
                  eq_refl eq_refl y Y HY) as (Y' & HY' & Hv).
      exists Y'. split; [exact HY' | exact Hv].
    + now apply mismas_listas_cli_eq.
  - rewrite He in Hcan. injection Hcan as _ <-. apply neutral_refl.
Qed.

Lemma crear_reserva_listas s r ok s' :
  bien_formado s -> crear_reserva r s = Some (ok, s') ->
  s' = s \/
  (reservas s' = reservas s ++ [r] /\ mem_res s' = mem_res s /\
   exists R C, mem_res s !! r = Some R /\ mem_cli s !! cliente R = Some C /\
               mem_cli s' =
                 <[cliente R := con_reservas (cli_reservas C ++ [r]) C]> (mem_cli s)).
Proof.
  intros Hbf Hcr.
  destruct (mem_res s !! r) as [R|] eqn:HR;
    [|unfold crear_reserva in Hcr; revert Hcr; desplegar; now rewrite HR].
  destruct (bien_formado_reserva s r R Hbf HR) as [Hc Hh].
  destruct (lookup_lt_is_Some_2 _ _ Hc) as [C HC].
  destruct (lookup_lt_is_Some_2 _ _ Hh) as [H HH].
  rewrite (crear_reserva_eq s r R H C HR HH HC) in Hcr.
  destruct (disponible H); injection Hcr as <- <-; [right | now left].
  split; [reflexivity|]. split; [reflexivity|]. exists R, C. auto.
Qed.

Lemma crear_reserva_conserva s r ok s' :
  bien_formado s -> crear_reserva r s = Some (ok, s') ->
  reservas_en_cliente s -> reservas_en_cliente s'.
Proof.
  intros Hbf Hcr Hinv.
  destruct (crear_reserva_listas s r ok s' Hbf Hcr)
    as [-> | (Hres & Hmr & R & C & HR & HC & Hmc)]; [assumption|].
  assert (Hlc : (cliente R < length (mem_cli s))%nat)
    by (eapply lookup_lt_Some; eauto).
  intros r' Hr'. rewrite Hres in Hr'. rewrite Hmr, Hmc.
  apply elem_of_app in Hr' as [Hold | Hnew%list_elem_of_singleton].
  - destruct (Hinv r' Hold) as (R' & C' & HR' & HC' & Hin).
    destruct (decide (cliente R = cliente R')) as [He|Hne].
    + exists R', (con_reservas (cli_reservas C ++ [r]) C).
      split; [assumption|]. rewrite <- He.
      split; [now apply list_lookup_insert_eq|].
      cbn. apply elem_of_app. left. congruence.
    + exists R', C'. split; [assumption|].
      split; [now rewrite list_lookup_insert_ne | assumption].
  - subst r'. exists R, (con_reservas (cli_reservas C ++ [r]) C).
    split; [assumption|]. split; [now apply list_lookup_insert_eq|].
    cbn. apply elem_of_app. right. now apply list_elem_of_singleton.
Qed.

Lemma ejecutar_listas o s s' :
  bien_formado s -> ejecutar o s = Some s' ->
  match o with
  | OCrearReserva r =>
      s' = s \/
      (reservas s' = reservas s ++ [r] /\ mem_res s' = mem_res s /\
       exists R C, mem_res s !! r = Some R /\ mem_cli s !! cliente R = Some C /\
                   mem_cli s' =
                     <[cliente R := con_reservas (cli_reservas C ++ [r]) C]>
                       (mem_cli s))
  | _ => listas_intactas s s'
  end.
Proof.
  intros Hbf Hej. pose proof (ejecutar_neutral o s s' Hbf Hej) as Hn.
  destruct o; try exact (proj1 Hn).
  - cbn in Hej. unfold efecto in Hej.
    destruct (crear_reserva r s) as [[ok s1]|] eqn:Hcr; [|discriminate].
    injection Hej as <-. eapply crear_reserva_listas; eauto.
  - cbn in Hej. unfold efecto in Hej.
    destruct (cancelar_reserva d n s) as [[ok s1]|] eqn:Hcan; [|discriminate].
    injection Hej as <-. eapply cancelar_reserva_listas_intactas; eauto.
Qed.

Lemma ejecutar_conserva_reservas_en_cliente o s s' :
  bien_formado s -> ejecutar o s = Some s' ->
  reservas_en_cliente s -> reservas_en_cliente s'.
Proof.
  intros Hbf Hej Hinv. pose proof (ejecutar_listas o s s' Hbf Hej) as Hl.
  destruct o; try (eapply listas_intactas_conserva; eauto; fail).
  cbn in Hej. unfold efecto in Hej.
  destruct (crear_reserva r s) as [[ok s1]|] eqn:Hcr; [|discriminate].
  injection Hej as <-. eapply crear_reserva_conserva; eauto.
Qed.

Lemma correr_conserva_reservas_en_cliente ops s s' :
  bien_formado s -> reservas_en_cliente s ->
  correr ops s = Some s' -> reservas_en_cliente s'.
Proof.
  revert s. induction ops as [|o ops IH]; intros s Hbf Hinv; cbn.
  - now intros [= <-].
  - destruct (ejecutar o s) as [s1|] eqn:He; [|discriminate].
    apply IH.
    + eapply ejecutar_bien_formado; eauto.
    + eapply ejecutar_conserva_reservas_en_cliente; eauto.
Qed.

(** C9.  In every state reached from the empty manager, each registered
    reservation is in the list of its own client.  A step other than
    [crear_reserva] leaves the registry and every client's list as they
    were; [crear_reserva] either changes nothing or appends the reservation
    to both. *)
Theorem reservas_en_cliente_invariante :
  (forall s, alcanzable s -> reservas_en_cliente s) /\
  (forall o s s',
     alcanzable s -> ejecutar o s = Some s' ->
     match o with
     | OCrearReserva r =>
         s' = s \/
         (reservas s' = reservas s ++ [r] /\ mem_res s' = mem_res s /\
          exists R C, mem_res s !! r = Some R /\ mem_cli s !! cliente R = Some C /\
                      mem_cli s' =
                        <[cliente R := con_reservas (cli_reservas C ++ [r]) C]>
                          (mem_cli s))
     | _ => listas_intactas s s'
     end).
Proof.
  split.
  - intros s [ops Hr].
    eapply correr_conserva_reservas_en_cliente;
      [apply inicial_bien_formado | | exact Hr].
    intros r Hin. cbn in Hin. now apply elem_of_nil in Hin.
  - intros o s s' Hs. apply ejecutar_listas. now apply alcanzable_bien_formado.
Qed.

Lemma reservas_en_cliente_invariante_testigo :
  alcanzable mundo_doble /\ reservas_en_cliente mundo_doble.
Proof.
  assert (Ha : alcanzable mundo_doble) by (exists traza_doble; reflexivity).
  split; [exact Ha|].
  destruct reservas_en_cliente_invariante as [Hinv _]. exact (Hinv mundo_doble Ha).
Defined.

(** ** C1: Activa reservations per room *)

(** The claim as written fails: book, cancel, book again, cancel again, book
    a third time.  The second cancellation finds the first reservation, which
    is already Cancelada, and frees the room while the second reservation is
    still Activa; the third booking then succeeds on the same room. *)
Lemma dos_activas_en_una_habitacion :
  correr traza_doble inicial = Some mundo_doble /\
  1%nat ∈ reservas mundo_doble /\ 2%nat ∈ reservas mundo_doble /\
  activa_en mundo_doble 0%nat 1%nat /\ activa_en mundo_doble 0%nat 2%nat /\
  ~ a_lo_sumo_una_activa mundo_doble.
Proof.
  assert (H1 : 1%nat ∈ reservas mundo_doble)
    by (cbn; apply elem_of_cons; right; apply elem_of_cons; now left).
  assert (H2 : 2%nat ∈ reservas mundo_doble)
    by (cbn; do 2 (apply elem_of_cons; right); apply elem_of_cons; now left).
  assert (A1 : activa_en mundo_doble 0%nat 1%nat)
    by (eexists; split; [reflexivity | split; reflexivity]).
  assert (A2 : activa_en mundo_doble 0%nat 2%nat)
    by (eexists; split; [reflexivity | split; reflexivity]).
  repeat split; try assumption.
  intros Hinv. specialize (Hinv 0%nat 1%nat 2%nat H1 H2 A1 A2). discriminate.
Qed.

Lemma registrada_existe s r :
  bien_formado s -> r ∈ reservas s -> exists R, mem_res s !! r = Some R.
Proof.
  intros Hbf Hin. pose proof (bf_reservas _ Hbf) as Hv.
  rewrite Forall_forall in Hv. exact (lookup_lt_is_Some_2 _ _ (Hv r Hin)).
Qed.

Lemma activa_en_neutral s s' h r :
  bien_formado s -> neutral s s' -> r ∈ reservas s ->
  activa_en s' h r -> activa_en s h r.
Proof.
  intros Hbf ((_ & Hvin & _) & Hest & _) Hin (R' & HR' & Hh & He).
  destruct (registrada_existe s r Hbf Hin) as [R HR].
  destruct (Hvin r R HR) as (R1 & HR1 & _ & Hh1).
  destruct (Hest r R HR) as (R2 & HR2 & He2).
  exists R. split; [assumption|]. split; congruence.
Qed.

Lemma esta_disponible_neutral s s' h :
  neutral s s' -> (h < length (mem_hab s))%nat ->
  esta_disponible s' h = esta_disponible s h.
Proof.
  intros (_ & _ & Hdis) Hh. destruct (lookup_lt_is_Some_2 _ _ Hh) as [H HH].
  destruct (Hdis h H HH) as (H' & HH' & Hd).
  unfold esta_disponible. now rewrite HH, HH'.
Qed.

Lemma activa_en_valida s h r :
  bien_formado s -> activa_en s h r -> (h < length (mem_hab s))%nat.
Proof.
  intros Hbf (R & HR & <- & _). now destruct (bien_formado_reserva s r R Hbf HR).
Qed.

Lemma neutral_conserva s s' :
  bien_formado s -> neutral s s' ->
  activa_ocupa s /\ a_lo_sumo_una_activa s ->
  activa_ocupa s' /\ a_lo_sumo_una_activa s'.
Proof.
  intros Hbf Hn [Hoc Huna]. pose proof Hn as ((Hres & _) & _). split.
  - intros h r Hin Hact. rewrite Hres in Hin.
    pose proof (activa_en_neutral s s' h r Hbf Hn Hin Hact) as Hact0.
    rewrite (esta_disponible_neutral s s' h Hn (activa_en_valida s h r Hbf Hact0)).
    now apply (Hoc h r).
  - intros h r1 r2 H1 H2 A1 A2. rewrite Hres in H1, H2.
    apply (Huna h); try assumption; eapply activa_en_neutral; eauto.
Qed.

Lemma crear_reserva_conserva_activas s r ok s' :
  bien_formado s -> crear_reserva r s = Some (ok, s') ->
  activa_ocupa s /\ a_lo_sumo_una_activa s ->
  activa_ocupa s' /\ a_lo_sumo_una_activa s'.
Proof.
  intros Hbf Hcr [Hoc Huna].
  destruct (mem_res s !! r) as [R|] eqn:HR;
    [|unfold crear_reserva in Hcr; revert Hcr; desplegar; now rewrite HR].
  destruct (bien_formado_reserva s r R Hbf HR) as [Hc Hh].
  destruct (lookup_lt_is_Some_2 _ _ Hc) as [C HC].
  destruct (lookup_lt_is_Some_2 _ _ Hh) as [H HH].
  rewrite (crear_reserva_eq s r R H C HR HH HC) in Hcr.
  destruct (disponible H) eqn:Hd; injection Hcr as <- <-; [|now split].
  assert (Hlibre : esta_disponible s (habitacion R) = true)
    by (unfold esta_disponible; now rewrite HH).
  assert (Hnueva : forall h, activa_en s h r -> h = habitacion R).
  { intros h (R0 & HR0 & <- & _). congruence. }
  split.
  - intros h r' Hin Hact. cbn in Hin. change (activa_en s h r') in Hact.
    unfold esta_disponible. cbn.
    destruct (decide (habitacion R = h)) as [<-|Hne].
    + now rewrite list_lookup_insert_eq.
    + rewrite list_lookup_insert_ne by assumption.
      apply elem_of_app in Hin as [Hold | Hnew%list_elem_of_singleton].
      * apply (Hoc h r' Hold Hact).
      * subst r'. now rewrite (Hnueva h Hact) in Hne.
  - intros h r1 r2 H1 H2 A1 A2. cbn in H1, H2.
    change (activa_en s h r1) in A1. change (activa_en s h r2) in A2.
    apply elem_of_app in H1 as [O1 | N1%list_elem_of_singleton];
      apply elem_of_app in H2 as [O2 | N2%list_elem_of_singleton].
    + now apply (Huna h).
    + subst r2. rewrite (Hnueva h A2) in A1.
      pose proof (Hoc _ r1 O1 A1). congruence.
    + subst r1. rewrite (Hnueva h A1) in A2.
      pose proof (Hoc _ r2 O2 A2). congruence.
    + congruence.
Qed.

Lemma activa_enb_true s h r : activa_enb s h r = true <-> activa_en s h r.
Proof.
  unfold activa_enb, activa_en. split.
  - destruct (mem_res s !! r) as [R|]; [|discriminate].
    intros [Hh He]%andb_true_iff. exists R.
    apply Nat.eqb_eq in Hh. apply String.eqb_eq in He. auto.
  - intros (R & -> & <- & ->). now rewrite Nat.eqb_refl.
Qed.

Lemma cancelar_reserva_conserva_activas s d n ok s' :
  bien_formado s -> cancela_sin_otra_activa s d n = true ->
  cancelar_reserva d n s = Some (ok, s') ->
  activa_ocupa s /\ a_lo_sumo_una_activa s ->
  activa_ocupa s' /\ a_lo_sumo_una_activa s'.
Proof.
  intros Hbf Hg Hcan [Hoc Huna].
  pose proof (cancelar_reserva_efecto s d n Hbf) as He.
  unfold cancela_sin_otra_activa in Hg.
  destruct (find (res_coincide s d n) (reservas s)) as [r0|] eqn:Hf;
    [|rewrite He in Hcan; injection Hcan as <- <-; now split].
  destruct He as (R0 & H0 & HR0 & HH0 & He). rewrite He in Hcan.
  injection Hcan as <- <-. rewrite HR0 in Hg.
  assert (Hsola : forall r, r ∈ reservas s ->
            activa_en s (habitacion R0) r -> r = r0).
  { intros r Hin Hact. rewrite forallb_forall in Hg.
    specialize (Hg r (proj1 (list_elem_of_In _ _) Hin)).
    apply activa_enb_true in Hact. rewrite Hact in Hg. cbn in Hg.
    now apply Nat.eqb_eq in Hg. }
  assert (Hantes : forall h r, r ∈ reservas s ->
            activa_en (poner_habitacion (habitacion R0) (con_disponible true H0)
                         (poner_reserva r0 (con_estado "Cancelada" R0) s)) h r ->
            r <> r0 /\ activa_en s h r).
  { intros h r Hin (R & HR & Hh & Hest). cbn in HR.
    destruct (decide (r0 = r)) as [<-|Hne].
    - rewrite list_lookup_insert_eq in HR by (eapply lookup_lt_Some; eauto).
      injection HR as <-. cbn in Hest. discriminate.
    - rewrite list_lookup_insert_ne in HR by assumption.
      split; [congruence | exists R; auto]. }
  split.
  - intros h r Hin Hact. cbn in Hin.
    destruct (Hantes h r Hin Hact) as [Hne A].
    unfold esta_disponible. cbn.
    destruct (decide (habitacion R0 = h)) as [<-|Hneh].
    + exfalso. apply Hne. now apply Hsola.
    + rewrite list_lookup_insert_ne by assumption. apply (Hoc h r Hin A).
  - intros h r1 r2 H1 H2 A1 A2. cbn in H1, H2.
    destruct (Hantes h r1 H1 A1) as [_ B1].
    destruct (Hantes h r2 H2 A2) as [_ B2].
    now apply (Huna h).
Qed.

Lemma ejecutar_conserva_activas o s s' :
  bien_formado s -> permitida o s = true -> ejecutar o s = Some s' ->
  activa_ocupa s /\ a_lo_sumo_una_activa s ->
  activa_ocupa s' /\ a_lo_sumo_una_activa s'.
Proof.
  intros Hbf Hperm Hej Hinv. pose proof (ejecutar_neutral o s s' Hbf Hej) as Hn.
  destruct o; try (eapply neutral_conserva; eauto; fail).
  - cbn in Hej. unfold efecto in Hej.
    destruct (crear_reserva r s) as [[ok s1]|] eqn:Hcr; [|discriminate].
    injection Hej as <-. eapply crear_reserva_conserva_activas; eauto.
  - cbn in Hej, Hperm. unfold efecto in Hej.
    destruct (cancelar_reserva d n s) as [[ok s1]|] eqn:Hcan; [|discriminate].
    injection Hej as <-. eapply cancelar_reserva_conserva_activas; eauto.
Qed.

Lemma correr_conserva_activas ops s s' :
  bien_formado s -> activa_ocupa s /\ a_lo_sumo_una_activa s ->
  correr ops s = Some s' -> disciplinada ops s = true ->
  activa_ocupa s' /\ a_lo_sumo_una_activa s'.
Proof.
  revert s. induction ops as [|o ops IH]; intros s Hbf Hinv; cbn.
  - now intros [= <-] _.
  - destruct (ejecutar o s) as [s1|] eqn:He; [|discriminate].
    intros Hr [Hperm Hdis]%andb_true_iff. apply (IH s1); try assumption.
    + eapply ejecutar_bien_formado; eauto.
    + eapply ejecutar_conserva_activas; eauto.
Qed.

(** C1 (amended).  In every state reached from the empty manager by a run
    in which each call of [cancelar_reserva] either finds no match or finds
    a first match whose room has no other registered reservation with
    status Activa (the first match itself may be Activa or already
    Cancelada), each room object has at most one registered reservation
    with status Activa, and a room with one is flagged unavailable. *)
Theorem una_activa_por_habitacion (ops : list Op) (s : Mundo) :
  correr ops inicial = Some s ->
  disciplinada ops inicial = true ->
  a_lo_sumo_una_activa s /\ activa_ocupa s.
Proof.
  intros Hr Hd.
  destruct (correr_conserva_activas ops inicial s inicial_bien_formado) as [Hoc Huna];
    try assumption; [|now split].
  split.
  - intros h r Hin. cbn in Hin. now apply elem_of_nil in Hin.
  - intros h r1 r2 Hin. cbn in Hin. now apply elem_of_nil in Hin.
Qed.

Lemma una_activa_por_habitacion_testigo :
  correr traza_doble_cancelacion inicial = Some mundo_doble_cancelacion /\
  disciplinada traza_doble_cancelacion inicial = true /\
  a_lo_sumo_una_activa mundo_doble_cancelacion /\
  activa_ocupa mundo_doble_cancelacion.
Proof.
  split; [reflexivity|]. split; [reflexivity|].
  apply (una_activa_por_habitacion traza_doble_cancelacion mundo_doble_cancelacion);
    reflexivity.
Defined.

(** ** Worked runs *)

(** The scenario of the specification: book room 101 for CF1, then cancel. *)
Example escenario_reserva_y_cancelacion :
  esta_disponible mundo_ana 0%nat = false /\
  cancelar_reserva "CF1" 101 mundo_ana = Some (true, mundo_cancelada) /\
  esta_disponible mundo_cancelada 0%nat = true /\
  mem_res mundo_cancelada !! 0%nat =
    Some (mkReserva 0%nat 0%nat ene10 ene12 "Cancelada").
Proof. repeat split. Qed.

(** The run with two Activa reservations on one room is not disciplined;
    runs with a second cancellation of a freed room, or with a relay of
    clients on one room, are. *)
Example traza_doble_no_disciplinada : disciplinada traza_doble inicial = false.
Proof. reflexivity. Qed.

Example traza_relevo_disciplinada : disciplinada traza_relevo inicial = true.
Proof. reflexivity. Qed.

Example descuento_estandar :
  efecto (aplicar_descuento 0%nat) mundo_alta =
    Some (poner_habitacion 0%nat
            (mkHabitacion Estandar 101 "Estándar" 95%float true) mundo_alta).
Proof. vm_compute. reflexivity. Qed.

(** * Further properties of the management layer *)

(** ** Registering and looking up *)

Lemma find_app_uno (P : loc -> bool) (l : list loc) (x : loc) :
  find P (l ++ [x]) =
    match find P l with
    | Some y => Some y
    | None => if P x then Some x else None
    end.
Proof.
  induction l as [|y l IH]; simpl; [reflexivity|].
  now destruct (P y).
Qed.

Lemma find_filter_implica (P Q : loc -> bool) (l : list loc) :
  (forall x, P x = true -> Q x = true) ->
  find P (List.filter Q l) = find P l.
Proof.
  intros HPQ. induction l as [|y l IH]; simpl; [reflexivity|].
  destruct (Q y) eqn:Qy; simpl.
  - now rewrite IH.
  - destruct (P y) eqn:Py; [|exact IH].
    apply HPQ in Py. congruence.
Qed.

Lemma find_filter_excluye (P Q : loc -> bool) (l : list loc) :
  (forall x, P x = true -> Q x = false) ->
  find P (List.filter Q l) = None.
Proof.
  intros HPQ. induction l as [|y l IH]; simpl; [reflexivity|].
  destruct (Q y) eqn:Qy; simpl; [|exact IH].
  destruct (P y) eqn:Py; [|exact IH].
  apply HPQ in Py. congruence.
Qed.

Lemma bien_formado_con_clientes s c :
  bien_formado s -> (c < length (mem_cli s))%nat ->
  bien_formado (mkMundo (mem_hab s) (mem_cli s) (mem_res s)
                        (habitaciones s) (clientes s ++ [c]) (reservas s)).
Proof.
  intros [B1 B2 B3 B4 B5] Hc. split; cbn; try assumption.
  apply Forall_app. split; [assumption|].
  apply Forall_cons_2; [assumption | apply Forall_nil_2].
Qed.

(** X1.  [agregar_habitacion] performs no uniqueness check: it always
    appends.  A lookup that found a room before still finds that same room,
    so a new room whose number is already registered is shadowed; the added
    room is what [obtener_habitacion] returns for its number exactly when
    no registered room had that number or the first registered room with
    that number was already that same object. *)
Theorem agregar_y_obtener_habitacion (s : Mundo) (h : loc) (H : Habitacion) :
  bien_formado s ->
  mem_hab s !! h = Some H ->
  exists s',
    agregar_habitacion h s = Some (tt, s') /\
    s' = con_habitaciones (habitaciones s ++ [h]) s /\
    (forall n h0,
       primera (hab_con_numero s n) (habitaciones s) h0 ->
       obtener_habitacion n s' = Some (Some h0, s')) /\
    (obtener_habitacion (numero H) s' = Some (Some h, s') <->
     (forall x, x ∈ habitaciones s -> hab_con_numero s (numero H) x = false) \/
     primera (hab_con_numero s (numero H)) (habitaciones s) h) /\
    (forall n, n <> numero H ->
       obtener_habitacion n s' =
         Some (find (hab_con_numero s n) (habitaciones s), s')).
Proof.
  intros Hbf HH. eexists. split; [reflexivity|]. split; [reflexivity|].
  assert (Hbf' : bien_formado (con_habitaciones (habitaciones s ++ [h]) s)).
  { apply bien_formado_con_habitaciones; [assumption|].
    apply Forall_app. split; [apply (bf_habitaciones _ Hbf)|].
    apply Forall_cons_2; [eapply lookup_lt_Some; eauto | apply Forall_nil_2]. }
  assert (Hob : forall n,
    obtener_habitacion n (con_habitaciones (habitaciones s ++ [h]) s) =
      Some (match find (hab_con_numero s n) (habitaciones s) with
            | Some y => Some y
            | None => if Z.eqb (numero H) n then Some h else None
            end, con_habitaciones (habitaciones s ++ [h]) s)).
  { intros n. rewrite (obtener_habitacion_find _ n Hbf').
    cbn [habitaciones con_habitaciones].
    change (hab_con_numero (con_habitaciones (habitaciones s ++ [h]) s) n)
      with (hab_con_numero s n).
    rewrite find_app_uno. unfold hab_con_numero at 2. now rewrite HH. }
  split; [|split].
  - intros n h0 Hp. rewrite Hob. now rewrite (primera_find _ _ _ Hp).
  - rewrite Hob, Z.eqb_refl.
    destruct (find (hab_con_numero s (numero H)) (habitaciones s)) as [y|] eqn:Hf.
    + split.
      * intros Heq. right. apply find_primera. congruence.
      * intros [Hno|Hp].
        -- apply find_ninguna_elem in Hno. congruence.
        -- apply primera_find in Hp. congruence.
    + split; [|reflexivity]. intros _. left. now apply find_ninguna_elem.
  - intros n Hn. rewrite Hob. destruct (find _ _); [reflexivity|].
    destruct (Z.eqb_spec (numero H) n); [congruence | reflexivity].
Qed.

Lemma agregar_y_obtener_habitacion_testigo :
  exists s',
    agregar_habitacion 1%nat mundo_gemelas = Some (tt, s') /\
    obtener_habitacion 101 s' = Some (Some 0%nat, s') /\
    obtener_habitacion 101 s' <> Some (Some 1%nat, s').
Proof.
  assert (Hbf : bien_formado mundo_gemelas) by resolver_bf.
  destruct (agregar_y_obtener_habitacion mundo_gemelas 1%nat
              (mkHabitacion Suite 101 "Suite" 250%float true) Hbf eq_refl)
    as (s' & Hag & _ & Hsombra & Hnueva & _).
  assert (Hp : primera (hab_con_numero mundo_gemelas 101)
                       (habitaciones mundo_gemelas) 0%nat).
  { exists [], [1%nat]. repeat split. apply Forall_nil_2. }
  exists s'. split; [exact Hag|]. split; [now apply Hsombra|].
  intros Heq. apply Hnueva in Heq as [Hno|Hp1].
  - specialize (Hno 0%nat ltac:(apply elem_of_cons; now left)). discriminate.
  - pose proof (primera_unica _ _ _ _ Hp Hp1). discriminate.
Defined.

(** X2.  [registrar_cliente] likewise always appends; a client whose DPI
    is already registered is shadowed by the earlier one, and the added
    client is returned by [obtener_cliente] for its DPI exactly when no
    registered client had it or the first registered client with that DPI
    was already that same object. *)
Theorem registrar_y_obtener_cliente (s : Mundo) (c : loc) (C : Cliente) :
  bien_formado s ->
  mem_cli s !! c = Some C ->
  exists s',
    registrar_cliente c s = Some (tt, s') /\
    clientes s' = clientes s ++ [c] /\
    mem_hab s' = mem_hab s /\ mem_cli s' = mem_cli s /\ mem_res s' = mem_res s /\
    habitaciones s' = habitaciones s /\ reservas s' = reservas s /\
    (forall d c0,
       primera (cli_con_dpi s d) (clientes s) c0 ->
       obtener_cliente d s' = Some (Some c0, s')) /\
    (obtener_cliente (dpi C) s' = Some (Some c, s') <->
     (forall x, x ∈ clientes s -> cli_con_dpi s (dpi C) x = false) \/
     primera (cli_con_dpi s (dpi C)) (clientes s) c) /\
    (forall d, d <> dpi C ->
       obtener_cliente d s' = Some (find (cli_con_dpi s d) (clientes s), s')).
Proof.
  intros Hbf HC. eexists. split; [reflexivity|].
  do 6 (split; [reflexivity|]).
  assert (Hlc : (c < length (mem_cli s))%nat) by (eapply lookup_lt_Some; eauto).
  pose proof (bien_formado_con_clientes s c Hbf Hlc) as Hbf'.
  set (s' := mkMundo (mem_hab s) (mem_cli s) (mem_res s)
                     (habitaciones s) (clientes s ++ [c]) (reservas s)) in *.
  assert (Hob : forall d,
    obtener_cliente d s' =
      Some (match find (cli_con_dpi s d) (clientes s) with
            | Some y => Some y
            | None => if String.eqb (dpi C) d then Some c else None
            end, s')).
  { intros d. rewrite (obtener_cliente_find _ d Hbf').
    change (clientes s') with (clientes s ++ [c]).
    change (cli_con_dpi s' d) with (cli_con_dpi s d).
    rewrite find_app_uno. unfold cli_con_dpi at 2. now rewrite HC. }
  split; [|split].
  - intros d c0 Hp. rewrite Hob. now rewrite (primera_find _ _ _ Hp).
  - rewrite Hob, String.eqb_refl.
    destruct (find (cli_con_dpi s (dpi C)) (clientes s)) as [y|] eqn:Hf.
    + split.
      * intros Heq. right. apply find_primera. congruence.
      * intros [Hno|Hp].
        -- apply find_ninguna_elem in Hno. congruence.
        -- apply primera_find in Hp. congruence.
    + split; [|reflexivity]. intros _. left. now apply find_ninguna_elem.
  - intros d Hd. rewrite Hob. destruct (find _ _); [reflexivity|].
    destruct (String.eqb_spec (dpi C) d); [congruence | reflexivity].
Qed.

Lemma registrar_y_obtener_cliente_testigo :
  exists s',
    registrar_cliente 0%nat mundo_ana = Some (tt, s') /\
    clientes s' = [0%nat; 0%nat] /\
    obtener_cliente "CF1" s' = Some (Some 0%nat, s').
Proof.
  assert (Hbf : bien_formado mundo_ana) by resolver_bf.
  destruct (registrar_y_obtener_cliente mundo_ana 0%nat
              (mkCliente "Ana" "Lopez" "CF1" [0%nat]) Hbf eq_refl)
    as (s' & Hreg & Hcl & _ & _ & _ & _ & _ & _ & Hmisma & _).
  exists s'. split; [exact Hreg|]. split; [exact Hcl|]. apply Hmisma.
  right. exists [], []. repeat split. apply Forall_nil_2.
Defined.

(** ** Updating a client *)

Lemma cli_con_dpi_poner s d c C C' y :
  mem_cli s !! c = Some C -> dpi C' = dpi C ->
  cli_con_dpi (poner_cliente c C' s) d y = cli_con_dpi s d y.
Proof.
  intros HC Hd. unfold cli_con_dpi, poner_cliente. cbn.
  destruct (decide (c = y)) as [<-|Hne].
  - rewrite list_lookup_insert_eq by (eapply lookup_lt_Some; eauto).
    now rewrite HC, Hd.
  - now rewrite list_lookup_insert_ne.
Qed.

(** X3.  [actualizar_cliente] fails, changing nothing, exactly when no
    registered client has the DPI.  Otherwise it overwrites the two name
    fields of the first registered client with that DPI; the DPI and the
    client's reservation list are kept, no other object changes, and
    [obtener_cliente] on the same DPI then returns that client. *)
Theorem actualizar_cliente_correcta (s : Mundo) (d nn na : string) :
  bien_formado s ->
  exists ok s',
    actualizar_cliente d nn na s = Some (ok, s') /\
    (ok = false <-> forall c, c ∈ clientes s -> cli_con_dpi s d c = false) /\
    (ok = false -> s' = s) /\
    (ok = true ->
       exists c C,
         primera (cli_con_dpi s d) (clientes s) c /\
         mem_cli s !! c = Some C /\
         s' = poner_cliente c (mkCliente nn na (dpi C) (cli_reservas C)) s /\
         mem_cli s' !! c = Some (mkCliente nn na d (cli_reservas C)) /\
         (forall y, y <> c -> mem_cli s' !! y = mem_cli s !! y) /\
         obtener_cliente d s' = Some (Some c, s')).
Proof.
  intros Hbf. rewrite (actualizar_cliente_find s d nn na Hbf).
  destruct (find (cli_con_dpi s d) (clientes s)) as [c|] eqn:Hf.
  - pose proof Hf as Hp. apply find_primera in Hp.
    pose proof Hp as (_ & _ & _ & _ & (C & HC & Hd)%cli_con_dpi_true).
    desplegar. rewrite HC. cbn beta iota.
    exists true, (poner_cliente c (con_nombres nn na C) s).
    split; [reflexivity|]. split; [|split; [discriminate|]].
    + split; [discriminate|]. intros Hno. apply find_ninguna_elem in Hno. congruence.
    + intros _. exists c, C. split; [assumption|]. split; [assumption|].
      split; [reflexivity|]. split; [|split].
      * cbn. rewrite list_lookup_insert_eq by (eapply lookup_lt_Some; eauto).
        unfold con_nombres. now rewrite Hd.
      * intros y Hy. cbn. now apply list_lookup_insert_ne.
      * rewrite obtener_cliente_find.
        -- cbn [clientes poner_cliente].
           rewrite (find_igual _ (cli_con_dpi s d)), Hf; [reflexivity|].
           apply Forall_forall. intros y _.
           now apply cli_con_dpi_poner with (C := C).
        -- apply bien_formado_poner_cliente; [assumption|].
           exact (bien_formado_cliente s c C Hbf HC).
  - exists false, s. split; [reflexivity|]. split; [|split; [reflexivity|discriminate]].
    split; [|reflexivity]. intros _. now apply find_ninguna_elem.
Qed.

Lemma actualizar_cliente_correcta_testigo :
  bien_formado mundo_ana /\
  exists s',
    actualizar_cliente "CF1" "Ana Maria" "Lopez Paz" mundo_ana = Some (true, s') /\
    mem_cli s' !! 0%nat = Some (mkCliente "Ana Maria" "Lopez Paz" "CF1" [0%nat]) /\
    actualizar_cliente "CF9" "X" "Y" mundo_ana = Some (false, mundo_ana).
Proof.
  assert (Hbf : bien_formado mundo_ana) by resolver_bf.
  split; [exact Hbf|].
  destruct (actualizar_cliente_correcta mundo_ana "CF1" "Ana Maria" "Lopez Paz" Hbf)
    as (ok & s' & Heq & _).
  exists s'. vm_compute in Heq. injection Heq as <- <-.
  repeat split.
Defined.

(** ** Removing rooms *)

Lemma hab_con_numero_distintos s n m x :
  n <> m -> hab_con_numero s m x = true -> hab_con_numero s n x = false.
Proof.
  intros Hnm (H & HH & Hm)%hab_con_numero_true.
  unfold hab_con_numero. rewrite HH. apply Z.eqb_neq. congruence.
Qed.

Lemma eliminar_habitacion_eq s n :
  bien_formado s ->
  eliminar_habitacion n s =
    Some (tt, con_habitaciones
                (List.filter (fun h => negb (hab_con_numero s n h)) (habitaciones s)) s).
Proof.
  intros Hbf.
  unfold eliminar_habitacion, leer_habitaciones, asignar_habitaciones, bind.
  now rewrite (sin_numero_filter s n _ (bf_habitaciones _ Hbf)).
Qed.

Lemma bien_formado_sin_numero s n :
  bien_formado s ->
  bien_formado (con_habitaciones
    (List.filter (fun h => negb (hab_con_numero s n h)) (habitaciones s)) s).
Proof.
  intros Hbf.
  exact (eliminar_habitacion_bien_formado n s tt _ Hbf (eliminar_habitacion_eq s n Hbf)).
Qed.

Lemma filter_conmuta (P Q : loc -> bool) (l : list loc) :
  List.filter P (List.filter Q l) = List.filter Q (List.filter P l).
Proof.
  induction l as [|x l IH]; [reflexivity|]. simpl.
  destruct (P x) eqn:Px, (Q x) eqn:Qx; simpl; rewrite ?Px, ?Qx, IH; reflexivity.
Qed.

(** X4.  After [eliminar_habitacion n], [obtener_habitacion n] finds
    nothing, a lookup by any other number gives what it gave before, and
    [consultar_disponibilidad] gives its former answer without the rooms
    numbered [n]. *)
Theorem eliminar_y_obtener_habitacion (s : Mundo) (n : Z) :
  bien_formado s ->
  exists s',
    eliminar_habitacion n s = Some (tt, s') /\
    obtener_habitacion n s' = Some (None, s') /\
    (forall m, m <> n ->
       exists res,
         obtener_habitacion m s = Some (res, s) /\
         obtener_habitacion m s' = Some (res, s')) /\
    (forall fi ff,
       exists l,
         consultar_disponibilidad fi ff s = Some (l, s) /\
         consultar_disponibilidad fi ff s' =
           Some (List.filter (fun h => negb (hab_con_numero s n h)) l, s')).
Proof.
  intros Hbf. eexists. split; [apply (eliminar_habitacion_eq s n Hbf)|].
  pose proof (bien_formado_sin_numero s n Hbf) as Hbf'.
  set (s' := con_habitaciones _ s) in *.
  split; [|split].
  - rewrite (obtener_habitacion_find s' n Hbf').
    change (hab_con_numero s' n) with (hab_con_numero s n).
    subst s'. cbn [habitaciones con_habitaciones].
    rewrite find_filter_excluye; [reflexivity|].
    intros x Hx. now rewrite Hx.
  - intros m Hm. eexists. split; [now apply obtener_habitacion_find|].
    rewrite (obtener_habitacion_find s' m Hbf').
    change (hab_con_numero s' m) with (hab_con_numero s m).
    subst s'. cbn [habitaciones con_habitaciones].
    rewrite find_filter_implica; [reflexivity|].
    intros x Hx. apply negb_true_iff.
    now apply hab_con_numero_distintos with (m := m).
  - intros fi ff. eexists. split; [now apply consultar_disponibilidad_filter|].
    rewrite (consultar_disponibilidad_filter s' fi ff Hbf').
    change (esta_disponible s') with (esta_disponible s).
    subst s'. cbn [habitaciones con_habitaciones].
    now rewrite filter_conmuta.
Qed.

Lemma eliminar_y_obtener_habitacion_testigo :
  bien_formado mundo_gemelas /\
  exists s',
    eliminar_habitacion 101 mundo_gemelas = Some (tt, s') /\
    obtener_habitacion 101 s' = Some (None, s') /\
    consultar_disponibilidad ene10 ene12 s' = Some ([], s').
Proof.
  assert (Hbf : bien_formado mundo_gemelas) by resolver_bf.
  split; [exact Hbf|].
  destruct (eliminar_y_obtener_habitacion mundo_gemelas 101 Hbf)
    as (s' & Hel & Hob & _ & Hcons).
  exists s'. split; [exact Hel|]. split; [exact Hob|].
  destruct (Hcons ene10 ene12) as (l & Hl & Hl').
  vm_compute in Hl. injection Hl as <-. exact Hl'.
Defined.

Lemma filter_idem (P : loc -> bool) (l : list loc) :
  List.filter P (List.filter P l) = List.filter P l.
Proof.
  induction l as [|x l IH]; [reflexivity|]. simpl.
  destruct (P x) eqn:Px; simpl; rewrite ?Px, IH; reflexivity.
Qed.

(** X5.  Removing the same number twice is the same as removing it once,
    and removals of two numbers give the same state in either order. *)
Theorem eliminar_habitacion_compone (s : Mundo) (n m : Z) :
  bien_formado s ->
  exists s1 s2 s12,
    eliminar_habitacion n s = Some (tt, s1) /\
    eliminar_habitacion n s1 = Some (tt, s1) /\
    eliminar_habitacion m s = Some (tt, s2) /\
    eliminar_habitacion m s1 = Some (tt, s12) /\
    eliminar_habitacion n s2 = Some (tt, s12).
Proof.
  intros Hbf.
  pose proof (bien_formado_sin_numero s n Hbf) as Hbf1.
  pose proof (bien_formado_sin_numero s m Hbf) as Hbf2.
  exists (con_habitaciones
            (List.filter (fun h => negb (hab_con_numero s n h)) (habitaciones s)) s),
         (con_habitaciones
            (List.filter (fun h => negb (hab_con_numero s m h)) (habitaciones s)) s),
         (con_habitaciones
            (List.filter (fun h => negb (hab_con_numero s m h))
               (List.filter (fun h => negb (hab_con_numero s n h)) (habitaciones s))) s).
  split; [apply (eliminar_habitacion_eq s n Hbf)|].
  split; [|split; [apply (eliminar_habitacion_eq s m Hbf)|split]].
  - rewrite (eliminar_habitacion_eq _ n Hbf1). unfold con_habitaciones at 1. cbn.
    unfold con_habitaciones. f_equal. f_equal. f_equal. apply filter_idem.
  - rewrite (eliminar_habitacion_eq _ m Hbf1). reflexivity.
  - rewrite (eliminar_habitacion_eq _ n Hbf2). unfold con_habitaciones at 1. cbn.
    unfold con_habitaciones. f_equal. f_equal. f_equal. apply filter_conmuta.
Qed.

Lemma eliminar_habitacion_compone_testigo :
  exists s1,
    eliminar_habitacion 101 mundo_gemelas = Some (tt, s1) /\
    eliminar_habitacion 101 s1 = Some (tt, s1) /\
    habitaciones s1 = [].
Proof.
  assert (Hbf : bien_formado mundo_gemelas) by resolver_bf.
  destruct (eliminar_habitacion_compone mundo_gemelas 101 7 Hbf)
    as (s1 & s2 & s12 & H1 & H11 & _).
  exists s1. split; [exact H1|]. split; [exact H11|].
  vm_compute in H1. injection H1 as <-. reflexivity.
Defined.

(** ** How cancellations and date changes compose *)

Lemma res_coincide_poner_reserva s d n r R R' y :
  mem_res s !! r = Some R ->
  cliente R' = cliente R -> habitacion R' = habitacion R ->
  res_coincide (poner_reserva r R' s) d n y = res_coincide s d n y.
Proof.
  intros HR Hc Hh. unfold res_coincide. cbn [mem_res poner_reserva].
  change (cli_con_dpi (poner_reserva r R' s)) with (cli_con_dpi s).
  change (hab_con_numero (poner_reserva r R' s)) with (hab_con_numero s).
  destruct (decide (r = y)) as [<-|Hne].
  - rewrite list_lookup_insert_eq by (eapply lookup_lt_Some; eauto).
    now rewrite HR, Hc, Hh.
  - now rewrite list_lookup_insert_ne.
Qed.

Lemma res_coincide_poner_habitacion s d n h H H' y :
  mem_hab s !! h = Some H -> numero H' = numero H ->
  res_coincide (poner_habitacion h H' s) d n y = res_coincide s d n y.
Proof.
  intros HH Hn. unfold res_coincide. cbn [mem_res poner_habitacion].
  destruct (mem_res s !! y) as [R|]; [|reflexivity].
  change (cli_con_dpi (poner_habitacion h H' s)) with (cli_con_dpi s).
  now rewrite (hab_con_numero_poner s n h H H' _ HH Hn).
Qed.

(** The first match of a pair is the same before and after the cancellation
    or the date change of a registered reservation. *)
Lemma find_tras_cancelar s d' n' r R H :
  mem_res s !! r = Some R -> mem_hab s !! habitacion R = Some H ->
  find (res_coincide
          (poner_habitacion (habitacion R) (con_disponible true H)
             (poner_reserva r (con_estado "Cancelada" R) s)) d' n')
       (reservas s) =
  find (res_coincide s d' n') (reservas s).
Proof.
  intros HR HH. apply find_igual, Forall_forall. intros y _.
  rewrite (res_coincide_poner_habitacion _ d' n' _ H); [|exact HH|reflexivity].
  now apply res_coincide_poner_reserva with (R := R).
Qed.

Lemma find_tras_modificar s d' n' r R fe fs :
  mem_res s !! r = Some R ->
  find (res_coincide (poner_reserva r (con_fechas fe fs R) s) d' n') (reservas s) =
  find (res_coincide s d' n') (reservas s).
Proof.
  intros HR. apply find_igual, Forall_forall. intros y _.
  now apply res_coincide_poner_reserva with (R := R).
Qed.

Lemma cancelar_reserva_tras s d n r R H :
  bien_formado s ->
  find (res_coincide s d n) (reservas s) = Some r ->
  mem_res s !! r = Some R -> mem_hab s !! habitacion R = Some H ->
  cancelar_reserva d n s =
    Some (true, poner_habitacion (habitacion R) (con_disponible true H)
                  (poner_reserva r (con_estado "Cancelada" R) s)).
Proof.
  intros Hbf Hf HR HH. pose proof (cancelar_reserva_efecto s d n Hbf) as He.
  rewrite Hf in He. destruct He as (R' & H' & HR' & HH' & ->).
  assert (R' = R) as -> by congruence. assert (H' = H) as -> by congruence.
  reflexivity.
Qed.

Lemma modificar_reserva_tras s d n fe fs r R :
  bien_formado s ->
  find (res_coincide s d n) (reservas s) = Some r ->
  mem_res s !! r = Some R ->
  modificar_reserva d n fe fs s =
    Some (true, poner_reserva r (con_fechas fe fs R) s).
Proof.
  intros Hbf Hf HR. rewrite (modificar_reserva_find s d n fe fs Hbf), Hf.
  desplegar. now rewrite HR.
Qed.

(** X6.  Cancelling is idempotent: a second [cancelar_reserva] with the
    same pair returns the same result as the first and leaves the state
    exactly as the first left it. *)
Theorem cancelar_reserva_idempotente (s s1 : Mundo) (d : string) (n : Z) (ok : bool) :
  bien_formado s ->
  cancelar_reserva d n s = Some (ok, s1) ->
  cancelar_reserva d n s1 = Some (ok, s1).
Proof.
  intros Hbf Hcan.
  pose proof (cancelar_reserva_bien_formado d n s ok s1 Hbf Hcan) as Hbf1.
  pose proof (cancelar_reserva_efecto s d n Hbf) as He.
  destruct (find (res_coincide s d n) (reservas s)) as [r|] eqn:Hf.
  - destruct He as (R & H & HR & HH & He). rewrite He in Hcan.
    injection Hcan as <- <-.
    assert (Hlr : (r < length (mem_res s))%nat) by (eapply lookup_lt_Some; eauto).
    assert (Hlh : (habitacion R < length (mem_hab s))%nat)
      by (eapply lookup_lt_Some; eauto).
    rewrite (cancelar_reserva_tras _ d n r (con_estado "Cancelada" R)
               (con_disponible true H) Hbf1).
    + unfold poner_habitacion, poner_reserva. cbn.
      now rewrite !list_insert_insert_eq.
    + cbn [reservas poner_habitacion poner_reserva].
      now rewrite (find_tras_cancelar s d n r R H HR HH).
    + cbn. now apply list_lookup_insert_eq.
    + cbn. now apply list_lookup_insert_eq.
  - rewrite He in Hcan. injection Hcan as <- <-. exact He.
Qed.

Lemma cancelar_reserva_idempotente_testigo :
  bien_formado mundo_ana /\
  cancelar_reserva "CF1" 101 mundo_ana = Some (true, mundo_cancelada) /\
  cancelar_reserva "CF1" 101 mundo_cancelada = Some (true, mundo_cancelada).
Proof.
  assert (Hbf : bien_formado mundo_ana) by resolver_bf.
  assert (Hcan : cancelar_reserva "CF1" 101 mundo_ana = Some (true, mundo_cancelada))
    by reflexivity.
  split; [exact Hbf|]. split; [exact Hcan|].
  exact (cancelar_reserva_idempotente mundo_ana mundo_cancelada "CF1" 101 true Hbf Hcan).
Defined.

(** X7.  A date change and a cancellation of the same pair act on the same
    reservation and commute: either order ends in the same state, with the
    new dates and status Cancelada.  Of two date changes the later one
    wins. *)
Theorem modificar_y_cancelar_conmutan (s : Mundo) (d : string) (n : Z)
    (fe fs fe' fs' : datetime) :
  bien_formado s ->
  exists (ok : bool) (sm sc smc sm' : Mundo),
    modificar_reserva d n fe fs s = Some (ok, sm) /\
    cancelar_reserva d n s = Some (ok, sc) /\
    cancelar_reserva d n sm = Some (ok, smc) /\
    modificar_reserva d n fe fs sc = Some (ok, smc) /\
    modificar_reserva d n fe' fs' s = Some (ok, sm') /\
    modificar_reserva d n fe' fs' sm = Some (ok, sm').
Proof.
  intros Hbf.
  destruct (find (res_coincide s d n) (reservas s)) as [r|] eqn:Hf.
  - pose proof (cancelar_reserva_efecto s d n Hbf) as He. rewrite Hf in He.
    destruct He as (R & H & HR & HH & Hcan).
    assert (Hlr : (r < length (mem_res s))%nat) by (eapply lookup_lt_Some; eauto).
    pose proof (modificar_reserva_tras s d n fe fs r R Hbf Hf HR) as Hmod.
    pose proof (modificar_reserva_bien_formado d n fe fs s _ _ Hbf Hmod) as Hbfm.
    pose proof (cancelar_reserva_bien_formado d n s _ _ Hbf Hcan) as Hbfc.
    exists true, (poner_reserva r (con_fechas fe fs R) s),
      (poner_habitacion (habitacion R) (con_disponible true H)
         (poner_reserva r (con_estado "Cancelada" R) s)),
      (poner_habitacion (habitacion R) (con_disponible true H)
         (poner_reserva r (con_estado "Cancelada" (con_fechas fe fs R)) s)),
      (poner_reserva r (con_fechas fe' fs' R) s).
    split; [exact Hmod|]. split; [exact Hcan|]. split; [|split; [|split]].
    + rewrite (cancelar_reserva_tras _ d n r (con_fechas fe fs R) H Hbfm).
      * unfold poner_habitacion, poner_reserva. cbn.
        now rewrite list_insert_insert_eq.
      * cbn [reservas poner_reserva].
        now rewrite (find_tras_modificar s d n r R fe fs HR).
      * cbn. now apply list_lookup_insert_eq.
      * exact HH.
    + rewrite (modificar_reserva_tras _ d n fe fs r (con_estado "Cancelada" R) Hbfc).
      * unfold poner_habitacion, poner_reserva. cbn.
        now rewrite list_insert_insert_eq.
      * cbn [reservas poner_habitacion poner_reserva].
        now rewrite (find_tras_cancelar s d n r R H HR HH).
      * cbn. now apply list_lookup_insert_eq.
    + now apply modificar_reserva_tras.
    + rewrite (modificar_reserva_tras _ d n fe' fs' r (con_fechas fe fs R) Hbfm).
      * unfold poner_reserva. cbn. now rewrite list_insert_insert_eq.
      * cbn [reservas poner_reserva].
        now rewrite (find_tras_modificar s d n r R fe fs HR).
      * cbn. now apply list_lookup_insert_eq.
  - pose proof (cancelar_reserva_efecto s d n Hbf) as He. rewrite Hf in He.
    assert (Hm : forall a b, modificar_reserva d n a b s = Some (false, s))
      by (intros a b; now rewrite (modificar_reserva_find s d n a b Hbf), Hf).
    exists false, s, s, s, s. auto 10.
Qed.

Lemma modificar_y_cancelar_conmutan_testigo :
  bien_formado mundo_ana /\
  exists sm sc smc,
    modificar_reserva "CF1" 101 feb01 feb03 mundo_ana = Some (true, sm) /\
    cancelar_reserva "CF1" 101 mundo_ana = Some (true, sc) /\
    cancelar_reserva "CF1" 101 sm = Some (true, smc) /\
    modificar_reserva "CF1" 101 feb01 feb03 sc = Some (true, smc) /\
    mem_res smc !! 0%nat = Some (mkReserva 0%nat 0%nat feb01 feb03 "Cancelada").
Proof.
  assert (Hbf : bien_formado mundo_ana) by resolver_bf.
  split; [exact Hbf|].
  destruct (modificar_y_cancelar_conmutan mundo_ana "CF1" 101 feb01 feb03 ene10 ene12 Hbf)
    as (ok & sm & sc & smc & sm' & Hm & Hc & Hmc & Hcm & _).
  assert (ok = true) as -> by (vm_compute in Hm; congruence).
  exists sm, sc, smc. repeat split; try assumption.
  vm_compute in Hm. injection Hm as <-.
  vm_compute in Hmc. injection Hmc as <-. reflexivity.
Defined.

(** ** Availability follows bookings and cancellations *)

Lemma crear_reserva_exito s r s' :
  bien_formado s -> crear_reserva r s = Some (true, s') ->
  exists R H C,
    mem_res s !! r = Some R /\ mem_hab s !! habitacion R = Some H /\
    mem_cli s !! cliente R = Some C /\ disponible H = true /\
    s' = mkMundo (<[habitacion R := con_disponible false H]> (mem_hab s))
                 (<[cliente R := con_reservas (cli_reservas C ++ [r]) C]> (mem_cli s))
                 (mem_res s) (habitaciones s) (clientes s) (reservas s ++ [r]).
Proof.
  intros Hbf Hcr.
  destruct (mem_res s !! r) as [R|] eqn:HR;
    [|unfold crear_reserva in Hcr; revert Hcr; desplegar; now rewrite HR].
  destruct (bien_formado_reserva s r R Hbf HR) as [Hc Hh].
  destruct (lookup_lt_is_Some_2 _ _ Hc) as [C HC].
  destruct (lookup_lt_is_Some_2 _ _ Hh) as [H HH].
  rewrite (crear_reserva_eq s r R H C HR HH HC) in Hcr.
  destruct (disponible H) eqn:Hd; [|discriminate].
  injection Hcr as <-. exists R, H, C. auto.
Qed.

Lemma crear_reserva_fracaso s r s' :
  bien_formado s -> crear_reserva r s = Some (false, s') -> s' = s.
Proof.
  intros Hbf Hcr.
  destruct (mem_res s !! r) as [R|] eqn:HR;
    [|unfold crear_reserva in Hcr; revert Hcr; desplegar; now rewrite HR].
  destruct (bien_formado_reserva s r R Hbf HR) as [Hc Hh].
  destruct (lookup_lt_is_Some_2 _ _ Hc) as [C HC].
  destruct (lookup_lt_is_Some_2 _ _ Hh) as [H HH].
  rewrite (crear_reserva_eq s r R H C HR HH HC) in Hcr.
  destruct (disponible H); [discriminate|]. now injection Hcr as <-.
Qed.

Lemma filter_igual_todo (P Q : loc -> bool) (l : list loc) :
  (forall x, P x = Q x) -> List.filter P l = List.filter Q l.
Proof.
  intros HPQ. induction l as [|x l IH]; [reflexivity|]. simpl.
  now rewrite HPQ, IH.
Qed.

Lemma filter_y (Q R : loc -> bool) (l : list loc) :
  List.filter (fun x => Q x && R x) l = List.filter Q (List.filter R l).
Proof.
  induction l as [|x l IH]; [reflexivity|]. simpl.
  destruct (R x) eqn:Rx; simpl.
  - rewrite andb_true_r. destruct (Q x); now rewrite IH.
  - now rewrite andb_false_r.
Qed.

(** X8.  A successful booking removes the booked room object, and nothing
    else, from the answer of [consultar_disponibilidad]; a successful
    cancellation adds the room of the cancelled reservation to it when
    that room is registered, and removes nothing. *)
Theorem disponibilidad_sigue_reservas (s : Mundo) :
  bien_formado s ->
  (forall r s',
     crear_reserva r s = Some (true, s') ->
     exists R,
       mem_res s !! r = Some R /\
       forall fi ff, exists l,
         consultar_disponibilidad fi ff s = Some (l, s) /\
         consultar_disponibilidad fi ff s' =
           Some (List.filter (fun x => negb (Nat.eqb x (habitacion R))) l, s')) /\
  (forall d n s',
     cancelar_reserva d n s = Some (true, s') ->
     exists r R,
       primera (res_coincide s d n) (reservas s) r /\
       mem_res s !! r = Some R /\
       forall fi ff, exists l l',
         consultar_disponibilidad fi ff s = Some (l, s) /\
         consultar_disponibilidad fi ff s' = Some (l', s') /\
         forall x, x ∈ l' <-> x ∈ l \/ (x = habitacion R /\ x ∈ habitaciones s)).
Proof.
  intros Hbf. split.
  - intros r s' Hcr.
    pose proof (crear_reserva_bien_formado r s true s' Hbf Hcr) as Hbf'.
    destruct (crear_reserva_exito s r s' Hbf Hcr) as (R & H & C & HR & HH & HC & Hd & ->).
    exists R. split; [assumption|]. intros fi ff. eexists.
    split; [now apply consultar_disponibilidad_filter|].
    rewrite (consultar_disponibilidad_filter _ fi ff Hbf').
    cbn [habitaciones]. rewrite <- filter_y. f_equal. f_equal.
    apply filter_igual_todo. intros x. unfold esta_disponible. cbn [mem_hab].
    destruct (Nat.eqb_spec x (habitacion R)) as [->|Hne].
    + now rewrite list_lookup_insert_eq by (eapply lookup_lt_Some; eauto).
    + now rewrite list_lookup_insert_ne by congruence.
  - intros d n s' Hcan.
    pose proof (cancelar_reserva_bien_formado d n s true s' Hbf Hcan) as Hbf'.
    pose proof (cancelar_reserva_efecto s d n Hbf) as He.
    destruct (find (res_coincide s d n) (reservas s)) as [r|] eqn:Hf;
      [|rewrite He in Hcan; discriminate].
    destruct He as (R & H & HR & HH & He). rewrite He in Hcan.
    injection Hcan as <-. exists r, R. split; [now apply find_primera|].
    split; [assumption|]. intros fi ff. eexists _, _.
    split; [now apply consultar_disponibilidad_filter|].
    split; [now apply consultar_disponibilidad_filter|].
    intros x. cbn [habitaciones poner_habitacion poner_reserva].
    rewrite !list_elem_of_In, !filter_In, <- !list_elem_of_In.
    unfold esta_disponible. cbn [mem_hab poner_habitacion poner_reserva].
    destruct (decide (habitacion R = x)) as [<-|Hne].
    + rewrite list_lookup_insert_eq by (eapply lookup_lt_Some; eauto). cbn. tauto.
    + rewrite list_lookup_insert_ne by assumption.
      split; [tauto|]. intros [?|[? _]]; [tauto | congruence].
Qed.

Lemma disponibilidad_sigue_reservas_testigo :
  bien_formado mundo_alta /\
  crear_reserva 0%nat mundo_alta = Some (true, mundo_ana) /\
  consultar_disponibilidad ene10 ene12 mundo_alta = Some ([0%nat], mundo_alta) /\
  consultar_disponibilidad ene10 ene12 mundo_ana = Some ([], mundo_ana).
Proof.
  assert (Hbf : bien_formado mundo_alta) by resolver_bf.
  assert (Hcr : crear_reserva 0%nat mundo_alta = Some (true, mundo_ana)) by reflexivity.
  split; [exact Hbf|]. split; [exact Hcr|].
  destruct (disponibilidad_sigue_reservas mundo_alta Hbf) as [Hres _].
  destruct (Hres 0%nat mundo_ana Hcr) as (R & HR & Hcons).
  destruct (Hcons ene10 ene12) as (l & Hl & Hl').
  split; [reflexivity|].
  vm_compute in HR. injection HR as <-.
  vm_compute in Hl. injection Hl as <-. exact Hl'.
Defined.

(** ** Price changes are invisible to bookings *)

Lemma esta_disponible_poner s h H H' x :
  mem_hab s !! h = Some H -> disponible H' = disponible H ->
  esta_disponible (poner_habitacion h H' s) x = esta_disponible s x.
Proof.
  intros HH Hd. unfold esta_disponible. cbn [mem_hab poner_habitacion].
  destruct (decide (h = x)) as [<-|Hne].
  - rewrite list_lookup_insert_eq by (eapply lookup_lt_Some; eauto).
    now rewrite HH, Hd.
  - now rewrite list_lookup_insert_ne.
Qed.

Lemma precio_invisible s h H p :
  bien_formado s -> mem_hab s !! h = Some H ->
  (forall fi ff, exists l,
     consultar_disponibilidad fi ff s = Some (l, s) /\
     consultar_disponibilidad fi ff (poner_habitacion h (con_precio p H) s) =
       Some (l, poner_habitacion h (con_precio p H) s)) /\
  (forall r ok s2,
     crear_reserva r s = Some (ok, s2) ->
     exists s2', crear_reserva r (poner_habitacion h (con_precio p H) s) = Some (ok, s2')) /\
  (forall d n ok s2,
     cancelar_reserva d n s = Some (ok, s2) ->
     exists s2', cancelar_reserva d n (poner_habitacion h (con_precio p H) s) = Some (ok, s2')).
Proof.
  intros Hbf HH.
  pose proof (bien_formado_poner_habitacion s h (con_precio p H) Hbf) as Hbf'.
  assert (Hlh : (h < length (mem_hab s))%nat) by (eapply lookup_lt_Some; eauto).
  split; [|split].
  - intros fi ff. eexists. split; [now apply consultar_disponibilidad_filter|].
    rewrite (consultar_disponibilidad_filter _ fi ff Hbf').
    cbn [habitaciones poner_habitacion]. f_equal. f_equal.
    apply filter_igual_todo. intros x.
    now apply esta_disponible_poner with (H := H).
  - intros r ok s2 Hcr.
    destruct (mem_res s !! r) as [R|] eqn:HR;
      [|unfold crear_reserva in Hcr; revert Hcr; desplegar; now rewrite HR].
    destruct (bien_formado_reserva s r R Hbf HR) as [Hc Hh].
    destruct (lookup_lt_is_Some_2 _ _ Hc) as [C HC].
    destruct (lookup_lt_is_Some_2 _ _ Hh) as [H0 HH0].
    rewrite (crear_reserva_eq s r R H0 C HR HH0 HC) in Hcr.
    destruct (decide (h = habitacion R)) as [->|Hne].
    + assert (H0 = H) as -> by congruence.
      rewrite (crear_reserva_eq (poner_habitacion (habitacion R) (con_precio p H) s)
                 r R (con_precio p H) C HR); [|cbn|exact HC].
      * cbn [disponible con_precio]. destruct (disponible H);
          injection Hcr as <- _; eauto.
      * now apply list_lookup_insert_eq.
    + rewrite (crear_reserva_eq (poner_habitacion h (con_precio p H) s)
                 r R H0 C HR); [|cbn|exact HC].
      * destruct (disponible H0); injection Hcr as <- _; eauto.
      * now rewrite list_lookup_insert_ne.
  - intros d n ok s2 Hcan.
    pose proof (cancelar_reserva_efecto s d n Hbf) as He.
    pose proof (cancelar_reserva_efecto _ d n Hbf') as He'.
    cbn [reservas poner_habitacion] in He'.
    rewrite (find_igual _ (res_coincide s d n)) in He'.
    2:{ apply Forall_forall. intros y _.
        now apply res_coincide_poner_habitacion with (H := H). }
    destruct (find (res_coincide s d n) (reservas s)) as [r|].
    + destruct He as (R & H0 & _ & _ & He). rewrite He in Hcan.
      injection Hcan as <- _.
      destruct He' as (R' & H' & _ & _ & ->). eauto.
    + rewrite He in Hcan. injection Hcan as <- _. eauto.
Qed.

(** X12.  Price changes are invisible to the reservation logic: after
    [modificar_habitacion] or [aplicar_descuento] the availability query
    returns the same rooms, and every booking and every cancellation
    succeeds or fails as it would have before. *)
Theorem precio_no_afecta_reservas (s : Mundo) :
  bien_formado s ->
  forall s',
    ((exists n p ok, modificar_habitacion n p s = Some (ok, s')) \/
     (exists h, aplicar_descuento h s = Some (tt, s'))) ->
    (forall fi ff, exists l,
       consultar_disponibilidad fi ff s = Some (l, s) /\
       consultar_disponibilidad fi ff s' = Some (l, s')) /\
    (forall r ok s2,
       crear_reserva r s = Some (ok, s2) ->
       exists s2', crear_reserva r s' = Some (ok, s2')) /\
    (forall d n ok s2,
       cancelar_reserva d n s = Some (ok, s2) ->
       exists s2', cancelar_reserva d n s' = Some (ok, s2')).
Proof.
  intros Hbf s' Hpaso.
  assert (Hforma : s' = s \/ exists h H p,
             mem_hab s !! h = Some H /\ s' = poner_habitacion h (con_precio p H) s).
  { destruct Hpaso as [(n & p & ok & Hm) | (h & Ha)].
    - rewrite (modificar_habitacion_find s n p Hbf) in Hm.
      destruct (find _ _) as [h|]; [|injection Hm as _ <-; now left].
      revert Hm. desplegar. destruct (mem_hab s !! h) as [H|] eqn:HH; [|discriminate].
      intros [= _ <-]. right. eauto.
    - revert Ha. unfold aplicar_descuento. desplegar.
      destruct (mem_hab s !! h) as [H|] eqn:HH; [|discriminate].
      intros [= <-]. right. eauto. }
  destruct Hforma as [-> | (h & H & p & HH & ->)].
  - split; [|split]; eauto.
    intros fi ff. eexists. split; now apply consultar_disponibilidad_filter.
  - now apply precio_invisible.
Qed.

Lemma precio_no_afecta_reservas_testigo :
  bien_formado mundo_alta /\
  exists s' s2',
    modificar_habitacion 101 80%float mundo_alta = Some (true, s') /\
    crear_reserva 0%nat mundo_alta = Some (true, mundo_ana) /\
    crear_reserva 0%nat s' = Some (true, s2').
Proof.
  assert (Hbf : bien_formado mundo_alta) by resolver_bf.
  split; [exact Hbf|].
  assert (Hm : modificar_habitacion 101 80%float mundo_alta =
               Some (true, poner_habitacion 0%nat
                 (mkHabitacion Estandar 101 "Estándar" 80%float true) mundo_alta))
    by reflexivity.
  assert (Hcr : crear_reserva 0%nat mundo_alta = Some (true, mundo_ana)) by reflexivity.
  destruct (precio_no_afecta_reservas mundo_alta Hbf _
              (or_introl (ex_intro _ 101 (ex_intro _ 80%float (ex_intro _ true Hm)))))
    as (_ & Hres & _).
  destruct (Hres 0%nat true mundo_ana Hcr) as (s2' & Hcr').
  eexists _, s2'. split; [exact Hm|]. split; [exact Hcr | exact Hcr'].
Defined.

(** ** Every step is one of the elementary state changes *)

Lemma ejecutar_paso o s s' :
  bien_formado s -> ejecutar o s = Some s' -> paso s s'.
Proof.
  intros Hbf. destruct o as [k n p| | | | | | | | | | | | | |]; cbn [ejecutar].
  - unfold HabitacionEstandar, HabitacionSuite, HabitacionDeluxe, efecto.
    destruct k; intros [= <-]; cbn;
      [ apply (paso_nueva_habitacion s Estandar n p)
      | apply (paso_nueva_habitacion s Suite n p)
      | apply (paso_nueva_habitacion s Deluxe n p) ].
  - intros [= <-]. apply paso_nuevo_cliente.
  - unfold hay_cliente, hay_habitacion.
    destruct (bool_decide _) eqn:Hc; [|discriminate].
    destruct (bool_decide (h < _)%nat) eqn:Hh; [|discriminate].
    apply bool_decide_eq_true in Hc, Hh. cbn [andb]. intros [= <-].
    now apply paso_nueva_reserva.
  - unfold efecto, aplicar_descuento. desplegar.
    destruct (mem_hab s !! h) as [H|] eqn:HH; [|discriminate].
    intros [= <-]. now apply paso_precio.
  - unfold hay_habitacion. destruct (bool_decide _) eqn:Hh; [|discriminate].
    apply bool_decide_eq_true in Hh. intros [= <-].
    apply paso_habitaciones. apply Forall_app. split; [apply (bf_habitaciones _ Hbf)|].
    apply Forall_cons_2; [assumption | apply Forall_nil_2].
  - unfold efecto. rewrite (modificar_habitacion_find s n p Hbf).
    destruct (find _ _) as [h|]; [|intros [= <-]; apply paso_nada].
    desplegar. destruct (mem_hab s !! h) as [H|] eqn:HH; [|discriminate].
    intros [= <-]. now apply paso_precio.
  - unfold efecto. rewrite (eliminar_habitacion_eq s n Hbf). intros [= <-].
    apply paso_habitaciones. apply (bf_habitaciones _ (bien_formado_sin_numero s n Hbf)).
  - unfold hay_cliente. destruct (bool_decide _) eqn:Hc; [|discriminate].
    apply bool_decide_eq_true in Hc. intros [= <-]. now apply paso_clientes.
  - unfold efecto. rewrite (actualizar_cliente_find s d nn na Hbf).
    destruct (find _ _) as [c|]; [|intros [= <-]; apply paso_nada].
    desplegar. destruct (mem_cli s !! c) as [C|] eqn:HC; [|discriminate].
    intros [= <-]. now apply paso_nombres.
  - unfold efecto. destruct (crear_reserva r s) as [[[|] s1]|] eqn:Hcr; [| |discriminate].
    + intros [= <-].
      destruct (crear_reserva_exito s r s1 Hbf Hcr) as (R & H & C & HR & HH & HC & Hd & ->).
      now apply paso_reservar.
    + intros [= <-]. rewrite (crear_reserva_fracaso s r s1 Hbf Hcr). apply paso_nada.
  - unfold efecto. rewrite (modificar_reserva_find s d n fe fs Hbf).
    destruct (find _ _) as [r|] eqn:Hf; [|intros [= <-]; apply paso_nada].
    desplegar. destruct (mem_res s !! r) as [R|] eqn:HR; [|discriminate].
    intros [= <-]. apply paso_fechas; [|assumption].
    eapply primera_elem, find_primera; eauto.
  - unfold efecto. pose proof (cancelar_reserva_efecto s d n Hbf) as He.
    destruct (find _ _) as [r|] eqn:Hf.
    + destruct He as (R & H & HR & HH & ->). intros [= <-].
      apply paso_cancelar; try assumption.
      eapply primera_elem, find_primera; eauto.
    + rewrite He. intros [= <-]. apply paso_nada.
  - unfold efecto. rewrite (consultar_disponibilidad_filter s fi ff Hbf).
    intros [= <-]. apply paso_nada.
  - unfold efecto. rewrite (obtener_cliente_find s d Hbf).
    intros [= <-]. apply paso_nada.
  - unfold efecto. rewrite (obtener_habitacion_find s n Hbf).
    intros [= <-]. apply paso_nada.
Qed.

Lemma correr_invariante (I : Mundo -> Prop) :
  (forall s s', bien_formado s -> I s -> paso s s' -> I s') ->
  forall ops s s', bien_formado s -> I s -> correr ops s = Some s' -> I s'.
Proof.
  intros Hpaso ops. induction ops as [|o ops IH]; intros s s' Hbf HI; cbn.
  - now intros [= <-].
  - destruct (ejecutar o s) as [s1|] eqn:He; [|discriminate].
    apply IH.
    + eapply ejecutar_bien_formado; eauto.
    + eapply Hpaso; eauto using ejecutar_paso.
Qed.

Lemma alcanzable_invariante (I : Mundo -> Prop) :
  I inicial ->
  (forall s s', bien_formado s -> I s -> paso s s' -> I s') ->
  forall s, alcanzable s -> I s.
Proof.
  intros H0 Hpaso s [ops Hr].
  exact (correr_invariante I Hpaso ops inicial s inicial_bien_formado H0 Hr).
Qed.

(** ** Identity fields never change *)

Lemma conserva_identidad_refl s : conserva_identidad s s.
Proof. repeat split; eauto 10. Qed.

Lemma conserva_identidad_trans s1 s2 s3 :
  conserva_identidad s1 s2 -> conserva_identidad s2 s3 -> conserva_identidad s1 s3.
Proof.
  intros (Hh & Hc & Hr) (Hh' & Hc' & Hr'). split; [|split].
  - intros h H HH. destruct (Hh h H HH) as (Ha & HHa & Ea1 & Ea2 & Ea3).
    destruct (Hh' h Ha HHa) as (Hb & HHb & Eb1 & Eb2 & Eb3).
    exists Hb. repeat split; congruence.
  - intros c C HC. destruct (Hc c C HC) as (Ca & HCa & Ea).
    destruct (Hc' c Ca HCa) as (Cb & HCb & Eb).
    exists Cb. split; congruence.
  - intros r R HR. destruct (Hr r R HR) as (Ra & HRa & Ea1 & Ea2).
    destruct (Hr' r Ra HRa) as (Rb & HRb & Eb1 & Eb2).
    exists Rb. repeat split; congruence.
Qed.

Lemma lookup_insert_conserva {A} (l : list A) (i : nat) (x x' : A) (P : A -> A -> Prop) :
  l !! i = Some x -> P x x' -> (forall y, P y y) ->
  forall j y, l !! j = Some y -> exists y', <[i := x']> l !! j = Some y' /\ P y y'.
Proof.
  intros Hi HP Hrefl j y Hj. destruct (decide (i = j)) as [<-|Hne].
  - exists x'. rewrite list_lookup_insert_eq by (eapply lookup_lt_Some; eauto).
    split; [reflexivity | congruence].
  - exists y. rewrite list_lookup_insert_ne by assumption. auto.
Qed.

Lemma paso_conserva_identidad s s' : paso s s' -> conserva_identidad s s'.
Proof.
  intros Hp. destruct Hp as
    [ | k n p | nn na d | c h fe fs Hc Hh | h H p HH | l Hl | c Hc
      | c C nn na HC | r R H C HR HH HC Hd | r R fe fs Hin HR | r R H Hin HR HH ];
    try apply conserva_identidad_refl; (split; [|split]); cbn;
    try (intros x X HX; exists X; split; [exact HX | auto]; fail);
    try (intros x X HX; exists X; split; [now apply lookup_app_l_Some | auto]; fail).
  - intros j y Hj.
    apply (lookup_insert_conserva _ _ _ _
             (fun a b => clase b = clase a /\ numero b = numero a /\ tipo b = tipo a)
             HH); cbn; auto.
  - intros j y Hj.
    apply (lookup_insert_conserva _ _ _ _ (fun a b => dpi b = dpi a) HC); cbn; auto.
  - intros j y Hj.
    apply (lookup_insert_conserva _ _ _ _
             (fun a b => clase b = clase a /\ numero b = numero a /\ tipo b = tipo a)
             HH); cbn; auto.
  - intros j y Hj.
    apply (lookup_insert_conserva _ _ _ _ (fun a b => dpi b = dpi a) HC); cbn; auto.
  - intros j y Hj.
    apply (lookup_insert_conserva _ _ _ _
             (fun a b => cliente b = cliente a /\ habitacion b = habitacion a)
             HR); cbn; auto.
  - intros j y Hj.
    apply (lookup_insert_conserva _ _ _ _
             (fun a b => clase b = clase a /\ numero b = numero a /\ tipo b = tipo a)
             HH); cbn; auto.
  - intros j y Hj.
    apply (lookup_insert_conserva _ _ _ _
             (fun a b => cliente b = cliente a /\ habitacion b = habitacion a)
             HR); cbn; auto.
Qed.

Lemma correr_conserva_identidad ops s s' :
  bien_formado s -> correr ops s = Some s' -> conserva_identidad s s'.
Proof.
  revert s. induction ops as [|o ops IH]; intros s Hbf; cbn.
  - intros [= <-]. apply conserva_identidad_refl.
  - destruct (ejecutar o s) as [s1|] eqn:He; [|discriminate]. intros Hr.
    apply conserva_identidad_trans with (s2 := s1).
    + eapply paso_conserva_identidad, ejecutar_paso; eauto.
    + apply IH; [eapply ejecutar_bien_formado; eauto | exact Hr].
Qed.

Lemma paso_tipo_de_clase s s' :
  bien_formado s -> tipo_de_clase s -> paso s s' -> tipo_de_clase s'.
Proof.
  intros _ Hinv Hp. destruct (paso_conserva_identidad s s' Hp) as (Hid & _ & _).
  assert (Hviejo : forall h H', mem_hab s' !! h = Some H' ->
            (h < length (mem_hab s))%nat -> tipo H' = etiqueta (clase H')).
  { intros h H' HH' Hlt. destruct (lookup_lt_is_Some_2 _ _ Hlt) as [H HH].
    destruct (Hid h H HH) as (H1 & HH1 & Hc & _ & Ht).
    assert (H1 = H') as -> by congruence. rewrite Ht, Hc. exact (Hinv h H HH). }
  destruct Hp as
    [ | k n p | nn na d | c h fe fs Hc Hh | h H p HH | l Hl | c Hc
      | c C nn na HC | r R H C HR HH HC Hd | r R fe fs Hin HR | r R H Hin HR HH ];
    intros x X HX;
    try (apply (Hviejo x X HX); apply lookup_lt_Some in HX; cbn in HX;
         rewrite ?length_insert in HX; exact HX).
  cbn in HX. apply lookup_app_Some in HX as [HX | [Hge HX]].
  - exact (Hinv x X HX).
  - destruct (x - length (mem_hab s))%nat; [|discriminate].
    injection HX as <-. reflexivity.
Qed.

(** X9.  Along any run, objects are never destroyed and never change the
    fields that identify them: a room keeps its class, number and label, a
    client its DPI, a reservation its client and its room.  In every state
    reached from the empty manager the label of a room is the one of its
    class. *)
Theorem identidad_inmutable :
  (forall ops s s',
     bien_formado s -> correr ops s = Some s' -> conserva_identidad s s') /\
  (forall s, alcanzable s -> tipo_de_clase s).
Proof.
  split.
  - exact correr_conserva_identidad.
  - apply alcanzable_invariante.
    + intros h H HH. discriminate.
    + exact paso_tipo_de_clase.
Qed.

Lemma identidad_inmutable_testigo :
  bien_formado mundo_alta /\
  exists s',
    correr [OModificarHabitacion 101 80%float; OCrearReserva 0%nat;
            OActualizarCliente "CF1" "A" "B"; OCancelarReserva "CF1" 101;
            OEliminarHabitacion 101] mundo_alta = Some s' /\
    conserva_identidad mundo_alta s'.
Proof.
  assert (Hbf : bien_formado mundo_alta) by resolver_bf.
  split; [exact Hbf|].
  destruct identidad_inmutable as [Hrun _].
  eexists. split; [vm_compute; reflexivity|].
  apply (Hrun [OModificarHabitacion 101 80%float; OCrearReserva 0%nat;
               OActualizarCliente "CF1" "A" "B"; OCancelarReserva "CF1" 101;
               OEliminarHabitacion 101]); [exact Hbf | vm_compute; reflexivity].
Defined.

(** ** A client's list mirrors the registry *)

Lemma es_del_cliente_valida s c r :
  bien_formado s -> es_del_cliente s c r = true -> (c < length (mem_cli s))%nat.
Proof.
  intros Hbf. unfold es_del_cliente.
  destruct (mem_res s !! r) as [R|] eqn:HR; [|discriminate].
  intros <-%Nat.eqb_eq. now destruct (bien_formado_reserva s r R Hbf HR).
Qed.

Lemma filter_ninguno (P : loc -> bool) (l : list loc) :
  (forall x, P x = false) -> List.filter P l = [].
Proof.
  intros HP. induction l as [|x l IH]; [reflexivity|]. simpl. now rewrite HP.
Qed.

Lemma es_del_cliente_poner_reserva s r R R' c y :
  mem_res s !! r = Some R -> cliente R' = cliente R ->
  es_del_cliente (poner_reserva r R' s) c y = es_del_cliente s c y.
Proof.
  intros HR Hc. unfold es_del_cliente. cbn [mem_res poner_reserva].
  destruct (decide (r = y)) as [<-|Hne].
  - rewrite list_lookup_insert_eq by (eapply lookup_lt_Some; eauto).
    rewrite HR. now rewrite Hc.
  - now rewrite list_lookup_insert_ne.
Qed.

Lemma filter_igual_en (P Q : loc -> bool) (l : list loc) :
  Forall (fun x => P x = Q x) l -> List.filter P l = List.filter Q l.
Proof.
  induction 1 as [|x l Hx _ IH]; simpl; [reflexivity|].
  rewrite Hx. now rewrite IH.
Qed.

Lemma paso_lista_es_filtro s s' :
  bien_formado s -> lista_es_filtro s -> paso s s' -> lista_es_filtro s'.
Proof.
  intros Hbf Hinv Hp. destruct Hp as
    [ | k n p | nn na d | c h fe fs Hc Hh | h H p HH | l Hl | c Hc
      | c C nn na HC | r R H C HR HH HC Hd | r R fe fs Hin HR | r R H Hin HR HH ];
    try exact Hinv.
  - intros y Y HY. cbn in HY. apply lookup_app_Some in HY as [HY | [Hge HY]].
    + exact (Hinv y Y HY).
    + destruct (y - length (mem_cli s))%nat; [|discriminate].
      injection HY as <-. cbn [cli_reservas reservas].
      symmetry. apply filter_ninguno. intros z.
      match goal with |- es_del_cliente ?s0 y z = false =>
        change (es_del_cliente s0 y z) with (es_del_cliente s y z) end.
      destruct (es_del_cliente s y z) eqn:E; [|reflexivity].
      apply (es_del_cliente_valida s y z Hbf) in E. lia.
  - intros y Y HY. cbn in HY. cbn [reservas].
    rewrite (Hinv y Y HY). apply filter_igual_en. apply Forall_forall.
    intros z Hz. unfold es_del_cliente. cbn [mem_res].
    destruct (registrada_existe s z Hbf Hz) as [Z HZ].
    now rewrite HZ, (lookup_app_l_Some _ _ _ _ HZ).
  - intros y Y HY. cbn in HY. cbn [reservas].
    change (es_del_cliente (poner_cliente c (con_nombres nn na C) s) y)
      with (es_del_cliente s y).
    destruct (decide (c = y)) as [<-|Hne].
    + rewrite list_lookup_insert_eq in HY by (eapply lookup_lt_Some; eauto).
      injection HY as <-. exact (Hinv c C HC).
    + rewrite list_lookup_insert_ne in HY by assumption. exact (Hinv y Y HY).
  - intros y Y HY. cbn in HY. cbn [reservas]. rewrite List.filter_app.
    match goal with |- context [es_del_cliente ?s0 y] =>
      change (es_del_cliente s0 y) with (es_del_cliente s y) end.
    cbn [List.filter]. unfold es_del_cliente at 2. rewrite HR.
    destruct (decide (cliente R = y)) as [<-|Hne].
    + rewrite list_lookup_insert_eq in HY by (eapply lookup_lt_Some; eauto).
      injection HY as <-. cbn [cli_reservas con_reservas].
      now rewrite Nat.eqb_refl, (Hinv _ C HC).
    + rewrite list_lookup_insert_ne in HY by assumption.
      apply Nat.eqb_neq in Hne. rewrite Hne, app_nil_r. exact (Hinv y Y HY).
  - intros y Y HY. cbn in HY. cbn [reservas poner_reserva].
    rewrite (Hinv y Y HY). apply filter_igual_todo. intros z. symmetry.
    now apply es_del_cliente_poner_reserva with (R := R).
  - intros y Y HY. cbn in HY. cbn [reservas poner_habitacion poner_reserva].
    rewrite (Hinv y Y HY). apply filter_igual_todo. intros z. symmetry.
    change (es_del_cliente (poner_habitacion (habitacion R) (con_disponible true H)
              (poner_reserva r (con_estado "Cancelada" R) s)) y z)
      with (es_del_cliente (poner_reserva r (con_estado "Cancelada" R) s) y z).
    now apply es_del_cliente_poner_reserva with (R := R).
Qed.

(** X10.  In every state reached from the empty manager, the reservation
    list of each client object is exactly the global registry restricted to
    the reservations of that client, in the same order and with the same
    repetitions. *)
Theorem lista_del_cliente_es_filtro (s : Mundo) :
  alcanzable s -> lista_es_filtro s.
Proof.
  revert s. apply alcanzable_invariante.
  - intros c C HC. discriminate.
  - exact paso_lista_es_filtro.
Qed.

Lemma lista_del_cliente_es_filtro_testigo :
  alcanzable mundo_relevo /\ lista_es_filtro mundo_relevo.
Proof.
  assert (Ha : alcanzable mundo_relevo) by (exists traza_relevo; reflexivity).
  split; [exact Ha|]. exact (lista_del_cliente_es_filtro mundo_relevo Ha).
Defined.

(** ** Unavailable rooms have been booked *)

Lemma paso_ocupada_tiene_reserva s s' :
  bien_formado s -> ocupada_tiene_reserva s -> paso s s' -> ocupada_tiene_reserva s'.
Proof.
  intros Hbf Hinv Hp. destruct Hp as
    [ | k n p | nn na d | c h fe fs Hc Hh | h H p HH | l Hl | c Hc
      | c C nn na HC | r R H C HR HH HC Hd | r R fe fs Hin HR | r R H Hin HR HH ];
    try exact Hinv.
  - intros y Y HY Hd. cbn in HY. apply lookup_app_Some in HY as [HY | [_ HY]].
    + exact (Hinv y Y HY Hd).
    + destruct (y - length (mem_hab s))%nat; [|discriminate].
      injection HY as <-. discriminate.
  - intros y Y HY Hd. destruct (Hinv y Y HY Hd) as (r & R & Hin & HR & Hb).
    exists r, R. cbn. split; [assumption|]. split; [|assumption].
    now apply lookup_app_l_Some.
  - intros y Y HY Hd. cbn in HY.
    destruct (decide (h = y)) as [<-|Hne].
    + rewrite list_lookup_insert_eq in HY by (eapply lookup_lt_Some; eauto).
      injection HY as <-. exact (Hinv h H HH Hd).
    + rewrite list_lookup_insert_ne in HY by assumption. exact (Hinv y Y HY Hd).
  - intros y Y HY Hdy. cbn in HY. cbn [reservas mem_res].
    destruct (decide (habitacion R = y)) as [<-|Hne].
    + exists r, R. split; [|auto].
      apply elem_of_app. right. now apply list_elem_of_singleton.
    + rewrite list_lookup_insert_ne in HY by assumption.
      destruct (Hinv y Y HY Hdy) as (r' & R' & Hin & HR' & Hb).
      exists r', R'. split; [|auto]. apply elem_of_app. now left.
  - intros y Y HY Hd. destruct (Hinv y Y HY Hd) as (r' & R' & Hin' & HR' & Hb).
    cbn [reservas mem_res poner_reserva].
    destruct (decide (r = r')) as [<-|Hne].
    + exists r, (con_fechas fe fs R). split; [assumption|].
      split; [apply list_lookup_insert_eq; eapply lookup_lt_Some; eauto|].
      cbn. congruence.
    + exists r', R'. split; [assumption|]. split; [|assumption].
      now rewrite list_lookup_insert_ne.
  - intros y Y HY Hd. cbn in HY.
    destruct (decide (habitacion R = y)) as [<-|Hney].
    + rewrite list_lookup_insert_eq in HY by (eapply lookup_lt_Some; eauto).
      injection HY as <-. discriminate.
    + rewrite list_lookup_insert_ne in HY by assumption.
      destruct (Hinv y Y HY Hd) as (r' & R' & Hin' & HR' & Hb).
      cbn [reservas mem_res poner_habitacion poner_reserva].
      destruct (decide (r = r')) as [<-|Hne].
      * congruence.
      * exists r', R'. split; [assumption|]. split; [|assumption].
        now rewrite list_lookup_insert_ne.
Qed.

(** X11.  In every state reached from the empty manager, a room object
    flagged unavailable has a registered reservation bound to it: only a
    booking clears the flag, and reservations are never unregistered. *)
Theorem habitacion_ocupada_tiene_reserva (s : Mundo) :
  alcanzable s -> ocupada_tiene_reserva s.
Proof.
  revert s. apply alcanzable_invariante.
  - intros h H HH. discriminate.
  - exact paso_ocupada_tiene_reserva.
Qed.

Lemma habitacion_ocupada_tiene_reserva_testigo :
  alcanzable mundo_doble /\ ocupada_tiene_reserva mundo_doble.
Proof.
  assert (Ha : alcanzable mundo_doble) by (exists traza_doble; reflexivity).
  split; [exact Ha|]. exact (habitacion_ocupada_tiene_reserva mundo_doble Ha).
Defined.

(** * The shell and the persistence adapter *)

Lemma reflejar_reserva_find s b d n l :
  bien_formado s -> Forall (fun r => r < length (mem_res s))%nat l ->
  reflejar_reserva l d n s b =
    match find (res_coincide s d n) l with
    | Some r => DatabaseManager.actualizar_reserva r s b
    | None => Some (DatabaseManager.Hecho b)
    end.
Proof.
  intros Hbf. induction 1 as [|r l Hr _ IH]; cbn; [reflexivity|].
  rewrite (coincide_vale s d n r Hbf Hr).
  now destruct (res_coincide s d n r).
Qed.

Lemma lookup_final {A} (l : list A) (x : A) : (l ++ [x]) !! length l = Some x.
Proof. now rewrite list_lookup_middle. Qed.

Lemma atender_cambio o s b m s' b' :
  bien_formado s -> atender o s b = Some (Continua m s' b') -> cambio s b s' b'.
Proof.
  intros Hbf. destruct o as [n t p|n p|n|nn na d|d nn na|d n fe fs|d n fe fs|d n];
    cbn [atender].
  - assert (Halta : forall k,
      tras_sql "Habitación registrada con éxito."
        (mkMundo (mem_hab s ++ [mkHabitacion k n (etiqueta k) p true]) (mem_cli s)
                 (mem_res s) (habitaciones s ++ [length (mem_hab s)]) (clientes s)
                 (reservas s)) b
        (DatabaseManager.insertar_habitacion (length (mem_hab s))
           (mkMundo (mem_hab s ++ [mkHabitacion k n (etiqueta k) p true]) (mem_cli s)
                    (mem_res s) (habitaciones s ++ [length (mem_hab s)]) (clientes s)
                    (reservas s)) b) = Some (Continua m s' b') ->
      cambio s b s' b').
    { intros k. unfold DatabaseManager.insertar_habitacion. cbn [mem_hab].
      rewrite lookup_final. cbn [numero tipo precio_por_noche disponible].
      destruct (DatabaseManager.en_rango n) eqn:Hr; cbn [negb]; [|discriminate].
      destruct (existsb _ _) eqn:Hex; [discriminate|].
      cbn. intros [= _ <- <-]. now apply cambio_alta_habitacion. }
    destruct (String.eqb t "1"); [apply (Halta Estandar)|].
    destruct (String.eqb t "2"); [apply (Halta Suite)|].
    destruct (String.eqb t "3"); [apply (Halta Deluxe)|].
    intros [= _ <- <-]. apply cambio_nada.
  - rewrite (modificar_habitacion_find s n p Hbf).
    destruct (find (hab_con_numero s n) (habitaciones s)) as [h|] eqn:Hf;
      [|intros [= _ <- <-]; apply cambio_nada].
    pose proof Hf as Hp%find_primera.
    pose proof Hp as (_ & _ & _ & _ & (H & HH & Hn)%hab_con_numero_true).
    desplegar. rewrite HH. cbn beta iota.
    rewrite (obtener_habitacion_find _ n (bien_formado_poner_habitacion s h _ Hbf)).
    cbn [habitaciones poner_habitacion].
    rewrite (find_igual _ (hab_con_numero s n)), Hf.
    2:{ apply Forall_forall. intros y _. now apply hab_con_numero_poner with (H := H). }
    unfold DatabaseManager.actualizar_habitacion. cbn [mem_hab poner_habitacion].
    rewrite list_lookup_insert_eq by (eapply lookup_lt_Some; eauto).
    cbn [numero tipo precio_por_noche disponible con_precio].
    destruct (DatabaseManager.en_rango (numero H)); cbn; [|discriminate].
    intros [= _ <- <-]. apply cambio_precio; [|assumption].
    now apply primera_elem in Hp.
  - rewrite (eliminar_habitacion_eq s n Hbf). unfold DatabaseManager.eliminar_habitacion.
    destruct (DatabaseManager.en_rango n); cbn; [|discriminate].
    intros [= _ <- <-]. apply cambio_baja_habitacion.
  - unfold nuevo_Cliente, registrar_cliente. desplegar.
    unfold DatabaseManager.insertar_cliente. cbn [mem_cli].
    rewrite lookup_final. cbn [dpi nombres apellidos].
    destruct (existsb _ _) eqn:Hex; [discriminate|].
    cbn. intros [= _ <- <-]. now apply cambio_alta_cliente.
  - rewrite (actualizar_cliente_find s d nn na Hbf).
    destruct (find (cli_con_dpi s d) (clientes s)) as [c|] eqn:Hf;
      [|intros [= _ <- <-]; apply cambio_nada].
    pose proof Hf as Hp%find_primera.
    pose proof Hp as (_ & _ & _ & _ & (C & HC & Hd)%cli_con_dpi_true).
    desplegar. rewrite HC. cbn beta iota.
    assert (Hbf1 : bien_formado (poner_cliente c (con_nombres nn na C) s)).
    { apply bien_formado_poner_cliente; [assumption|].
      exact (bien_formado_cliente s c C Hbf HC). }
    rewrite (obtener_cliente_find _ d Hbf1). cbn [clientes poner_cliente].
    rewrite (find_igual _ (cli_con_dpi s d)), Hf.
    2:{ apply Forall_forall. intros y _. now apply cli_con_dpi_poner with (C := C). }
    unfold DatabaseManager.actualizar_cliente. cbn [mem_cli poner_cliente].
    rewrite list_lookup_insert_eq by (eapply lookup_lt_Some; eauto).
    cbn. intros [= _ <- <-]. apply cambio_nombres; [|assumption].
    now apply primera_elem in Hp.
  - unfold bind at 1 2. rewrite (obtener_cliente_find s d Hbf).
    rewrite (obtener_habitacion_find s n Hbf). unfold ret.
    destruct (find (cli_con_dpi s d) (clientes s)) as [c|] eqn:Hfc;
      [|destruct (find _ _); intros [= _ <- <-]; apply cambio_nada].
    destruct (find (hab_con_numero s n) (habitaciones s)) as [h|] eqn:Hfh;
      [|intros [= _ <- <-]; apply cambio_nada].
    pose proof Hfc as (_ & _ & _ & _ & (C & HC & Hd)%cli_con_dpi_true)%find_primera.
    pose proof Hfh as (_ & _ & _ & _ & (H & HH & Hn)%hab_con_numero_true)%find_primera.
    unfold nueva_Reserva. unfold bind.
    set (s1 := mkMundo (mem_hab s) (mem_cli s)
                 (mem_res s ++ [mkReserva c h fe fs "Activa"])
                 (habitaciones s) (clientes s) (reservas s)).
    rewrite (crear_reserva_eq s1 (length (mem_res s)) (mkReserva c h fe fs "Activa") H C);
      [|apply lookup_final|exact HH|exact HC].
    destruct (disponible H) eqn:Hdis.
    + unfold ret. unfold DatabaseManager.insertar_reserva.
      cbn [mem_res mem_cli mem_hab s1 cliente habitacion].
      rewrite lookup_final. cbn [cliente habitacion].
      rewrite !list_lookup_insert_eq by (eapply lookup_lt_Some; eauto).
      destruct (negb (DatabaseManager.en_rango _)); [discriminate|].
      destruct (negb (DatabaseManager.en_rango _)); [discriminate|].
      cbn. intros [= _ <- <-].
      exact (cambio_reserva s b c h fe fs C H
               (DatabaseManager.mkFilaReserva (DatabaseManager.siguiente_id b) _ _ _ _ _)
               HC HH Hdis).
    + unfold ret. intros [= _ <- <-]. apply cambio_reserva_fallida.
      * eapply lookup_lt_Some; eauto.
      * eapply lookup_lt_Some; eauto.
  - rewrite (modificar_reserva_find s d n fe fs Hbf).
    destruct (find (res_coincide s d n) (reservas s)) as [r|] eqn:Hf;
      [|intros [= _ <- <-]; apply cambio_nada].
    pose proof Hf as Hp%find_primera.
    pose proof Hp as (_ & _ & _ & _ & (R & C & H & HR & HC & HH & _)%res_coincide_true).
    desplegar. rewrite HR. cbn beta iota.
    assert (Hbf1 : bien_formado (poner_reserva r (con_fechas fe fs R) s)).
    { destruct (bien_formado_reserva s r R Hbf HR).
      now apply bien_formado_poner_reserva. }
    rewrite (reflejar_reserva_find _ b d n _ Hbf1 (bf_reservas _ Hbf1)).
    cbn [reservas poner_reserva].
    rewrite (find_tras_modificar s d n r R fe fs HR), Hf.
    unfold DatabaseManager.actualizar_reserva. cbn [mem_res mem_cli mem_hab poner_reserva].
    rewrite list_lookup_insert_eq by (eapply lookup_lt_Some; eauto).
    cbn [cliente habitacion con_fechas]. rewrite HC, HH.
    destruct (negb (DatabaseManager.en_rango _)); [discriminate|].
    cbn. intros [= _ <- <-]. apply cambio_fechas; [|assumption].
    now apply primera_elem in Hp.
  - pose proof (cancelar_reserva_efecto s d n Hbf) as He.
    destruct (find (res_coincide s d n) (reservas s)) as [r|] eqn:Hf;
      [|rewrite He; intros [= _ <- <-]; apply cambio_nada].
    destruct He as (R & H & HR & HH & He). rewrite He.
    pose proof Hf as Hp%find_primera.
    pose proof Hp as (_ & _ & _ & _ & (R' & C & H' & HR' & HC & _)%res_coincide_true).
    assert (R' = R) as -> by congruence.
    pose proof (cancelar_reserva_bien_formado d n s _ _ Hbf He) as Hbf1.
    rewrite (reflejar_reserva_find _ b d n _ Hbf1 (bf_reservas _ Hbf1)).
    cbn [reservas poner_habitacion poner_reserva].
    rewrite (find_tras_cancelar s d n r R H HR HH), Hf.
    unfold DatabaseManager.actualizar_reserva.
    cbn [mem_res mem_cli mem_hab poner_habitacion poner_reserva].
    rewrite !list_lookup_insert_eq by (eapply lookup_lt_Some; eauto).
    cbn [cliente habitacion con_estado]. rewrite HC.
    destruct (negb (DatabaseManager.en_rango _)); [discriminate|].
    cbn. intros [= _ <- <-]. apply cambio_cancelacion; try assumption.
    now apply primera_elem in Hp.
Qed.

(** ** What a live session keeps *)

Lemma NoDup_fmap_filter {A B} (f : A -> B) (P : A -> bool) (l : list A) :
  NoDup (f <$> l) -> NoDup (f <$> List.filter P l).
Proof.
  induction l as [|x l IH]; cbn; [auto|].
  intros [Hx Hl]%NoDup_cons. destruct (P x); cbn; [|auto].
  apply NoDup_cons. split; [|auto].
  intros (y & Hy & Hin)%list_elem_of_fmap. apply Hx.
  apply list_elem_of_fmap. exists y. split; [assumption|].
  apply list_elem_of_In in Hin. apply filter_In in Hin as [Hin _].
  now apply list_elem_of_In.
Qed.

Lemma NoDup_fmap_mismo {A B} (f : A -> B) (l : list A) (x y : A) :
  NoDup (f <$> l) -> x ∈ l -> y ∈ l -> f x = f y -> x = y.
Proof.
  induction l as [|a l IH]; cbn; [intros _ Hx; now apply elem_of_nil in Hx|].
  intros [Ha Hl]%NoDup_cons [->|Hx]%elem_of_cons [->|Hy]%elem_of_cons Hf.
  - reflexivity.
  - exfalso. apply Ha. rewrite Hf. now apply list_elem_of_fmap_2.
  - exfalso. apply Ha. rewrite <- Hf. now apply list_elem_of_fmap_2.
  - now apply IH.
Qed.

Lemma fmap_igual_en {A B} (f g : A -> B) (l : list A) :
  (forall x, x ∈ l -> f x = g x) -> f <$> l = g <$> l.
Proof.
  intros H. apply list_fmap_ext. intros i x Hx. apply H.
  eapply list_elem_of_lookup_2; eauto.
Qed.

Lemma numero_de_poner s h H H' y :
  mem_hab s !! h = Some H -> numero H' = numero H ->
  numero_de (poner_habitacion h H' s) y = numero_de s y.
Proof.
  intros HH Hn. unfold numero_de. cbn [mem_hab poner_habitacion].
  destruct (decide (h = y)) as [<-|Hne].
  - rewrite list_lookup_insert_eq by (eapply lookup_lt_Some; eauto).
    rewrite HH. cbn. now rewrite Hn.
  - now rewrite list_lookup_insert_ne.
Qed.

Lemma dpi_de_poner s c C C' y :
  mem_cli s !! c = Some C -> dpi C' = dpi C ->
  dpi_de (poner_cliente c C' s) y = dpi_de s y.
Proof.
  intros HC Hd. unfold dpi_de. cbn [mem_cli poner_cliente].
  destruct (decide (c = y)) as [<-|Hne].
  - rewrite list_lookup_insert_eq by (eapply lookup_lt_Some; eauto).
    rewrite HC. cbn. now rewrite Hd.
  - now rewrite list_lookup_insert_ne.
Qed.

Lemma habitaciones_reflejadas_numero s b h n :
  habitaciones_reflejadas s b -> h ∈ habitaciones s -> numero_de s h = Some n ->
  existsb (fun f => Z.eqb (DatabaseManager.fh_numero f) n)
          (DatabaseManager.t_habitaciones b) = true.
Proof.
  intros Hr Hin Hn. destruct (Hr h Hin) as (H & f & HH & Hf & Hnum & _).
  unfold numero_de in Hn. rewrite HH in Hn. injection Hn as <-.
  apply existsb_exists. exists f. split; [now apply list_elem_of_In|].
  now apply Z.eqb_eq.
Qed.

Lemma clientes_reflejados_dpi s b c d :
  clientes_reflejados s b -> c ∈ clientes s -> dpi_de s c = Some d ->
  existsb (fun f => String.eqb (DatabaseManager.fc_dpi f) d)
          (DatabaseManager.t_clientes b) = true.
Proof.
  intros Hr Hin Hd. destruct (Hr c Hin) as (C & f & HC & Hf & Hdpi & _).
  unfold dpi_de in Hd. rewrite HC in Hd. injection Hd as <-.
  apply existsb_exists. exists f. split; [now apply list_elem_of_In|].
  now apply String.eqb_eq.
Qed.

Lemma cambio_bien_formado s b s' b' :
  bien_formado s -> cambio s b s' b' -> bien_formado s'.
Proof.
  intros Hbf Hc. destruct Hc as
    [ | k n p Hr Hex | h H p Hin HH | n | nn na d Hex | c C nn na Hin HC
      | c h fe fs Hc Hh | c h fe fs C H fila HC HH Hd | r R fe fs g Hin HR
      | r R H g Hin HR HH ].
  - assumption.
  - pose proof (nueva_habitacion_bien_formado k n (etiqueta k) p s _ _ Hbf eq_refl) as Hbf1.
    refine (agregar_habitacion_bien_formado (length (mem_hab s)) _ tt _ Hbf1 _ eq_refl).
    cbn. rewrite length_app. cbn. lia.
  - now apply bien_formado_poner_habitacion.
  - now apply bien_formado_sin_numero.
  - pose proof (nuevo_Cliente_bien_formado nn na d s _ _ Hbf eq_refl) as Hbf1.
    refine (registrar_cliente_bien_formado (length (mem_cli s)) _ tt _ Hbf1 _ eq_refl).
    cbn. rewrite length_app. cbn. lia.
  - apply bien_formado_poner_cliente; [assumption|].
    exact (bien_formado_cliente s c C Hbf HC).
  - exact (nueva_Reserva_bien_formado c h fe fs s _ _ Hbf Hc Hh eq_refl).
  - assert (Hc : (c < length (mem_cli s))%nat) by (eapply lookup_lt_Some; eauto).
    assert (Hh : (h < length (mem_hab s))%nat) by (eapply lookup_lt_Some; eauto).
    pose proof (nueva_Reserva_bien_formado c h fe fs s _ _ Hbf Hc Hh eq_refl) as Hbf1.
    refine (crear_reserva_bien_formado (length (mem_res s)) _ true _ Hbf1 _).
    rewrite (crear_reserva_eq _ _ (mkReserva c h fe fs "Activa") H C);
      [|apply lookup_final|exact HH|exact HC].
    now rewrite Hd.
  - destruct (bien_formado_reserva s r R Hbf HR).
    now apply bien_formado_poner_reserva.
  - destruct (bien_formado_reserva s r R Hbf HR).
    apply (bien_formado_poner_habitacion (poner_reserva _ _ s)).
    now apply bien_formado_poner_reserva.
Qed.

Lemma reflejadas_poner s b s' b' h H H' :
  habitaciones_reflejadas s b -> mem_hab s !! h = Some H ->
  numero H' = numero H -> tipo H' = tipo H ->
  precio_por_noche H' = precio_por_noche H ->
  mem_hab s' = <[h := H']> (mem_hab s) -> habitaciones s' = habitaciones s ->
  DatabaseManager.t_habitaciones b' = DatabaseManager.t_habitaciones b ->
  habitaciones_reflejadas s' b'.
Proof.
  intros Hr HH Hn Ht Hp Hm Hhs Htb y Hy. rewrite Hhs in Hy. rewrite Hm, Htb.
  destruct (Hr y Hy) as (Y & f & HY & Hf & Ef).
  destruct (decide (h = y)) as [<-|Hne].
  - exists H', f. rewrite list_lookup_insert_eq by (eapply lookup_lt_Some; eauto).
    assert (Y = H) as -> by congruence.
    rewrite Hn, Ht, Hp. auto.
  - exists Y, f. rewrite list_lookup_insert_ne by assumption. auto.
Qed.

Lemma reflejados_poner s b s' b' c C C' :
  clientes_reflejados s b -> mem_cli s !! c = Some C ->
  dpi C' = dpi C -> nombres C' = nombres C -> apellidos C' = apellidos C ->
  mem_cli s' = <[c := C']> (mem_cli s) -> clientes s' = clientes s ->
  DatabaseManager.t_clientes b' = DatabaseManager.t_clientes b ->
  clientes_reflejados s' b'.
Proof.
  intros Hr HC Hd Hn Ha Hm Hcs Htb y Hy. rewrite Hcs in Hy. rewrite Hm, Htb.
  destruct (Hr y Hy) as (Y & f & HY & Hf & Ef).
  destruct (decide (c = y)) as [<-|Hne].
  - exists C', f. rewrite list_lookup_insert_eq by (eapply lookup_lt_Some; eauto).
    assert (Y = C) as -> by congruence.
    rewrite Hd, Hn, Ha. auto.
  - exists Y, f. rewrite list_lookup_insert_ne by assumption. auto.
Qed.

Lemma numeros_poner s s' h H H' :
  NoDup (numero_de s <$> habitaciones s) -> mem_hab s !! h = Some H ->
  numero H' = numero H ->
  mem_hab s' = <[h := H']> (mem_hab s) -> habitaciones s' = habitaciones s ->
  NoDup (numero_de s' <$> habitaciones s').
Proof.
  intros Hnd HH Hn Hm Hhs. rewrite Hhs.
  rewrite (fmap_igual_en (numero_de s') (numero_de s)); [assumption|].
  intros y _. rewrite <- (numero_de_poner s h H H' y HH Hn).
  unfold numero_de. now rewrite Hm.
Qed.

Lemma dpis_poner s s' c C C' :
  NoDup (dpi_de s <$> clientes s) -> mem_cli s !! c = Some C ->
  dpi C' = dpi C ->
  mem_cli s' = <[c := C']> (mem_cli s) -> clientes s' = clientes s ->
  NoDup (dpi_de s' <$> clientes s').
Proof.
  intros Hnd HC Hd Hm Hcs. rewrite Hcs.
  rewrite (fmap_igual_en (dpi_de s') (dpi_de s)); [assumption|].
  intros y _. rewrite <- (dpi_de_poner s c C C' y HC Hd).
  unfold dpi_de. now rewrite Hm.
Qed.

Lemma cambio_coherente k s b s' b' :
  sesion_coherente k s b -> cambio s b s' b' -> sesion_coherente k s' b'.
Proof.
  intros Hsc Hc.
  pose proof (cambio_bien_formado s b s' b' (sc_bien_formado _ _ _ Hsc) Hc) as Hbf'.
  destruct Hsc as [Hbf Hhab Hcli Hnum Hdpi Hres Hfil].
  destruct Hc as
    [ | k0 n p Hr Hex | h H p Hin HH | n | nn na d Hex | c C nn na Hin HC
      | c h fe fs Hc Hh | c h fe fs C H fila HC HH Hd | r R fe fs g Hin HR
      | r R H g Hin HR HH ].
  - now split.
  - split; try assumption.
    + intros y [Hy | ->%list_elem_of_singleton]%elem_of_app.
      * destruct (Hhab y Hy) as (Y & f & HY & Hf & Ef).
        exists Y, f. cbn. split; [now apply lookup_app_l_Some|].
        split; [apply elem_of_app; now left | exact Ef].
      * eexists _, _. cbn. split; [apply lookup_final|].
        split; [apply elem_of_app; right; now apply list_elem_of_singleton|].
        cbn. auto.
    + cbn [habitaciones]. rewrite fmap_app. apply NoDup_app. split; [|split].
      * rewrite (fmap_igual_en _ (numero_de s)); [assumption|].
        intros y Hy. unfold numero_de. cbn [mem_hab].
        destruct (Hhab y Hy) as (Y & _ & HY & _).
        now rewrite HY, (lookup_app_l_Some _ _ _ _ HY).
      * intros x (y & -> & Hy)%list_elem_of_fmap Hx.
        cbn in Hx. apply list_elem_of_singleton in Hx.
        unfold numero_de in Hx at 2. cbn [mem_hab] in Hx.
        rewrite lookup_final in Hx. cbn in Hx.
        assert (Hy' : numero_de s y = Some n).
        { rewrite <- Hx. unfold numero_de. cbn [mem_hab].
          destruct (Hhab y Hy) as (Y & _ & HY & _).
          now rewrite HY, (lookup_app_l_Some _ _ _ _ HY). }
        pose proof (habitaciones_reflejadas_numero s b y n Hhab Hy Hy'). congruence.
      * cbn. apply NoDup_singleton.
  - split; try assumption.
    + intros y Hy. cbn [habitaciones poner_habitacion] in Hy.
      destruct (Hhab y Hy) as (Y & f & HY & Hf & En & Et & Ep).
      cbn [mem_hab poner_habitacion DatabaseManager.t_habitaciones].
      destruct (decide (h = y)) as [<-|Hne].
      * assert (Y = H) as -> by congruence.
        exists (con_precio p H),
          (DatabaseManager.mkFilaHabitacion (DatabaseManager.fh_numero f) (tipo H)
             (DatabaseManager.real_de_float p)
             (DatabaseManager.int_de_bool (disponible H))).
        split; [apply list_lookup_insert_eq; eapply lookup_lt_Some; eauto|].
        split; [|cbn; auto].
        apply list_elem_of_In, in_map_iff. exists f.
        split; [|now apply list_elem_of_In].
        now rewrite En, Z.eqb_refl.
      * exists Y, f. split; [now rewrite list_lookup_insert_ne|].
        split; [|auto].
        apply list_elem_of_In, in_map_iff. exists f.
        split; [|now apply list_elem_of_In].
        destruct (Z.eqb_spec (DatabaseManager.fh_numero f) (numero H)) as [Heq|]; [|reflexivity].
        exfalso. apply Hne.
        apply (NoDup_fmap_mismo (numero_de s) (habitaciones s)); try assumption.
        unfold numero_de. rewrite HH, HY. cbn. congruence.
    + now apply (numeros_poner s _ h H (con_precio p H)).
  - split; try assumption.
    + intros y Hy. cbn [habitaciones con_habitaciones] in Hy.
      apply list_elem_of_In, filter_In in Hy as [Hy Hno].
      apply list_elem_of_In in Hy. apply negb_true_iff in Hno.
      destruct (Hhab y Hy) as (Y & f & HY & Hf & En & Ef).
      exists Y, f. split; [exact HY|]. split; [|auto].
      cbn. apply list_elem_of_In, filter_In. split; [now apply list_elem_of_In|].
      apply negb_true_iff, Z.eqb_neq. rewrite En.
      unfold hab_con_numero in Hno. rewrite HY in Hno. now apply Z.eqb_neq.
    + cbn [habitaciones con_habitaciones].
      change (numero_de (con_habitaciones
                (List.filter (fun h => negb (hab_con_numero s n h)) (habitaciones s)) s))
        with (numero_de s).
      now apply NoDup_fmap_filter.
  - split; try assumption.
    + intros y [Hy | ->%list_elem_of_singleton]%elem_of_app.
      * destruct (Hcli y Hy) as (Y & f & HY & Hf & Ef).
        exists Y, f. cbn. split; [now apply lookup_app_l_Some|].
        split; [apply elem_of_app; now left | exact Ef].
      * eexists _, _. cbn. split; [apply lookup_final|].
        split; [apply elem_of_app; right; now apply list_elem_of_singleton|].
        cbn. auto.
    + cbn [clientes]. rewrite fmap_app. apply NoDup_app. split; [|split].
      * rewrite (fmap_igual_en _ (dpi_de s)); [assumption|].
        intros y Hy. unfold dpi_de. cbn [mem_cli].
        destruct (Hcli y Hy) as (Y & _ & HY & _).
        now rewrite HY, (lookup_app_l_Some _ _ _ _ HY).
      * intros x (y & -> & Hy)%list_elem_of_fmap Hx.
        cbn in Hx. apply list_elem_of_singleton in Hx.
        unfold dpi_de in Hx at 2. cbn [mem_cli] in Hx.
        rewrite lookup_final in Hx. cbn in Hx.
        assert (Hy' : dpi_de s y = Some d).
        { rewrite <- Hx. unfold dpi_de. cbn [mem_cli].
          destruct (Hcli y Hy) as (Y & _ & HY & _).
          now rewrite HY, (lookup_app_l_Some _ _ _ _ HY). }
        pose proof (clientes_reflejados_dpi s b y d Hcli Hy Hy'). congruence.
      * cbn. apply NoDup_singleton.
  - split; try assumption.
    + intros y Hy. cbn [clientes poner_cliente] in Hy.
      destruct (Hcli y Hy) as (Y & f & HY & Hf & Ed & En & Ea).
      cbn [mem_cli poner_cliente DatabaseManager.t_clientes].
      destruct (decide (c = y)) as [<-|Hne].
      * assert (Y = C) as -> by congruence.
        exists (con_nombres nn na C),
          (DatabaseManager.mkFilaCliente (DatabaseManager.fc_dpi f) nn na).
        split; [apply list_lookup_insert_eq; eapply lookup_lt_Some; eauto|].
        split; [|cbn; auto].
        apply list_elem_of_In, in_map_iff. exists f.
        split; [|now apply list_elem_of_In].
        now rewrite Ed, String.eqb_refl.
      * exists Y, f. split; [now rewrite list_lookup_insert_ne|].
        split; [|auto].
        apply list_elem_of_In, in_map_iff. exists f.
        split; [|now apply list_elem_of_In].
        destruct (String.eqb_spec (DatabaseManager.fc_dpi f) (dpi C)) as [Heq|]; [|reflexivity].
        exfalso. apply Hne.
        apply (NoDup_fmap_mismo (dpi_de s) (clientes s)); try assumption.
        unfold dpi_de. rewrite HC, HY. cbn. congruence.
    + now apply (dpis_poner s _ c C (con_nombres nn na C)).
  - now split.
  - split; try assumption.
    + now apply (reflejadas_poner s b _ _ h H (con_disponible false H)).
    + now apply (reflejados_poner s b _ _ c C
                   (con_reservas (cli_reservas C ++ [length (mem_res s)]) C)).
    + now apply (numeros_poner s _ h H (con_disponible false H)).
    + now apply (dpis_poner s _ c C
                   (con_reservas (cli_reservas C ++ [length (mem_res s)]) C)).
    + cbn [reservas]. apply NoDup_app. split; [assumption|]. split; [|apply NoDup_singleton].
      intros x Hx ->%list_elem_of_singleton.
      pose proof (bf_reservas _ Hbf) as Hv. rewrite Forall_forall in Hv.
      specialize (Hv _ Hx). lia.
    + cbn. rewrite !length_app, Hfil. cbn. lia.
  - split; try assumption. cbn. now rewrite length_map.
  - split; try assumption.
    + now apply (reflejadas_poner s b _ _ (habitacion R) H (con_disponible true H)).
    + now apply (numeros_poner s _ (habitacion R) H (con_disponible true H)).
    + cbn. now rewrite length_map.
Qed.

Lemma sesion_coherente_inicial b0 :
  sesion_coherente (length (DatabaseManager.t_reservas b0)) inicial b0.
Proof.
  split; cbn.
  - apply inicial_bien_formado.
  - intros h Hh. now apply elem_of_nil in Hh.
  - intros c Hc. now apply elem_of_nil in Hc.
  - apply NoDup_nil_2.
  - apply NoDup_nil_2.
  - apply NoDup_nil_2.
  - lia.
Qed.

Lemma sesion_conserva k ordenes s b s' b' :
  sesion_coherente k s b -> sesion ordenes s b = Some (Viva s' b') ->
  sesion_coherente k s' b'.
Proof.
  revert s b. induction ordenes as [|o resto IH]; intros s b Hsc; cbn.
  - now intros [= <- <-].
  - destruct (atender o s b) as [[m s1 b1 | e s1 b1]|] eqn:Ha; try discriminate.
    apply IH. eapply cambio_coherente; [exact Hsc|].
    eapply atender_cambio; [apply (sc_bien_formado _ _ _ Hsc) | exact Ha].
Qed.

Lemma sesion_viva_coherente ordenes b0 s b :
  sesion ordenes inicial b0 = Some (Viva s b) ->
  sesion_coherente (length (DatabaseManager.t_reservas b0)) s b.
Proof. apply sesion_conserva, sesion_coherente_inicial. Qed.

(** X13.  While a shell session is alive, no two registered rooms have the
    same number and no two registered clients the same DPI, whatever the
    tables held when the session began: the manager would accept the
    duplicate, but the mirrored INSERT raises and ends the session. *)
Theorem claves_unicas_en_sesion (ordenes : list Orden) (b0 : DatabaseManager.Base)
    (s : Mundo) (b : DatabaseManager.Base) :
  sesion ordenes inicial b0 = Some (Viva s b) ->
  NoDup (numero_de s <$> habitaciones s) /\
  NoDup (dpi_de s <$> clientes s) /\
  (forall h1 h2, h1 ∈ habitaciones s -> h2 ∈ habitaciones s ->
     numero_de s h1 = numero_de s h2 -> h1 = h2) /\
  (forall c1 c2, c1 ∈ clientes s -> c2 ∈ clientes s ->
     dpi_de s c1 = dpi_de s c2 -> c1 = c2).
Proof.
  intros Hs. destruct (sesion_viva_coherente ordenes b0 s b Hs)
    as [_ _ _ Hnum Hdpi _ _].
  split; [assumption|]. split; [assumption|]. split.
  - intros h1 h2. now apply NoDup_fmap_mismo.
  - intros c1 c2. now apply NoDup_fmap_mismo.
Qed.

Lemma claves_unicas_en_sesion_testigo :
  sesion ordenes_ana inicial base_vacia = Some (Viva mundo_sesion_ana base_sesion_ana) /\
  NoDup (numero_de mundo_sesion_ana <$> habitaciones mundo_sesion_ana) /\
  exists s b,
    sesion [RegistrarHabitacion 101 "1" 100%float; RegistrarHabitacion 101 "2" 90%float]
           inicial base_vacia = Some (Caida DatabaseManager.IntegrityError s b).
Proof.
  assert (Hs : sesion ordenes_ana inicial base_vacia =
               Some (Viva mundo_sesion_ana base_sesion_ana)) by reflexivity.
  split; [exact Hs|]. split; [|eexists _, _; vm_compute; reflexivity].
  exact (proj1 (claves_unicas_en_sesion ordenes_ana base_vacia _ _ Hs)).
Defined.

(** X14.  While a shell session is alive, every registered room has a row
    of [habitaciones] with its number, its label and its price as the REAL
    column keeps it (NULL for NaN, 0.0 for either zero, otherwise the same
    binary64 value), and every registered client a row of [clientes] with
    its DPI and names. *)
Theorem registros_reflejados_en_sesion (ordenes : list Orden)
    (b0 : DatabaseManager.Base) (s : Mundo) (b : DatabaseManager.Base) :
  sesion ordenes inicial b0 = Some (Viva s b) ->
  habitaciones_reflejadas s b /\ clientes_reflejados s b /\
  (forall h, h ∈ habitaciones s ->
     exists H f,
       mem_hab s !! h = Some H /\ f ∈ DatabaseManager.t_habitaciones b /\
       DatabaseManager.fh_numero f = numero H /\
       DatabaseManager.fh_tipo f = tipo H /\
       (PrimFloat.is_nan (precio_por_noche H) = true ->
        DatabaseManager.fh_precio_por_noche f = None) /\
       (PrimFloat.is_nan (precio_por_noche H) = false ->
        PrimFloat.eqb (precio_por_noche H) 0%float = true ->
        DatabaseManager.fh_precio_por_noche f = Some 0%float) /\
       (PrimFloat.is_nan (precio_por_noche H) = false ->
        PrimFloat.eqb (precio_por_noche H) 0%float = false ->
        DatabaseManager.fh_precio_por_noche f = Some (precio_por_noche H))) /\
  (forall c, c ∈ clientes s ->
     exists C f,
       mem_cli s !! c = Some C /\ f ∈ DatabaseManager.t_clientes b /\
       f = DatabaseManager.mkFilaCliente (dpi C) (nombres C) (apellidos C)).
Proof.
  intros Hs. destruct (sesion_viva_coherente ordenes b0 s b Hs)
    as [_ Hhab Hcli _ _ _ _].
  split; [assumption|]. split; [assumption|]. split.
  - intros h Hh. destruct (Hhab h Hh) as (H & f & HH & Hf & Hn & Ht & Hp).
    exists H, f. do 4 (split; [assumption|]).
    unfold DatabaseManager.real_de_float in Hp.
    repeat split.
    + intros Hnan. now rewrite Hnan in Hp.
    + intros Hnan Hz. now rewrite Hnan, Hz in Hp.
    + intros Hnan Hz. now rewrite Hnan, Hz in Hp.
  - intros c Hc. destruct (Hcli c Hc) as (C & f & HC & Hf & Hd & Hn & Ha).
    exists C, f. split; [assumption|]. split; [assumption|].
    destruct f. cbn in Hd, Hn, Ha. now subst.
Qed.

Lemma registros_reflejados_en_sesion_testigo :
  sesion ordenes_precios inicial base_vacia =
    Some (Viva mundo_precios base_precios) /\
  precio_por_noche <$> mem_hab mundo_precios =
    [PrimFloat.neg_zero; PrimFloat.nan; 250%float] /\
  DatabaseManager.fh_precio_por_noche <$> DatabaseManager.t_habitaciones base_precios =
    [Some 0%float; None; Some 250%float] /\
  habitaciones_reflejadas mundo_precios base_precios /\
  clientes_reflejados mundo_precios base_precios.
Proof.
  assert (Hs : sesion ordenes_precios inicial base_vacia =
               Some (Viva mundo_precios base_precios)) by reflexivity.
  split; [exact Hs|]. split; [reflexivity|]. split; [reflexivity|].
  destruct (registros_reflejados_en_sesion ordenes_precios base_vacia _ _ Hs)
    as (Hhab & Hcli & _).
  split; assumption.
Defined.

(** X15.  While a shell session is alive, each reservation object is
    registered at most once, and the table [reservas] has gained exactly
    one row per registered reservation: bookings insert one row, and
    neither date changes nor cancellations add or delete rows. *)
Theorem reservas_y_filas_en_sesion (ordenes : list Orden)
    (b0 : DatabaseManager.Base) (s : Mundo) (b : DatabaseManager.Base) :
  sesion ordenes inicial b0 = Some (Viva s b) ->
  NoDup (reservas s) /\
  length (DatabaseManager.t_reservas b) =
    (length (DatabaseManager.t_reservas b0) + length (reservas s))%nat.
Proof.
  intros Hs. destruct (sesion_viva_coherente ordenes b0 s b Hs)
    as [_ _ _ _ _ Hres Hfil].
  now split.
Qed.

Lemma reservas_y_filas_en_sesion_testigo :
  sesion ordenes_ana inicial base_vacia = Some (Viva mundo_sesion_ana base_sesion_ana) /\
  NoDup (reservas mundo_sesion_ana) /\
  length (DatabaseManager.t_reservas base_sesion_ana) = 2%nat.
Proof.
  assert (Hs : sesion ordenes_ana inicial base_vacia =
               Some (Viva mundo_sesion_ana base_sesion_ana)) by reflexivity.
  split; [exact Hs|].
  exact (reservas_y_filas_en_sesion ordenes_ana base_vacia _ _ Hs).
Defined.

(** ** ISO dates *)

Lemma digito_inyectivo a b :
  DatabaseManager.digito a = DatabaseManager.digito b -> a mod 10 = b mod 10.
Proof.
  unfold DatabaseManager.digito. intros H.
  assert (Ha := Z.mod_pos_bound a 10 eq_refl).
  assert (Hb := Z.mod_pos_bound b 10 eq_refl).
  apply (f_equal nat_of_ascii) in H.
  rewrite !nat_ascii_embedding in H; lia.
Qed.

(** X18.  [isoformat] loses nothing: two dates (year below 10000, month
    and day below 100, as every [datetime] has) that are mirrored as the
    same ISO string are the same date. *)
Theorem isoformat_inyectivo (f g : datetime) :
  0 <= anio f < 10000 -> 0 <= mes f < 100 -> 0 <= dia f < 100 ->
  0 <= anio g < 10000 -> 0 <= mes g < 100 -> 0 <= dia g < 100 ->
  DatabaseManager.isoformat f = DatabaseManager.isoformat g -> f = g.
Proof.
  intros Haf Hmf Hdf Hag Hmg Hdg. unfold DatabaseManager.isoformat.
  unfold DatabaseManager.cuatro_digitos at 1 2.
  unfold DatabaseManager.dos_digitos at 1 2 3 4 5 6. cbn [String.append].
  intros [= A3%digito_inyectivo A2%digito_inyectivo A1%digito_inyectivo
            A0%digito_inyectivo M1%digito_inyectivo M0%digito_inyectivo
            D1%digito_inyectivo D0%digito_inyectivo].
  destruct f as [af mf df], g as [ag mg dg]. cbn in *.
  f_equal; Z.div_mod_to_equations; lia.
Qed.

Lemma isoformat_inyectivo_testigo :
  DatabaseManager.isoformat ene10 = "2024-01-10T00:00:00" /\
  (DatabaseManager.isoformat ene10 = DatabaseManager.isoformat (mkfecha 2024 1 10) ->
   ene10 = mkfecha 2024 1 10).
Proof.
  split; [reflexivity|].
  apply (isoformat_inyectivo ene10 (mkfecha 2024 1 10)); cbn; lia.
Defined.

(** ** What a menu entry prints and mirrors *)

Lemma tras_sql_continua m0 s0 b0 r m s' b' :
  tras_sql m0 s0 b0 r = Some (Continua m s' b') ->
  m = m0 /\ s' = s0 /\ r = Some (DatabaseManager.Hecho b').
Proof.
  unfold tras_sql. destruct r as [[b1|e]|]; try discriminate.
  now intros [= <- <- <-].
Qed.

(** X16.  The two messages that report a failed mirror update are never
    printed: when [modificar_habitacion] (or [actualizar_cliente]) has
    succeeded, the lookup that follows it finds the object again.  A room
    or client entry that returns to the menu prints one of the other
    messages of its branch. *)
Theorem ramas_de_error_inalcanzables (s : Mundo) (b : DatabaseManager.Base) :
  bien_formado s ->
  (forall n p m s' b',
     atender (ModificarHabitacion n p) s b = Some (Continua m s' b') ->
     m = "Habitación modificada con éxito." \/ m = "No se encontró la habitación.") /\
  (forall d nn na m s' b',
     atender (ActualizarCliente d nn na) s b = Some (Continua m s' b') ->
     m = "Información del cliente actualizada con éxito." \/
     m = "No se encontró el cliente.").
Proof.
  intros Hbf. split.
  - intros n p m s' b'. cbn [atender].
    rewrite (modificar_habitacion_find s n p Hbf).
    destruct (find (hab_con_numero s n) (habitaciones s)) as [h|] eqn:Hf;
      [|intros [= <- _ _]; now right].
    pose proof Hf as (_ & _ & _ & _ & (H & HH & Hn)%hab_con_numero_true)%find_primera.
    desplegar. rewrite HH. cbn beta iota.
    rewrite (obtener_habitacion_find _ n (bien_formado_poner_habitacion s h _ Hbf)).
    cbn [habitaciones poner_habitacion].
    rewrite (find_igual _ (hab_con_numero s n)), Hf.
    2:{ apply Forall_forall. intros y _. now apply hab_con_numero_poner with (H := H). }
    intros (-> & _)%tras_sql_continua. now left.
  - intros d nn na m s' b'. cbn [atender].
    rewrite (actualizar_cliente_find s d nn na Hbf).
    destruct (find (cli_con_dpi s d) (clientes s)) as [c|] eqn:Hf;
      [|intros [= <- _ _]; now right].
    pose proof Hf as (_ & _ & _ & _ & (C & HC & Hd)%cli_con_dpi_true)%find_primera.
    desplegar. rewrite HC. cbn beta iota.
    assert (Hbf1 : bien_formado (poner_cliente c (con_nombres nn na C) s)).
    { apply bien_formado_poner_cliente; [assumption|].
      exact (bien_formado_cliente s c C Hbf HC). }
    rewrite (obtener_cliente_find _ d Hbf1). cbn [clientes poner_cliente].
    rewrite (find_igual _ (cli_con_dpi s d)), Hf.
    2:{ apply Forall_forall. intros y _. now apply cli_con_dpi_poner with (C := C). }
    intros (-> & _)%tras_sql_continua. now left.
Qed.

Lemma ramas_de_error_inalcanzables_testigo :
  bien_formado mundo_ana /\
  exists m s' b',
    atender (ModificarHabitacion 101 80%float) mundo_ana base_vacia =
      Some (Continua m s' b') /\
    m = "Habitación modificada con éxito.".
Proof.
  assert (Hbf : bien_formado mundo_ana) by resolver_bf.
  split; [exact Hbf|].
  destruct (atender (ModificarHabitacion 101 80%float) mundo_ana base_vacia)
    as [[m s' b'|e s' b']|] eqn:Ha; try (vm_compute in Ha; discriminate).
  exists m, s', b'. split; [reflexivity|].
  destruct (ramas_de_error_inalcanzables mundo_ana base_vacia Hbf) as [Hmod _].
  destruct (Hmod 101 80%float m s' b' Ha) as [->| ->]; [reflexivity|].
  vm_compute in Ha. discriminate.
Defined.

Lemma lookup_map {A B} (g : A -> B) (l : list A) (i : nat) :
  map g l !! i = g <$> l !! i.
Proof.
  revert i. induction l as [|x l IH]; intros [|i]; cbn; auto.
Qed.

(** X17.  A cancellation through the shell that reports success rewrites
    every row of [reservas] that has the typed pair: each such row ends
    with status Cancelada and with the dates of the first matching
    reservation of the manager, whichever reservation the row mirrored.
    Rows of other pairs and the number of rows are unchanged. *)
Theorem cancelacion_reescribe_todas_las_filas (s : Mundo) (b : DatabaseManager.Base)
    (d : string) (n : Z) (m : string) (s' : Mundo) (b' : DatabaseManager.Base) :
  bien_formado s ->
  atender (CancelarReserva d n) s b = Some (Continua m s' b') ->
  m = "Reserva cancelada con éxito." ->
  exists r R,
    primera (res_coincide s d n) (reservas s) r /\
    mem_res s !! r = Some R /\
    cancelar_reserva d n s = Some (true, s') /\
    length (DatabaseManager.t_reservas b') = length (DatabaseManager.t_reservas b) /\
    (forall i f,
       DatabaseManager.t_reservas b !! i = Some f ->
       exists f',
         DatabaseManager.t_reservas b' !! i = Some f' /\
         if String.eqb (DatabaseManager.fr_cliente_dpi f) d
            && Z.eqb (DatabaseManager.fr_habitacion_numero f) n
         then f' = DatabaseManager.mkFilaReserva
                     (DatabaseManager.fr_id f) d n
                     (DatabaseManager.isoformat (fecha_entrada R))
                     (DatabaseManager.isoformat (fecha_salida R)) "Cancelada"
         else f' = f).
Proof.
  intros Hbf Ha Hm. cbn [atender] in Ha.
  pose proof (cancelar_reserva_efecto s d n Hbf) as He.
  destruct (find (res_coincide s d n) (reservas s)) as [r|] eqn:Hf.
  2:{ rewrite He in Ha. injection Ha as <- _ _. discriminate. }
  destruct He as (R & H & HR & HH & He). rewrite He in Ha.
  pose proof Hf as Hp%find_primera.
  pose proof Hp as (_ & _ & _ & _ & (R' & C & H' & HR' & HC & HH' & Hd & Hn)%res_coincide_true).
  assert (R' = R) as -> by congruence. assert (H' = H) as -> by congruence.
  pose proof (cancelar_reserva_bien_formado d n s _ _ Hbf He) as Hbf1.
  rewrite (reflejar_reserva_find _ b d n _ Hbf1 (bf_reservas _ Hbf1)) in Ha.
  cbn [reservas poner_habitacion poner_reserva] in Ha.
  rewrite (find_tras_cancelar s d n r R H HR HH), Hf in Ha.
  unfold DatabaseManager.actualizar_reserva in Ha.
  cbn [mem_res mem_cli mem_hab poner_habitacion poner_reserva] in Ha.
  rewrite !list_lookup_insert_eq in Ha by (eapply lookup_lt_Some; eauto).
  cbn [cliente habitacion con_estado con_disponible numero
       fecha_entrada fecha_salida estado] in Ha.
  rewrite HC in Ha.
  destruct (negb (DatabaseManager.en_rango (numero H))); [discriminate|].
  cbn in Ha. injection Ha as _ <- <-.
  exists r, R. split; [assumption|]. split; [assumption|]. split; [assumption|].
  cbn [DatabaseManager.t_reservas]. split; [apply length_map|].
  intros i f Hi. eexists. split.
  - rewrite lookup_map, Hi. reflexivity.
  - cbn beta. rewrite Hd, Hn.
    destruct (String.eqb_spec (DatabaseManager.fr_cliente_dpi f) d) as [Ed|]; [|reflexivity].
    destruct (Z.eqb_spec (DatabaseManager.fr_habitacion_numero f) n) as [En|]; [|reflexivity].
    cbn. now rewrite Ed, En.
Qed.

Lemma cancelacion_reescribe_todas_las_filas_testigo :
  bien_formado mundo_sesion_antes /\
  atender (CancelarReserva "CF1" 101) mundo_sesion_antes base_sesion_antes =
    Some (Continua "Reserva cancelada con éxito." mundo_sesion_ana base_sesion_ana) /\
  estado <$> mem_res mundo_sesion_ana !! 1%nat = Some "Activa" /\
  DatabaseManager.fr_estado <$> DatabaseManager.t_reservas base_sesion_ana !! 1%nat =
    Some "Cancelada" /\
  length (DatabaseManager.t_reservas base_sesion_ana) =
    length (DatabaseManager.t_reservas base_sesion_antes).
Proof.
  assert (Hbf : bien_formado mundo_sesion_antes) by resolver_bf.
  assert (Ha : atender (CancelarReserva "CF1" 101) mundo_sesion_antes base_sesion_antes =
               Some (Continua "Reserva cancelada con éxito."
                       mundo_sesion_ana base_sesion_ana)) by reflexivity.
  split; [exact Hbf|]. split; [exact Ha|].
  destruct (cancelacion_reescribe_todas_las_filas _ _ _ _ _ _ _ Hbf Ha eq_refl)
    as (r & R & _ & _ & _ & Hlen & _).
  split; [reflexivity|]. split; [reflexivity|]. exact Hlen.
Defined.

(** X19.  The booking entry of the shell books for the first registered
    client with the typed DPI the first registered room with the typed
    number.  With both found and the room available, a reservation object
    is built and booked (room flagged unavailable, reservation appended to
    the registry and to the client's list); then, if the typed number is a
    signed 64-bit integer and AUTOINCREMENT has an id left, one row with
    that id, the typed DPI and number, the two ISO dates and status Activa
    is appended to [reservas] and the entry returns to the menu; otherwise
    the adapter raises, no row is appended and the session ends with the
    reservation registered.  With both found and the room unavailable, a
    reservation object is built, but no registry, no room, no client and
    no table changes.  With the client or the room missing, nothing
    changes. *)
Theorem realizar_reserva_correcta (s : Mundo) (b : DatabaseManager.Base)
    (d : string) (n : Z) (fe fs : datetime) :
  bien_formado s ->
  (forall c h C H,
     primera (cli_con_dpi s d) (clientes s) c ->
     primera (hab_con_numero s n) (habitaciones s) h ->
     mem_cli s !! c = Some C -> mem_hab s !! h = Some H ->
     disponible H = true ->
     exists s',
       s' = mkMundo
              (<[h := mkHabitacion (clase H) (numero H) (tipo H)
                        (precio_por_noche H) false]> (mem_hab s))
              (<[c := mkCliente (nombres C) (apellidos C) (dpi C)
                        (cli_reservas C ++ [length (mem_res s)])]> (mem_cli s))
              (mem_res s ++ [mkReserva c h fe fs "Activa"])
              (habitaciones s) (clientes s)
              (reservas s ++ [length (mem_res s)]) /\
       esta_disponible s' h = false /\
       atender (RealizarReserva d n fe fs) s b =
         Some (if negb (DatabaseManager.en_rango n)
               then Abortada DatabaseManager.OverflowError s' b
               else if negb (DatabaseManager.en_rango (DatabaseManager.siguiente_id b))
               then Abortada DatabaseManager.DatabaseFull s' b
               else Continua "Reserva creada con éxito." s'
                      (DatabaseManager.mkBase
                         (DatabaseManager.t_habitaciones b)
                         (DatabaseManager.t_clientes b)
                         (DatabaseManager.t_reservas b ++
                            [DatabaseManager.mkFilaReserva
                               (DatabaseManager.siguiente_id b) d n
                               (DatabaseManager.isoformat fe)
                               (DatabaseManager.isoformat fs) "Activa"])
                         (DatabaseManager.siguiente_id b)))) /\
  (forall c h,
     primera (cli_con_dpi s d) (clientes s) c ->
     primera (hab_con_numero s n) (habitaciones s) h ->
     esta_disponible s h = false ->
     atender (RealizarReserva d n fe fs) s b =
       Some (Continua
               "No se pudo crear la reserva. La habitación no está disponible."
               (mkMundo (mem_hab s) (mem_cli s)
                        (mem_res s ++ [mkReserva c h fe fs "Activa"])
                        (habitaciones s) (clientes s) (reservas s))
               b)) /\
  ((forall c, c ∈ clientes s -> cli_con_dpi s d c = false) \/
   (forall h, h ∈ habitaciones s -> hab_con_numero s n h = false) ->
   atender (RealizarReserva d n fe fs) s b =
     Some (Continua "Cliente o habitación no encontrados." s b)).
Proof.
  intros Hbf.
  assert (Hat : atender (RealizarReserva d n fe fs) s b =
    match find (cli_con_dpi s d) (clientes s),
          find (hab_con_numero s n) (habitaciones s) with
    | Some c, Some h =>
        match (r <- nueva_Reserva c h fe fs ;;
               ok <- crear_reserva r ;; ret (r, ok)) s with
        | Some ((r, true), s2) =>
            tras_sql "Reserva creada con éxito." s2 b
              (DatabaseManager.insertar_reserva r s2 b)
        | Some ((_, false), s2) =>
            Some (Continua
              "No se pudo crear la reserva. La habitación no está disponible." s2 b)
        | None => None
        end
    | _, _ => Some (Continua "Cliente o habitación no encontrados." s b)
    end).
  { cbn [atender]. unfold bind at 1 2.
    rewrite (obtener_cliente_find s d Hbf), (obtener_habitacion_find s n Hbf).
    unfold ret.
    destruct (find (cli_con_dpi s d) (clientes s));
      destruct (find (hab_con_numero s n) (habitaciones s)); reflexivity. }
  assert (Hcr : forall c h C H,
    mem_cli s !! c = Some C -> mem_hab s !! h = Some H ->
    (r <- nueva_Reserva c h fe fs ;; ok <- crear_reserva r ;; ret (r, ok)) s =
      Some (if disponible H
            then ((length (mem_res s), true),
                  mkMundo (<[h := con_disponible false H]> (mem_hab s))
                          (<[c := con_reservas
                                    (cli_reservas C ++ [length (mem_res s)]) C]>
                             (mem_cli s))
                          (mem_res s ++ [mkReserva c h fe fs "Activa"])
                          (habitaciones s) (clientes s)
                          (reservas s ++ [length (mem_res s)]))
            else ((length (mem_res s), false),
                  mkMundo (mem_hab s) (mem_cli s)
                          (mem_res s ++ [mkReserva c h fe fs "Activa"])
                          (habitaciones s) (clientes s) (reservas s)))).
  { intros c h C H HC HH. unfold nueva_Reserva. unfold bind.
    set (s1 := mkMundo (mem_hab s) (mem_cli s)
                 (mem_res s ++ [mkReserva c h fe fs "Activa"])
                 (habitaciones s) (clientes s) (reservas s)).
    rewrite (crear_reserva_eq s1 (length (mem_res s))
               (mkReserva c h fe fs "Activa") H C);
      [|apply lookup_final|exact HH|exact HC].
    now destruct (disponible H). }
  split; [|split].
  - intros c h C H Hpc Hph HC HH Hdis.
    pose proof Hpc as (_ & _ & _ & _ & (C' & HC' & Hd)%cli_con_dpi_true).
    pose proof Hph as (_ & _ & _ & _ & (H' & HH' & Hn)%hab_con_numero_true).
    assert (C' = C) as -> by congruence. assert (H' = H) as -> by congruence.
    subst d n. eexists. split; [reflexivity|]. split.
    { unfold esta_disponible. cbn.
      now rewrite list_lookup_insert_eq by (eapply lookup_lt_Some; eauto). }
    rewrite Hat, (primera_find _ _ _ Hpc), (primera_find _ _ _ Hph).
    rewrite (Hcr c h C H HC HH), Hdis.
    unfold tras_sql, DatabaseManager.insertar_reserva.
    cbn [mem_res mem_cli mem_hab cliente habitacion].
    rewrite lookup_final. cbn [cliente habitacion].
    rewrite !list_lookup_insert_eq by (eapply lookup_lt_Some; eauto).
    cbn [numero dpi con_disponible con_reservas fecha_entrada fecha_salida estado].
    destruct (negb (DatabaseManager.en_rango (numero H))); [reflexivity|].
    destruct (negb (DatabaseManager.en_rango (DatabaseManager.siguiente_id b)));
      reflexivity.
  - intros c h Hpc Hph Hocu.
    pose proof Hpc as (_ & _ & _ & _ & (C & HC & Hd)%cli_con_dpi_true).
    pose proof Hph as (_ & _ & _ & _ & (H & HH & Hn)%hab_con_numero_true).
    unfold esta_disponible in Hocu. rewrite HH in Hocu.
    rewrite Hat, (primera_find _ _ _ Hpc), (primera_find _ _ _ Hph).
    now rewrite (Hcr c h C H HC HH), Hocu.
  - intros [Hno|Hno]; apply find_ninguna_elem in Hno; rewrite Hat, Hno;
      [reflexivity | now destruct (find _ _)].
Qed.

Lemma realizar_reserva_correcta_testigo :
  bien_formado mundo_registrado /\
  (exists s',
     atender (RealizarReserva "CF1" 101 ene10 ene12) mundo_registrado base_vacia =
       Some (Continua "Reserva creada con éxito." s'
               (DatabaseManager.mkBase [] []
                  [DatabaseManager.mkFilaReserva 1 "CF1" 101
                     "2024-01-10T00:00:00" "2024-01-12T00:00:00" "Activa"] 1)) /\
     reservas s' = [0%nat] /\ esta_disponible s' 0%nat = false) /\
  (exists s',
     atender (RealizarReserva "CF1" 101 ene10 ene12) mundo_registrado base_agotada =
       Some (Abortada DatabaseManager.DatabaseFull s' base_agotada) /\
     reservas s' = [0%nat] /\ esta_disponible s' 0%nat = false).
Proof.
  assert (Hbf : bien_formado mundo_registrado) by resolver_bf.
  assert (Hpc : primera (cli_con_dpi mundo_registrado "CF1")
                        (clientes mundo_registrado) 0%nat).
  { exists [], []. repeat split. apply Forall_nil_2. }
  assert (Hph : primera (hab_con_numero mundo_registrado 101)
                        (habitaciones mundo_registrado) 0%nat).
  { exists [], []. repeat split. apply Forall_nil_2. }
  split; [exact Hbf|]. split.
  - destruct (realizar_reserva_correcta mundo_registrado base_vacia
                "CF1" 101 ene10 ene12 Hbf) as (Hexito & _).
    destruct (Hexito 0%nat 0%nat (mkCliente "Ana" "Lopez" "CF1" [])
                (mkHabitacion Estandar 101 "Estándar" 100%float true)
                Hpc Hph eq_refl eq_refl eq_refl) as (s' & -> & Hocu & Hat).
    eexists. split; [exact Hat|]. split; [reflexivity | exact Hocu].
  - destruct (realizar_reserva_correcta mundo_registrado base_agotada
                "CF1" 101 ene10 ene12 Hbf) as (Hexito & _).
    destruct (Hexito 0%nat 0%nat (mkCliente "Ana" "Lopez" "CF1" [])
                (mkHabitacion Estandar 101 "Estándar" 100%float true)
                Hpc Hph eq_refl eq_refl eq_refl) as (s' & -> & Hocu & Hat).
    eexists. split; [exact Hat|]. split; [reflexivity | exact Hocu].
Defined.
